(** * Loan metrics validation: a shallow embedding of
      [backend/tests/test_loan_metrics_validation.py]

    The validator recomputes, for one loan, the value every derived metric
    is expected to have and compares it with the stored snapshot.  This file
    embeds those computations ([MetricsValidator.count_business_days] and
    the [validate_*] methods) and checks the statements the specification
    makes about them.

    Conventions.
    - A Python [int] is a [Z].
    - A [Decimal], and the [float] of the delay-rate formula, is a rational
      [Q]: arithmetic is exact, so the rounding of the decimal context and
      of binary64 is not represented.  Equalities between amounts are stated
      with [==] ([Qeq]).
    - A [datetime.date] is its proleptic Gregorian ordinal
      ([date.toordinal()]), a [Z] between 1 and 3652059.
    - A column that may be NULL is an [option].
    - A computation that may raise returns a [result].
    - [date.today()] is read from a [Clock], one reading for each call.
    - The expected values are first given as functions of rows whose
      operands are present ([DjangoLoan], [Repayment], [MetricsLoan]); the
      methods of [MetricsValidator] then run on the rows as fetched
      ([Raw]), in which any column may be NULL. *)

From Stdlib Require Import String.
From Stdlib Require Import ZArith QArith Qround Qminmax Qabs Lia Lqa List Bool.
From Stdlib Require Import Permutation.
Import ListNotations.

Local Open Scope Z_scope.

(** ** Outcomes of a Python computation *)

Inductive exn : Set :=
| TypeError
| ZeroDivisionError
| OverflowError
| InvalidOperation.

(** [OutOfFuel] is the outcome of a loop model whose iteration budget ran
    out; no Python run produces it, and the loops below are shown never to
    reach it. *)
Inductive result (A : Type) : Type :=
| Ok (a : A)
| Raise (e : exn)
| OutOfFuel.

Arguments Ok {A} a.
Arguments Raise {A} e.
Arguments OutOfFuel {A}.

Definition bind {A B : Type} (c : result A) (k : A -> result B) : result B :=
  match c with
  | Ok a => k a
  | Raise e => Raise e
  | OutOfFuel => OutOfFuel
  end.

Notation "x <- c ;; k" := (bind c (fun x => k))
  (at level 61, c at next level, right associativity).

Definition returns {A : Type} (c : result A) : Prop := exists a, c = Ok a.

(** ** Dates *)

Module Date.

(** [datetime.date] as its ordinal; 1 is 0001-01-01. *)
Abbreviation t := Z (only parsing).

Definition MAXORDINAL : Z := 3652059.

Definition valid (d : t) : Prop := 1 <= d <= MAXORDINAL.

(** [date.weekday()]: [(self.toordinal() + 6) % 7], Monday is 0. *)
Definition weekday (d : t) : Z := (d + 6) mod 7.

(** [date.__add__] with a [timedelta] of [n] days: the sum of the ordinals
    when it is a date, [OverflowError] otherwise. *)
Definition add_days (d : t) (n : Z) : result t :=
  let o := d + n in
  if (0 <? o) && (o <=? MAXORDINAL) then Ok o else Raise OverflowError.

(** [(a - b).days] *)
Definition days_between (a b : t) : Z := a - b.

(** The calendar, to write dates as year, month and day. *)
Definition is_leap (y : Z) : bool :=
  (y mod 4 =? 0) && (negb (y mod 100 =? 0) || (y mod 400 =? 0)).

Definition days_before_year (y : Z) : Z :=
  let y' := y - 1 in y' * 365 + y' / 4 - y' / 100 + y' / 400.

Definition days_before_month (y m : Z) : Z :=
  nth (Z.to_nat m) [0; 0; 31; 59; 90; 120; 151; 181; 212; 243; 273; 304; 334] 0
  + (if (2 <? m) && is_leap y then 1 else 0).

Definition ymd (y m d : Z) : t :=
  days_before_year y + days_before_month y m + d.

(** [date.max] *)
Definition max : t := ymd 9999 12 31.

End Date.

(** ** The wall clock

    Apart from the rows it fetches, [date.today()] is all the validator
    reads of its environment.  An [instant] is a point in local time, in seconds since
    the midnight that starts 0001-01-01; [date_today] is the calendar date
    it falls on. *)

Abbreviation instant := Z (only parsing).

Definition date_today (now : instant) : Date.t := now / 86400 + 1.

(** Noon of a date, to write instants. *)
Definition noon (d : Date.t) : instant := (d - 1) * 86400 + 43200.

(** The validation of one loan calls [date.today()] up to three times: for
    the business days since disbursement (line 370), for the loan age
    (line 379) and for the first-installment tag (line 499).  A [Clock]
    holds what each call reads; a reading whose call is not reached is not
    used. *)
Record Clock : Set := {
  business_days_today : instant;
  loan_age_today : instant;
  fimr_today : instant
}.

(** A run that is over within the instant [now]. *)
Definition at_instant (now : instant) : Clock :=
  {| business_days_today := now; loan_age_today := now; fimr_today := now |}.

(** Every reading falls on the date [d]. *)
Definition on_day (clock : Clock) (d : Date.t) : Prop :=
  date_today (business_days_today clock) = d
  /\ date_today (loan_age_today clock) = d
  /\ date_today (fimr_today clock) = d.

(** ** [count_business_days] *)

Definition is_business_day (d : Date.t) : bool := Date.weekday d <? 5.

(** The [while current <= end_date] loop.  One unit of fuel pays for one
    evaluation of the loop condition. *)
Fixpoint count_business_days_loop (fuel : nat) (current end_date : Date.t)
    (days : Z) : result Z :=
  match fuel with
  | O => OutOfFuel
  | S fuel' =>
      if current <=? end_date then
        let days := if Date.weekday current <? 5 then days + 1 else days in
        current <- Date.add_days current 1 ;;
        count_business_days_loop fuel' current end_date days
      else Ok days
  end.

Definition count_business_days (start_date end_date : option Date.t)
    : result Z :=
  match start_date, end_date with
  | Some start_date, Some end_date =>
      count_business_days_loop
        (S (Z.to_nat (end_date - start_date + 1))) start_date end_date 0
  | _, _ => Ok 0
  end.

(** What the specification asks of [businessDaysBetween]: the number of
    calendar days of the inclusive interval that fall on Monday to Friday,
    and 0 when a date is absent. *)
Definition days_of_interval (start_date end_date : Date.t) : list Date.t :=
  map (fun k => start_date + Z.of_nat k)
      (seq 0 (Z.to_nat (end_date - start_date + 1))).

Definition businessDaysBetween (start_date end_date : option Date.t) : Z :=
  match start_date, end_date with
  | Some s, Some e =>
      Z.of_nat (length (filter is_business_day (days_of_interval s e)))
  | _, _ => 0
  end.

(** ** Numbers *)

Local Open Scope Q_scope.

(** [a > b] on decimals. *)
Definition Qgt_bool (a b : Q) : bool := negb (Qle_bool a b).

(** Truth value of a column: NULL and zero are false. *)
Definition truthy_Q (x : option Q) : bool :=
  match x with
  | Some q => negb (Qeq_bool q 0)
  | None => false
  end.

Definition truthy_Z (x : option Z) : bool :=
  match x with
  | Some z => negb (z =? 0)%Z
  | None => false
  end.

(** [x and x > 0] *)
Definition positive_Q (x : option Q) : bool :=
  match x with
  | Some q => negb (Qeq_bool q 0) && Qgt_bool q 0
  | None => false
  end.

(** [a / b]: raises on a zero divisor. *)
Definition py_div (a b : Q) : result Q :=
  if Qeq_bool b 0 then Raise ZeroDivisionError else Ok (a / b).

(** [int(x)] on a decimal: the integer part, rounding toward zero. *)
Definition py_int (x : Q) : Z := Z.quot (Qnum x) (Zpos (Qden x)).

(** [Decimal(str(v)) if v else Decimal('0')] *)
Definition decimal_or_zero (v : option Q) : Q :=
  if truthy_Q v then match v with Some q => q | None => 0 end else 0.

(** ** Rows *)

(** A row of [loans_ajoloan], as [get_django_loan_data] selects it, with
    its amount, rate and term present. *)
Record DjangoLoan : Set := {
  loan_amount : Q;
  interest_rate : Q;
  fee_amount : option Q;
  loan_term_days : Z;
  disbursement_date : option Date.t;
  maturity_date : option Date.t;
  first_payment_due_date : option Date.t
}.

(** A row of [loans_ajorepayment] that is not reversed, with its amounts
    present. *)
Record Repayment : Set := {
  payment_date : Date.t;
  principal_paid : Q;
  interest_paid : Q;
  fees_paid : Q;
  payment_amount : Q
}.

(** The columns of the stored snapshot ([get_metrics_loan_data]) that the
    expected values are computed from, on a snapshot whose totals and days
    past due are present; the columns that may be NULL without an
    exception are options. *)
Record MetricsLoan : Set := {
  m_first_payment_due_date : option Date.t;
  first_payment_received_date : option Date.t;
  total_principal_paid : Q;
  total_interest_paid : Q;
  total_fees_paid : Q;
  total_repayments : Q;
  actual_outstanding : option Q;
  current_dpd : Z;
  loan_age : option Z;
  days_since_last_repayment : option Z;
  daily_repayment_amount : option Q;
  repayment_days_paid : option Q;
  repayment_days_due_today : option Z
}.

(** ** [validate_repayment_totals] *)

Record RepaymentTotals : Set := {
  expected_principal : Q;
  expected_interest : Q;
  expected_fees : Q;
  expected_total : Q
}.

(** [sum(...)] of decimals, from the integer 0. *)
Definition py_sum (xs : list Q) : Q := fold_left Qplus xs 0.

Definition validate_repayment_totals (django_repayments : list Repayment)
    : RepaymentTotals :=
  {| expected_principal := py_sum (map principal_paid django_repayments);
     expected_interest := py_sum (map interest_paid django_repayments);
     expected_fees := py_sum (map fees_paid django_repayments);
     expected_total := py_sum (map payment_amount django_repayments) |}.

(** ** [validate_outstanding_balances] *)

Record OutstandingBalances : Set := {
  expected_principal_outstanding : Q;
  expected_interest_outstanding : Q;
  expected_fees_outstanding : Q;
  expected_total_outstanding : Q
}.

Definition validate_outstanding_balances (django_data : DjangoLoan)
    (metrics_data : MetricsLoan) : OutstandingBalances :=
  let loan_amount := loan_amount django_data in
  let interest_rate := interest_rate django_data in
  let fee_amount := decimal_or_zero (fee_amount django_data) in
  let expected_principal_outstanding :=
    loan_amount - total_principal_paid metrics_data in
  let expected_interest_outstanding :=
    Qmax 0 (loan_amount * interest_rate - total_interest_paid metrics_data) in
  let expected_fees_outstanding :=
    Qmax 0 (fee_amount - total_fees_paid metrics_data) in
  {| expected_principal_outstanding := expected_principal_outstanding;
     expected_interest_outstanding := expected_interest_outstanding;
     expected_fees_outstanding := expected_fees_outstanding;
     expected_total_outstanding :=
       expected_principal_outstanding + expected_interest_outstanding
       + expected_fees_outstanding |}.

(** ** [validate_business_days_calculations] *)

Definition repayment_amount (django_data : DjangoLoan) : Q :=
  loan_amount django_data * (1 + interest_rate django_data)
  + decimal_or_zero (fee_amount django_data).

Definition expected_daily_repayment (django_data : DjangoLoan) : result Q :=
  if (loan_term_days django_data >? 0)%Z
  then py_div (repayment_amount django_data)
           (inject_Z (loan_term_days django_data))
  else Ok 0.

(** [None] when the guard on the stored daily amount skips the check. *)
Definition expected_repayment_days_paid_of (daily_repayment_amount : option Q)
    (total_repayments : Q) : result (option Q) :=
  if positive_Q daily_repayment_amount then
    match daily_repayment_amount with
    | Some daily => q <- py_div total_repayments daily ;; Ok (Some q)
    | None => Raise TypeError
    end
  else Ok None.

Definition expected_repayment_days_paid (metrics_data : MetricsLoan)
    : result (option Q) :=
  expected_repayment_days_paid_of (daily_repayment_amount metrics_data)
                                  (total_repayments metrics_data).

Record BusinessDaysExpectations : Set := {
  expected_business_days : option Z;
  expected_loan_age : option Z;
  expected_daily : Q;
  expected_days_paid : option Q
}.

Definition validate_business_days_calculations (clock : Clock)
    (django_data : DjangoLoan) (metrics_data : MetricsLoan)
    : result BusinessDaysExpectations :=
  let disbursement_date := disbursement_date django_data in
  expected_business_days <-
    match disbursement_date with
    | Some _ =>
        n <- count_business_days disbursement_date
               (Some (date_today (business_days_today clock))) ;;
        Ok (Some n)
    | None => Ok None
    end ;;
  let expected_loan_age :=
    match disbursement_date with
    | Some d =>
        Some (Date.days_between (date_today (loan_age_today clock)) d)
    | None => None
    end in
  expected_daily_repayment <- expected_daily_repayment django_data ;;
  expected_repayment_days_paid <- expected_repayment_days_paid metrics_data ;;
  Ok {| expected_business_days := expected_business_days;
        expected_loan_age := expected_loan_age;
        expected_daily := expected_daily_repayment;
        expected_days_paid := expected_repayment_days_paid |}.

(** ** [validate_actual_outstanding] *)

Definition expected_actual_outstanding_of (daily_repayment_amount : option Q)
    (repayment_days_due_today : option Z) (total_repayments : Q) : Q :=
  if truthy_Q daily_repayment_amount && truthy_Z repayment_days_due_today
  then
    match daily_repayment_amount, repayment_days_due_today with
    | Some daily, Some due => Qmax 0 (daily * inject_Z due - total_repayments)
    | _, _ => 0
    end
  else 0.

Definition validate_actual_outstanding (metrics_data : MetricsLoan) : Q :=
  expected_actual_outstanding_of (daily_repayment_amount metrics_data)
                                 (repayment_days_due_today metrics_data)
                                 (total_repayments metrics_data).

(** ** [validate_dpd_calculations] *)

Definition expected_dpd_of (actual_outstanding : option Q)
    (repayment_days_due_today : option Z) (repayment_days_paid : option Q)
    : result Z :=
  if positive_Q actual_outstanding then
    match repayment_days_due_today, repayment_days_paid with
    | Some due, Some paid => Ok (Z.max 0 (due - py_int paid))
    | _, _ => Raise TypeError
    end
  else Ok 0%Z.

Definition expected_dpd (metrics_data : MetricsLoan) : result Z :=
  expected_dpd_of (actual_outstanding metrics_data)
                  (repayment_days_due_today metrics_data)
                  (repayment_days_paid metrics_data).

Definition expected_early_indicator (metrics_data : MetricsLoan) : bool :=
  ((1 <=? current_dpd metrics_data) && (current_dpd metrics_data <=? 6))%Z.

Definition validate_dpd_calculations (metrics_data : MetricsLoan)
    : result (Z * bool) :=
  expected_dpd <- expected_dpd metrics_data ;;
  Ok (expected_dpd, expected_early_indicator metrics_data).

(** ** [validate_repayment_delay_rate]

    [Ok None] is the [expected_rate = None] of the last branch.  The
    divisors [2.0] and [0.25] are constants; the division by the loan age
    goes through [py_div]. *)

Definition expected_rate_of (loan_age : option Z) (current_dpd : Z)
    (days_since_last_repayment : option Z) : result (option Q) :=
  if truthy_Z loan_age
     && match loan_age with Some a => (a >? 0)%Z | None => false end
  then
    match loan_age with
    | Some loan_age =>
        match days_since_last_repayment with
        | Some days_since_last_repayment =>
            x <- py_div (inject_Z (days_since_last_repayment + current_dpd) / 2)
                     (inject_Z loan_age) ;;
            Ok (Some ((1 - x / (25 # 100)) * 100))
        | None =>
            x <- py_div (inject_Z current_dpd) (inject_Z loan_age) ;;
            Ok (Some ((1 - x / (25 # 100)) * 100))
        end
    | None => Raise TypeError
    end
  else if match loan_age with Some a => (a =? 0)%Z | None => false end
  then Ok (Some 0)
  else Ok None.

Definition validate_repayment_delay_rate (metrics_data : MetricsLoan)
    : result (option Q) :=
  expected_rate_of (loan_age metrics_data) (current_dpd metrics_data)
                   (days_since_last_repayment metrics_data).

(** ** [validate_fimr_tagging] *)

Definition present {A : Type} (x : option A) : bool :=
  match x with Some _ => true | None => false end.

Definition expected_fimr_of (today : Date.t)
    (first_payment_due_date first_payment_received_date : option Date.t)
    : bool :=
  match first_payment_due_date with
  | None => true
  | Some due =>
      if match first_payment_received_date with
         | Some received => (received <=? due)%Z
         | None => false
         end
      then false
      else if negb (present first_payment_received_date) && (due >=? today)%Z
      then false
      else true
  end.

Definition expected_first_payment_missed_of
    (first_payment_due_date first_payment_received_date : option Date.t)
    : bool :=
  if present first_payment_received_date && present first_payment_due_date
  then
    match first_payment_received_date, first_payment_due_date with
    | Some received, Some due => (received >? due)%Z
    | _, _ => false
    end
  else if negb (present first_payment_received_date) then true
  else false.

Definition expected_fimr (now : instant) (metrics_data : MetricsLoan) : bool :=
  expected_fimr_of (date_today now)
    (m_first_payment_due_date metrics_data)
    (first_payment_received_date metrics_data).

Definition expected_first_payment_missed (metrics_data : MetricsLoan) : bool :=
  expected_first_payment_missed_of
    (m_first_payment_due_date metrics_data)
    (first_payment_received_date metrics_data).

Definition validate_fimr_tagging (now : instant) (metrics_data : MetricsLoan)
    : bool * bool :=
  (expected_fimr now metrics_data, expected_first_payment_missed metrics_data).

(** ** [validate_loan]

    The expected values of one run over a loan, in the order the validators
    are called; [Ok None] when a row was not found and nothing is checked. *)

Record Expectations : Set := {
  exp_totals : RepaymentTotals;
  exp_balances : OutstandingBalances;
  exp_business_days : BusinessDaysExpectations;
  exp_actual_outstanding : Q;
  exp_dpd : Z;
  exp_early_indicator : bool;
  exp_rate : option Q;
  exp_fimr : bool;
  exp_first_payment_missed : bool
}.

Definition validate_loan (clock : Clock) (django_data : option DjangoLoan)
    (metrics_data : option MetricsLoan) (django_repayments : list Repayment)
    : result (option Expectations) :=
  match django_data with
  | None => Ok None
  | Some django_data =>
      match metrics_data with
      | None => Ok None
      | Some metrics_data =>
          let totals := validate_repayment_totals django_repayments in
          let balances :=
            validate_outstanding_balances django_data metrics_data in
          business_days <-
            validate_business_days_calculations clock django_data
              metrics_data ;;
          let actual := validate_actual_outstanding metrics_data in
          dpd <- validate_dpd_calculations metrics_data ;;
          rate <- validate_repayment_delay_rate metrics_data ;;
          let fimr := validate_fimr_tagging (fimr_today clock) metrics_data in
          Ok (Some {| exp_totals := totals;
                      exp_balances := balances;
                      exp_business_days := business_days;
                      exp_actual_outstanding := actual;
                      exp_dpd := fst dpd;
                      exp_early_indicator := snd dpd;
                      exp_rate := rate;
                      exp_fimr := fst fimr;
                      exp_first_payment_missed := snd fimr |})
      end
  end.

(** ** The snapshot as a function of the evaluation date

    The repository holds the validator only: the engine that fills the
    stored snapshot is not part of it, and the validator reads
    [repayment_days_due_today] from the row without deriving it. *)

Module Engine.

(** Modelled from the spec: the derivation of [repaymentDaysDueToday],
    absent from the repository.  Section 4.3 gives it as the business days
    elapsed since disbursement, capped at the loan's term length; the
    business days are those of the [businessDaysBetween] contract. *)
Definition repaymentDaysDueToday (loanTerms : DjangoLoan)
    (evaluationDate : Date.t) : Z :=
  Z.min (businessDaysBetween (disbursement_date loanTerms)
                             (Some evaluationDate))
        (loan_term_days loanTerms).

Definition first_payment (repayments : list Repayment) : option Date.t :=
  match repayments with
  | [] => None
  | r :: _ => Some (payment_date r)
  end.

Definition last_payment (repayments : list Repayment) : option Date.t :=
  first_payment (rev repayments).

(** Modelled from the spec: [computeSnapshot] (section 4.6), absent from
    the repository.  From the loan terms, the chronological repayments and
    the evaluation date it fills the columns of the snapshot that the
    validator reads: the aggregates of section 4.2, then the schedule
    fields of section 4.3, then the days past due of section 4.4.  Each
    column is given the value the validator expects of it;
    [repaymentDaysPaid] is zero where section 4.3 leaves it
    undefined/zero. *)
Definition computeSnapshot (loanTerms : DjangoLoan)
    (repayments : list Repayment) (evaluationDate : Date.t)
    : result MetricsLoan :=
  let totals := validate_repayment_totals repayments in
  daily <- expected_daily_repayment loanTerms ;;
  let due := repaymentDaysDueToday loanTerms evaluationDate in
  let actual :=
    expected_actual_outstanding_of (Some daily) (Some due)
                                   (expected_total totals) in
  days_paid <-
    expected_repayment_days_paid_of (Some daily) (expected_total totals) ;;
  let paid := match days_paid with Some q => q | None => 0 end in
  dpd <- expected_dpd_of (Some actual) (Some due) (Some paid) ;;
  let age :=
    option_map (Date.days_between evaluationDate)
               (disbursement_date loanTerms) in
  let since_last :=
    option_map (Date.days_between evaluationDate)
               (last_payment repayments) in
  Ok {| m_first_payment_due_date := first_payment_due_date loanTerms;
        first_payment_received_date := first_payment repayments;
        total_principal_paid := expected_principal totals;
        total_interest_paid := expected_interest totals;
        total_fees_paid := expected_fees totals;
        total_repayments := expected_total totals;
        actual_outstanding := Some actual;
        current_dpd := dpd;
        loan_age := age;
        days_since_last_repayment := since_last;
        daily_repayment_amount := Some daily;
        repayment_days_paid := Some paid;
        repayment_days_due_today := Some due |}.

End Engine.

(** ** Rows as the driver returns them

    The pure functions above take a row whose operands are present.  The
    driver returns rows in which any column may be NULL, and the methods of
    the validator find that out where Python does: [Decimal(str(None))]
    raises [InvalidOperation], an arithmetic operation or an ordering
    comparison on [None] raises [TypeError].  [Raw.DjangoLoan],
    [Raw.Repayment] and [Raw.MetricsLoan] are the three rows with every
    column optional.  A column that is not NULL holds a value of the type
    the code computes with, and a decimal that is computed from is finite;
    the conversion of an integer to a float in the delay rate is exact, so
    the [OverflowError] of an integer beyond the range of a float, which no
    integer column holds, is not represented. *)

Module Raw.

Record DjangoLoan : Set := {
  loan_amount : option Q;
  interest_rate : option Q;
  fee_amount : option Q;
  loan_term_days : option Z;
  disbursement_date : option Date.t;
  maturity_date : option Date.t;
  first_payment_due_date : option Date.t
}.

Record Repayment : Set := {
  payment_date : option Date.t;
  principal_paid : option Q;
  interest_paid : option Q;
  fees_paid : option Q;
  payment_amount : option Q
}.

Record MetricsLoan : Set := {
  m_first_payment_due_date : option Date.t;
  first_payment_received_date : option Date.t;
  total_principal_paid : option Q;
  total_interest_paid : option Q;
  total_fees_paid : option Q;
  total_repayments : option Q;
  actual_outstanding : option Q;
  current_dpd : option Z;
  loan_age : option Z;
  days_since_last_repayment : option Z;
  daily_repayment_amount : option Q;
  repayment_days_paid : option Q;
  repayment_days_due_today : option Z
}.

End Raw.

(** A row whose operands are present, as the driver returns it. *)
Definition raw_django_loan (django_data : DjangoLoan) : Raw.DjangoLoan :=
  {| Raw.loan_amount := Some (loan_amount django_data);
     Raw.interest_rate := Some (interest_rate django_data);
     Raw.fee_amount := fee_amount django_data;
     Raw.loan_term_days := Some (loan_term_days django_data);
     Raw.disbursement_date := disbursement_date django_data;
     Raw.maturity_date := maturity_date django_data;
     Raw.first_payment_due_date := first_payment_due_date django_data |}.

Definition raw_repayment (repayment : Repayment) : Raw.Repayment :=
  {| Raw.payment_date := Some (payment_date repayment);
     Raw.principal_paid := Some (principal_paid repayment);
     Raw.interest_paid := Some (interest_paid repayment);
     Raw.fees_paid := Some (fees_paid repayment);
     Raw.payment_amount := Some (payment_amount repayment) |}.

Definition raw_metrics_loan (metrics_data : MetricsLoan) : Raw.MetricsLoan :=
  {| Raw.m_first_payment_due_date := m_first_payment_due_date metrics_data;
     Raw.first_payment_received_date :=
       first_payment_received_date metrics_data;
     Raw.total_principal_paid := Some (total_principal_paid metrics_data);
     Raw.total_interest_paid := Some (total_interest_paid metrics_data);
     Raw.total_fees_paid := Some (total_fees_paid metrics_data);
     Raw.total_repayments := Some (total_repayments metrics_data);
     Raw.actual_outstanding := actual_outstanding metrics_data;
     Raw.current_dpd := Some (current_dpd metrics_data);
     Raw.loan_age := loan_age metrics_data;
     Raw.days_since_last_repayment := days_since_last_repayment metrics_data;
     Raw.daily_repayment_amount := daily_repayment_amount metrics_data;
     Raw.repayment_days_paid := repayment_days_paid metrics_data;
     Raw.repayment_days_due_today := repayment_days_due_today metrics_data |}.

(** [Decimal(str(v))] on a decimal column: [str(None)] is not a number. *)
Definition decimal_of_str (v : option Q) : result Q :=
  match v with
  | Some q => Ok q
  | None => Raise InvalidOperation
  end.

(** The evaluation of a generator of [Decimal(str(...))], in order. *)
Fixpoint decimals (vs : list (option Q)) : result (list Q) :=
  match vs with
  | [] => Ok []
  | v :: vs =>
      q <- decimal_of_str v ;;
      qs <- decimals vs ;;
      Ok (q :: qs)
  end.

(** A column as the operand of [+], [-], [*], [/], [<=] or [>]. *)
Definition operand {A : Type} (v : option A) : result A :=
  match v with
  | Some a => Ok a
  | None => Raise TypeError
  end.

(** Lines 325 to 328 on their six operands. *)
Definition outstanding_balances_of
    (loan_amount interest_rate fee_amount : Q)
    (total_principal_paid total_interest_paid total_fees_paid : Q)
    : OutstandingBalances :=
  let expected_principal_outstanding := loan_amount - total_principal_paid in
  let expected_interest_outstanding :=
    Qmax 0 (loan_amount * interest_rate - total_interest_paid) in
  let expected_fees_outstanding := Qmax 0 (fee_amount - total_fees_paid) in
  {| expected_principal_outstanding := expected_principal_outstanding;
     expected_interest_outstanding := expected_interest_outstanding;
     expected_fees_outstanding := expected_fees_outstanding;
     expected_total_outstanding :=
       expected_principal_outstanding + expected_interest_outstanding
       + expected_fees_outstanding |}.

(** Line 393 on its two operands. *)
Definition expected_daily_repayment_of (repayment_amount : Q)
    (loan_term_days : Z) : result Q :=
  if (loan_term_days >? 0)%Z
  then py_div repayment_amount (inject_Z loan_term_days)
  else Ok 0.

(** Line 429 on its operand. *)
Definition expected_early_indicator_of (current_dpd : Z) : bool :=
  ((1 <=? current_dpd) && (current_dpd <=? 6))%Z.

(** Lines 403 and 404: the total repaid is divided, and has to be there,
    behind the guard only. *)
Definition raw_expected_repayment_days_paid (metrics_data : Raw.MetricsLoan)
    : result (option Q) :=
  let daily_repayment_amount := Raw.daily_repayment_amount metrics_data in
  if positive_Q daily_repayment_amount then
    total_repayments <- operand (Raw.total_repayments metrics_data) ;;
    expected_repayment_days_paid_of daily_repayment_amount total_repayments
  else Ok None.

(** Lines 441 to 447 *)
Definition raw_validate_actual_outstanding (metrics_data : Raw.MetricsLoan)
    : result Q :=
  let daily_repayment_amount := Raw.daily_repayment_amount metrics_data in
  let repayment_days_due_today :=
    Raw.repayment_days_due_today metrics_data in
  if truthy_Q daily_repayment_amount && truthy_Z repayment_days_due_today
  then
    total_repayments <- operand (Raw.total_repayments metrics_data) ;;
    Ok (expected_actual_outstanding_of daily_repayment_amount
          repayment_days_due_today total_repayments)
  else Ok 0.

(** Lines 417 to 420 *)
Definition raw_expected_dpd (metrics_data : Raw.MetricsLoan) : result Z :=
  expected_dpd_of (Raw.actual_outstanding metrics_data)
                  (Raw.repayment_days_due_today metrics_data)
                  (Raw.repayment_days_paid metrics_data).

(** Lines 460 to 475: [current_dpd] is an operand for a positive loan age
    only. *)
Definition raw_validate_repayment_delay_rate
    (metrics_data : Raw.MetricsLoan) : result (option Q) :=
  let loan_age := Raw.loan_age metrics_data in
  if truthy_Z loan_age
     && match loan_age with Some a => (a >? 0)%Z | None => false end
  then
    current_dpd <- operand (Raw.current_dpd metrics_data) ;;
    expected_rate_of loan_age current_dpd
                     (Raw.days_since_last_repayment metrics_data)
  else if match loan_age with Some a => (a =? 0)%Z | None => false end
  then Ok (Some 0)
  else Ok None.

(** ** Values and the test counters

    The validator as the object it is: [assert_equal] compares an expected
    with a stored value and keeps the counters and the list of results of
    [MetricsValidator]; every [validate_*] method is a sequence of calls to
    it.  What the methods print is left out. *)

(** The values that reach [assert_equal]: what the expected values are
    made of and what the database driver returns for a column.  [VNaN]
    and [VInfinity] are the special values of a [Decimal] or of a
    [float]. *)
Inductive value : Set :=
| VNone
| VBool (b : bool)
| VInt (z : Z)
| VDecimal (q : Q)
| VFloat (q : Q)
| VDate (d : Date.t)
| VNaN
| VInfinity (negative : bool).

Definition of_decimal (x : option Q) : value :=
  match x with Some q => VDecimal q | None => VNone end.

Definition of_int (x : option Z) : value :=
  match x with Some z => VInt z | None => VNone end.

Definition of_date (x : option Date.t) : value :=
  match x with Some d => VDate d | None => VNone end.

(** The number a value stands for; a [bool] is the integer 0 or 1. *)
Definition numeric (v : value) : option Q :=
  match v with
  | VBool b => Some (inject_Z (Z.b2z b))
  | VInt z => Some (inject_Z z)
  | VDecimal q => Some q
  | VFloat q => Some q
  | VNone => None
  | VDate _ => None
  | VNaN => None
  | VInfinity _ => None
  end.

(** [expected == actual]: numbers compare by value across their types,
    dates with dates, [None] with [None], an infinity with the infinity of
    its sign; anything else is unequal, a NaN also to itself. *)
Definition py_eq (a b : value) : bool :=
  match a, b with
  | VNone, VNone => true
  | VDate d1, VDate d2 => (d1 =? d2)%Z
  | VInfinity s1, VInfinity s2 => Bool.eqb s1 s2
  | _, _ =>
      match numeric a, numeric b with
      | Some x, Some y => Qeq_bool x y
      | _, _ => false
      end
  end.

(** [isinstance(v, (Decimal, float))] *)
Definition is_decimal_or_float (v : value) : bool :=
  match v with
  | VDecimal _ => true
  | VFloat _ => true
  | VNaN => true
  | VInfinity _ => true
  | _ => false
  end.

(** [Decimal(str(v))] of a [Decimal] or a [float]. *)
Inductive decimal : Set :=
| Finite (q : Q)
| NaN
| Infinity (negative : bool).

Definition to_decimal (v : value) : option decimal :=
  match v with
  | VDecimal q => Some (Finite q)
  | VFloat q => Some (Finite q)
  | VNaN => Some NaN
  | VInfinity s => Some (Infinity s)
  | _ => None
  end.

(** [abs(x - y) <= tolerance] in the default decimal context, which traps
    [InvalidOperation]: the difference of two infinities of one sign
    signals it, and so does the ordering of a NaN, which is what a
    difference with a NaN is. *)
Definition within (x y : decimal) (tolerance : Q) : result bool :=
  match x, y with
  | Finite x, Finite y => Ok (Qle_bool (Qabs (x - y)) tolerance)
  | NaN, _ => Raise InvalidOperation
  | _, NaN => Raise InvalidOperation
  | Infinity s1, Infinity s2 =>
      if Bool.eqb s1 s2 then Raise InvalidOperation else Ok false
  | _, _ => Ok false
  end.

(** Lines 212 to 215 *)
Definition compare (expected actual : value) (tolerance : option Q)
    : result bool :=
  if truthy_Q tolerance && is_decimal_or_float expected
     && is_decimal_or_float actual
  then
    match tolerance, to_decimal expected, to_decimal actual with
    | Some tolerance, Some x, Some y => within x y tolerance
    | _, _, _ => Ok false
    end
  else Ok (py_eq expected actual).

(** [sum(Decimal(...) for r in rows)]: the integer 0 when there is no row,
    a decimal otherwise. *)
Definition sum_value (xs : list Q) : value :=
  match xs with
  | [] => VInt 0
  | _ :: _ => VDecimal (py_sum xs)
  end.

(** The columns of the stored snapshot that are only compared, never
    computed from; each holds whatever the driver returned. *)
Record StoredColumns : Set := {
  stored_loan_amount : value;
  stored_disbursement_date : value;
  stored_maturity_date : value;
  stored_loan_term_days : value;
  stored_interest_rate : value;
  stored_principal_outstanding : value;
  stored_interest_outstanding : value;
  stored_fees_outstanding : value;
  stored_total_outstanding : value;
  stored_business_days_since_disbursement : value;
  stored_early_indicator_tagged : value;
  stored_repayment_delay_rate : value;
  stored_fimr_tagged : value;
  stored_first_payment_missed : value
}.

(** What the three queries of [validate_loan] return for a loan id; a
    query is run once for a loan.  The queries are taken to return: one
    that raises ends the validation of its loan before the first test. *)
Record Database : Type := {
  get_django_loan_data : string -> option Raw.DjangoLoan;
  get_metrics_loan_data : string -> option (Raw.MetricsLoan * StoredColumns);
  get_django_repayments : string -> list Raw.Repayment
}.

Definition TEST_LOAN_IDS : list string :=
  ["8"; "3475"; "11883"; "2118"; "7150"; "12129"; "107"; "3523"; "16192";
   "18691"]%string.

Module Validator.

Record TestResult : Set := {
  test : string;
  passed : bool;
  expected : value;
  actual : value
}.

Record MetricsValidator : Set := {
  test_results : list TestResult;
  total_tests : Z;
  passed_tests : Z;
  failed_tests : Z
}.

(** [__init__] *)
Definition init : MetricsValidator :=
  {| test_results := []; total_tests := 0; passed_tests := 0;
     failed_tests := 0 |}.

(** A method: it returns or raises, and leaves the object as it has made
    it up to there. *)
Definition method (A : Type) : Type :=
  MetricsValidator -> result A * MetricsValidator.

Definition ret {A : Type} (a : A) : method A := fun self => (Ok a, self).

Definition lift {A : Type} (c : result A) : method A := fun self => (c, self).

Definition mbind {A B : Type} (c : method A) (k : A -> method B) : method B :=
  fun self =>
    match c self with
    | (Ok a, self) => k a self
    | (Raise e, self) => (Raise e, self)
    | (OutOfFuel, self) => (OutOfFuel, self)
    end.

Declare Scope method_scope.
Delimit Scope method_scope with method.
Bind Scope method_scope with method.

Notation "x <- c ;; k" := (mbind c (fun x => k))
  (at level 61, c at next level, right associativity) : method_scope.
Notation "c ;; k" := (mbind c (fun _ => k))
  (at level 61, right associativity) : method_scope.

Local Open Scope method_scope.

(** Line 210: the test is counted before the values are compared. *)
Definition count_test (self : MetricsValidator) : MetricsValidator :=
  {| test_results := test_results self;
     total_tests := (total_tests self + 1)%Z;
     passed_tests := passed_tests self;
     failed_tests := failed_tests self |}.

(** Lines 217 to 231: the verdict is counted and recorded. *)
Definition record_result (entry : TestResult) (self : MetricsValidator)
    : MetricsValidator :=
  {| test_results := test_results self ++ [entry];
     total_tests := total_tests self;
     passed_tests :=
       if passed entry then (passed_tests self + 1)%Z
       else passed_tests self;
     failed_tests :=
       if passed entry then failed_tests self
       else (failed_tests self + 1)%Z |}.

Definition assert_equal (test_name : string) (expected actual : value)
    (tolerance : option Q) : method bool :=
  fun self =>
    let self := count_test self in
    match compare expected actual tolerance with
    | Ok passed =>
        (Ok passed,
         record_result {| test := test_name; passed := passed;
                          expected := expected; actual := actual |} self)
    | Raise e => (Raise e, self)
    | OutOfFuel => (OutOfFuel, self)
    end.

Definition validate_basic_fields (django_data : Raw.DjangoLoan)
    (metrics_data : Raw.MetricsLoan) (stored : StoredColumns) : method unit :=
  loan_amount <- lift (decimal_of_str (Raw.loan_amount django_data)) ;;
  assert_equal "Loan Amount" (VDecimal loan_amount)
    (stored_loan_amount stored) (Some (1 # 100)) ;;
  assert_equal "Disbursement Date"
    (of_date (Raw.disbursement_date django_data))
    (stored_disbursement_date stored) None ;;
  assert_equal "Maturity Date" (of_date (Raw.maturity_date django_data))
    (stored_maturity_date stored) None ;;
  assert_equal "Loan Term Days" (of_int (Raw.loan_term_days django_data))
    (stored_loan_term_days stored) None ;;
  interest_rate <- lift (decimal_of_str (Raw.interest_rate django_data)) ;;
  assert_equal "Interest Rate" (VDecimal interest_rate)
    (stored_interest_rate stored) (Some (1 # 10000)) ;;
  assert_equal "First Payment Due Date"
    (of_date (Raw.first_payment_due_date django_data))
    (of_date (Raw.m_first_payment_due_date metrics_data)) None ;;
  ret tt.

Definition validate_repayment_totals (django_repayments : list Raw.Repayment)
    (metrics_data : Raw.MetricsLoan) : method unit :=
  principal <- lift (decimals (map Raw.principal_paid django_repayments)) ;;
  interest <- lift (decimals (map Raw.interest_paid django_repayments)) ;;
  fees <- lift (decimals (map Raw.fees_paid django_repayments)) ;;
  total <- lift (decimals (map Raw.payment_amount django_repayments)) ;;
  assert_equal "Total Principal Paid" (sum_value principal)
    (of_decimal (Raw.total_principal_paid metrics_data)) (Some (1 # 100)) ;;
  assert_equal "Total Interest Paid" (sum_value interest)
    (of_decimal (Raw.total_interest_paid metrics_data)) (Some (1 # 100)) ;;
  assert_equal "Total Fees Paid" (sum_value fees)
    (of_decimal (Raw.total_fees_paid metrics_data)) (Some (1 # 100)) ;;
  assert_equal "Total Repayments" (sum_value total)
    (of_decimal (Raw.total_repayments metrics_data)) (Some (1 # 100)) ;;
  ret tt.

Definition validate_outstanding_balances (django_data : Raw.DjangoLoan)
    (metrics_data : Raw.MetricsLoan) (stored : StoredColumns) : method unit :=
  loan_amount <- lift (decimal_of_str (Raw.loan_amount django_data)) ;;
  interest_rate <- lift (decimal_of_str (Raw.interest_rate django_data)) ;;
  let fee_amount := decimal_or_zero (Raw.fee_amount django_data) in
  total_principal_paid <-
    lift (operand (Raw.total_principal_paid metrics_data)) ;;
  total_interest_paid <-
    lift (operand (Raw.total_interest_paid metrics_data)) ;;
  total_fees_paid <- lift (operand (Raw.total_fees_paid metrics_data)) ;;
  let b :=
    outstanding_balances_of loan_amount interest_rate fee_amount
      total_principal_paid total_interest_paid total_fees_paid in
  assert_equal "Principal Outstanding"
    (VDecimal (expected_principal_outstanding b))
    (stored_principal_outstanding stored) (Some (1 # 100)) ;;
  assert_equal "Interest Outstanding"
    (VDecimal (expected_interest_outstanding b))
    (stored_interest_outstanding stored) (Some (1 # 100)) ;;
  assert_equal "Fees Outstanding"
    (VDecimal (expected_fees_outstanding b))
    (stored_fees_outstanding stored) (Some (1 # 100)) ;;
  assert_equal "Total Outstanding"
    (VDecimal (expected_total_outstanding b))
    (stored_total_outstanding stored) (Some (1 # 100)) ;;
  ret tt.

Definition validate_business_days_calculations (clock : Clock)
    (django_data : Raw.DjangoLoan) (metrics_data : Raw.MetricsLoan)
    (stored : StoredColumns) : method unit :=
  let disbursement_date := Raw.disbursement_date django_data in
  match disbursement_date with
  | Some _ =>
      expected_business_days <-
        lift (count_business_days disbursement_date
                (Some (date_today (business_days_today clock)))) ;;
      assert_equal "Business Days Since Disbursement"
        (VInt expected_business_days)
        (stored_business_days_since_disbursement stored) None ;;
      ret tt
  | None => ret tt
  end ;;
  match disbursement_date with
  | Some d =>
      assert_equal "Loan Age"
        (VInt (Date.days_between (date_today (loan_age_today clock)) d))
        (of_int (Raw.loan_age metrics_data)) None ;;
      ret tt
  | None => ret tt
  end ;;
  loan_amount <- lift (decimal_of_str (Raw.loan_amount django_data)) ;;
  interest_rate <- lift (decimal_of_str (Raw.interest_rate django_data)) ;;
  let fee_amount := decimal_or_zero (Raw.fee_amount django_data) in
  let repayment_amount := (loan_amount * (1 + interest_rate) + fee_amount)%Q in
  loan_term_days <- lift (operand (Raw.loan_term_days django_data)) ;;
  expected_daily_repayment <-
    lift (expected_daily_repayment_of repayment_amount loan_term_days) ;;
  assert_equal "Daily Repayment Amount" (VDecimal expected_daily_repayment)
    (of_decimal (Raw.daily_repayment_amount metrics_data))
    (Some (1 # 100)) ;;
  expected_repayment_days_paid <-
    lift (raw_expected_repayment_days_paid metrics_data) ;;
  match expected_repayment_days_paid with
  | Some expected_repayment_days_paid =>
      assert_equal "Repayment Days Paid"
        (VDecimal expected_repayment_days_paid)
        (of_decimal (Raw.repayment_days_paid metrics_data))
        (Some (1 # 100)) ;;
      ret tt
  | None => ret tt
  end.

Definition validate_actual_outstanding (metrics_data : Raw.MetricsLoan)
    : method unit :=
  expected_actual_outstanding <-
    lift (raw_validate_actual_outstanding metrics_data) ;;
  assert_equal "Actual Outstanding" (VDecimal expected_actual_outstanding)
    (of_decimal (Raw.actual_outstanding metrics_data)) (Some (1 # 100)) ;;
  ret tt.

Definition validate_dpd_calculations (metrics_data : Raw.MetricsLoan)
    (stored : StoredColumns) : method unit :=
  expected_dpd <- lift (raw_expected_dpd metrics_data) ;;
  assert_equal "Current DPD" (VInt expected_dpd)
    (of_int (Raw.current_dpd metrics_data)) None ;;
  current_dpd <- lift (operand (Raw.current_dpd metrics_data)) ;;
  assert_equal "Early Indicator Tagged"
    (VBool (expected_early_indicator_of current_dpd))
    (stored_early_indicator_tagged stored) None ;;
  ret tt.

Definition validate_fimr_tagging (now : instant)
    (metrics_data : Raw.MetricsLoan) (stored : StoredColumns) : method unit :=
  let first_payment_due_date := Raw.m_first_payment_due_date metrics_data in
  let first_payment_received_date :=
    Raw.first_payment_received_date metrics_data in
  assert_equal "FIMR Tagged"
    (VBool (expected_fimr_of (date_today now) first_payment_due_date
              first_payment_received_date))
    (stored_fimr_tagged stored) None ;;
  assert_equal "First Payment Missed"
    (VBool (expected_first_payment_missed_of first_payment_due_date
              first_payment_received_date))
    (stored_first_payment_missed stored) None ;;
  ret tt.

Section Rounding.

(** [round(expected_rate, 2)] of a float is taken as it comes. *)
Variable round2 : Q -> Q.

(** [Decimal(str(round(expected_rate, 2)))]: at a loan age of 0 the rate
    is the integer 0, which [round] leaves as it is. *)
Definition rounded (loan_age : option Z) (expected_rate : Q) : Q :=
  match loan_age with
  | Some 0%Z => 0
  | _ => round2 expected_rate
  end.

Definition validate_repayment_delay_rate (metrics_data : Raw.MetricsLoan)
    (stored : StoredColumns) : method unit :=
  expected_rate <- lift (raw_validate_repayment_delay_rate metrics_data) ;;
  match expected_rate with
  | Some expected_rate =>
      assert_equal "Repayment Delay Rate"
        (VDecimal (rounded (Raw.loan_age metrics_data) expected_rate))
        (stored_repayment_delay_rate stored) (Some (1 # 10)) ;;
      ret tt
  | None => ret tt
  end.

Definition validate_loan (clock : Clock) (db : Database) (loan_id : string)
    : method unit :=
  match get_django_loan_data db loan_id with
  | None => ret tt
  | Some django_data =>
      match get_metrics_loan_data db loan_id with
      | None => ret tt
      | Some (metrics_data, stored) =>
          let django_repayments := get_django_repayments db loan_id in
          validate_basic_fields django_data metrics_data stored ;;
          validate_repayment_totals django_repayments metrics_data ;;
          validate_outstanding_balances django_data metrics_data stored ;;
          validate_business_days_calculations clock django_data metrics_data
            stored ;;
          validate_actual_outstanding metrics_data ;;
          validate_dpd_calculations metrics_data stored ;;
          validate_repayment_delay_rate metrics_data stored ;;
          validate_fimr_tagging (fimr_today clock) metrics_data stored
      end
  end.

(** The loop of [main]: an exception of one loan is printed and the next
    loan is validated on the object as it stands.  [clock] gives the
    readings of the clock during the validation of each loan. *)
Fixpoint validate_loans (clock : string -> Clock) (db : Database)
    (loan_ids : list string) (self : MetricsValidator) : MetricsValidator :=
  match loan_ids with
  | [] => self
  | loan_id :: loan_ids =>
      validate_loans clock db loan_ids
        (snd (validate_loan (clock loan_id) db loan_id self))
  end.

End Rounding.

(** [print_summary]: the banner, the names of the failed tests and the
    pass rate. *)
Record Summary : Set := {
  all_tests_passed : bool;
  failed_test_names : list string;
  pass_rate : Q
}.

Definition print_summary (self : MetricsValidator) : Summary :=
  {| all_tests_passed := (failed_tests self =? 0)%Z;
     failed_test_names :=
       if (failed_tests self =? 0)%Z then []
       else map test (filter (fun r => negb (passed r)) (test_results self));
     pass_rate :=
       if (total_tests self >? 0)%Z
       then inject_Z (passed_tests self) / inject_Z (total_tests self) * 100
       else 0 |}.

(** [main]: the summary it prints, if it gets there, and the status it
    exits with.  [connection] is [None] when a connection could not be
    opened: [connect()] raised, the handler of the outer [try] prints the
    error and the status is 1 (as it is when a port in the environment is
    not a number, which raises before the [try]). *)
Definition main (round2 : Q -> Q) (clock : string -> Clock)
    (connection : option Database) : option Summary * Z :=
  match connection with
  | Some db =>
      let validator := validate_loans round2 clock db TEST_LOAN_IDS init in
      (Some (print_summary validator),
       if (failed_tests validator =? 0)%Z then 0%Z else 1%Z)
  | None => (None, 1%Z)
  end.

(** The outcome of the comparison of [assert_equal]. *)
Definition verdict (expected actual : value) (tolerance : option Q)
    : result bool :=
  fst (assert_equal EmptyString expected actual tolerance init).

Definition count_passed (results : list TestResult) : Z :=
  Z.of_nat (length (filter passed results)).

Definition count_failed (results : list TestResult) : Z :=
  Z.of_nat (length (filter (fun r => negb (passed r)) results)).

(** The object once the results [new] have been recorded on it, and
    [raised] comparisons have been counted and have raised. *)
Definition record_tests (self : MetricsValidator) (new : list TestResult)
    (raised : nat) : MetricsValidator :=
  {| test_results := test_results self ++ new;
     total_tests :=
       (total_tests self + Z.of_nat (length new) + Z.of_nat raised)%Z;
     passed_tests := (passed_tests self + count_passed new)%Z;
     failed_tests := (failed_tests self + count_failed new)%Z |}.

(** A method that does nothing to the object but run at most [n] tests, of
    which only the last may raise, and exactly [n], none raising, when it
    returns. *)
Definition records {A : Type} (n : nat) (c : method A) : Prop :=
  forall self, exists new raised,
    snd (c self) = record_tests self new raised
    /\ (length new + raised <= n)%nat
    /\ (raised <= 1)%nat
    /\ (returns (fst (c self)) -> length new = n /\ raised = O).

(** The counters of passed and failed tests agree with the list of
    results, and the tests that were counted without a result are
    [raised]. *)
Definition consistent (self : MetricsValidator) (raised : nat) : Prop :=
  total_tests self = (Z.of_nat (length (test_results self)) + Z.of_nat raised)%Z
  /\ passed_tests self = count_passed (test_results self)
  /\ failed_tests self = count_failed (test_results self).


End Validator.

(** ** Sample rows

    Loans and snapshots for the worked examples. *)

(** A snapshot that is behind schedule by [actual], with [due] installments
    due and [paid] installments' worth repaid. *)
Definition dpd_row (actual : option Q) (due : Z) (paid : Q) : MetricsLoan :=
  {| m_first_payment_due_date := None;
     first_payment_received_date := None;
     total_principal_paid := 0; total_interest_paid := 0;
     total_fees_paid := 0; total_repayments := 0;
     actual_outstanding := actual; current_dpd := 0; loan_age := None;
     days_since_last_repayment := None; daily_repayment_amount := None;
     repayment_days_paid := Some paid;
     repayment_days_due_today := Some due |}.

(** A snapshot with the two dates the tags are computed from. *)
Definition fimr_row (due received : option Date.t) : MetricsLoan :=
  {| m_first_payment_due_date := due;
     first_payment_received_date := received;
     total_principal_paid := 0; total_interest_paid := 0;
     total_fees_paid := 0; total_repayments := 0;
     actual_outstanding := None; current_dpd := 0; loan_age := None;
     days_since_last_repayment := None; daily_repayment_amount := None;
     repayment_days_paid := None; repayment_days_due_today := None |}.

(** A loan with the given term, and a snapshot with the given stored daily
    amount. *)
Definition term_loan (term : Z) : DjangoLoan :=
  {| loan_amount := 1000; interest_rate := 15 # 100;
     fee_amount := Some 50%Q; loan_term_days := term;
     disbursement_date := None; maturity_date := None;
     first_payment_due_date := None |}.

Definition daily_row (daily : option Q) (total : Q) : MetricsLoan :=
  {| m_first_payment_due_date := None;
     first_payment_received_date := None;
     total_principal_paid := 0; total_interest_paid := 0;
     total_fees_paid := 0; total_repayments := total;
     actual_outstanding := None; current_dpd := 0; loan_age := None;
     days_since_last_repayment := None; daily_repayment_amount := daily;
     repayment_days_paid := None; repayment_days_due_today := None |}.

(** A loan of 1000 at 0.15 with a fee of 50 over 30 days, disbursed on
    2024-02-01. *)
Definition february_loan : DjangoLoan :=
  {| loan_amount := 1000; interest_rate := 15 # 100;
     fee_amount := Some 50%Q; loan_term_days := 30;
     disbursement_date := Some (Date.ymd 2024 2 1);
     maturity_date := Some (Date.ymd 2024 3 2);
     first_payment_due_date := Some (Date.ymd 2024 2 2) |}.

(** A row with no repayment whose first payment is due on 2024-03-01. *)
Definition march_row : MetricsLoan :=
  fimr_row (Some (Date.ymd 2024 3 1)) None.

(** ** Test counts and sample databases *)

Local Open Scope Z_scope.

(** The tests of the business-day method: two behind the disbursement
    date, the daily amount, and the repayment days behind their guard. *)
Definition business_days_tests (django_data : Raw.DjangoLoan)
    (metrics_data : Raw.MetricsLoan) : nat :=
  (if present (Raw.disbursement_date django_data) then 2 else 0)
  + 1
  + (if positive_Q (Raw.daily_repayment_amount metrics_data) then 1 else 0).

(** The delay rate is tested when it has a value: with a loan age that is
    present and not negative. *)
Definition delay_rate_tests (metrics_data : Raw.MetricsLoan) : nat :=
  match Raw.loan_age metrics_data with
  | Some a => if (0 <=? a)%Z then 1 else 0
  | None => 0
  end.

(** The tests of one loan whose two rows were found. *)
Definition loan_tests (django_data : Raw.DjangoLoan)
    (metrics_data : Raw.MetricsLoan) : nat :=
  6 + 4 + 4 + business_days_tests django_data metrics_data + 1 + 2
  + delay_rate_tests metrics_data + 2.

(** A stored total passes against a column of repayments: it is a number,
    equal to 0 when there is no repayment (the sum is then the integer 0
    and no tolerance applies) and within 0.01 of the sum otherwise. *)
Definition total_passes (column : list Q) (total : option Q) : Prop :=
  exists q,
    total = Some q
    /\ match column with
       | [] => (q == 0)%Q
       | _ :: _ => (Qabs (py_sum column - q) <= 1 # 100)%Q
       end.

(** A database with no row at all. *)
Definition empty_database : Database :=
  {| get_django_loan_data := fun _ => None;
     get_metrics_loan_data := fun _ => None;
     get_django_repayments := fun _ => [] |}.

(** Stored columns that are all NULL. *)
Definition null_columns : StoredColumns :=
  {| stored_loan_amount := VNone; stored_disbursement_date := VNone;
     stored_maturity_date := VNone; stored_loan_term_days := VNone;
     stored_interest_rate := VNone; stored_principal_outstanding := VNone;
     stored_interest_outstanding := VNone; stored_fees_outstanding := VNone;
     stored_total_outstanding := VNone;
     stored_business_days_since_disbursement := VNone;
     stored_early_indicator_tagged := VNone;
     stored_repayment_delay_rate := VNone; stored_fimr_tagged := VNone;
     stored_first_payment_missed := VNone |}.

(** The February loan with the March snapshot, its stored columns all
    NULL, and no repayment. *)
Definition february_database : Database :=
  {| get_django_loan_data := fun _ => Some (raw_django_loan february_loan);
     get_metrics_loan_data :=
       fun _ => Some (raw_metrics_loan march_row, null_columns);
     get_django_repayments := fun _ => [] |}.

(** The same, with a snapshot whose stored loan amount is a NaN. *)
Definition nan_database : Database :=
  {| get_django_loan_data := fun _ => Some (raw_django_loan february_loan);
     get_metrics_loan_data :=
       fun _ =>
         Some (raw_metrics_loan march_row,
               {| stored_loan_amount := VNaN;
                  stored_disbursement_date := VNone;
                  stored_maturity_date := VNone;
                  stored_loan_term_days := VNone;
                  stored_interest_rate := VNone;
                  stored_principal_outstanding := VNone;
                  stored_interest_outstanding := VNone;
                  stored_fees_outstanding := VNone;
                  stored_total_outstanding := VNone;
                  stored_business_days_since_disbursement := VNone;
                  stored_early_indicator_tagged := VNone;
                  stored_repayment_delay_rate := VNone;
                  stored_fimr_tagged := VNone;
                  stored_first_payment_missed := VNone |});
     get_django_repayments := fun _ => [] |}.

(** A clock that reads noon of 2024-03-01 for every loan. *)
Definition march_clock : string -> Clock :=
  fun _ => at_instant (noon (Date.ymd 2024 3 1)).

(** The loan of the scenario of the specification: 1000 over 30 days. *)
Definition scenario_loan : DjangoLoan := term_loan 30.

(** Its snapshot after repayments of 500, 75 and 50. *)
Definition scenario_row : MetricsLoan :=
  {| m_first_payment_due_date := None;
     first_payment_received_date := None;
     total_principal_paid := 500; total_interest_paid := 75;
     total_fees_paid := 50; total_repayments := 625;
     actual_outstanding := None; current_dpd := 0; loan_age := None;
     days_since_last_repayment := None; daily_repayment_amount := None;
     repayment_days_paid := None; repayment_days_due_today := None |}.

(** The columns stored with that snapshot. *)
Definition scenario_columns : StoredColumns :=
  {| stored_loan_amount := VDecimal 1000;
     stored_disbursement_date := VNone;
     stored_maturity_date := VNone; stored_loan_term_days := VInt 30;
     stored_interest_rate := VDecimal (15 # 100);
     stored_principal_outstanding := VDecimal 500;
     stored_interest_outstanding := VDecimal 75;
     stored_fees_outstanding := VDecimal 0;
     stored_total_outstanding := VDecimal 575;
     stored_business_days_since_disbursement := VNone;
     stored_early_indicator_tagged := VBool false;
     stored_repayment_delay_rate := VNone; stored_fimr_tagged := VBool true;
     stored_first_payment_missed := VBool true |}.

(** Seven installments of 40 due and 100 repaid: a shortfall of 180. *)
Definition behind_row : MetricsLoan :=
  {| m_first_payment_due_date := None;
     first_payment_received_date := None;
     total_principal_paid := 0; total_interest_paid := 0;
     total_fees_paid := 0; total_repayments := 100;
     actual_outstanding := Some 180%Q; current_dpd := 5; loan_age := None;
     days_since_last_repayment := None;
     daily_repayment_amount := Some 40%Q;
     repayment_days_paid := Some (5 # 2);
     repayment_days_due_today := Some 7 |}.

(** The scenario loan with a snapshot that stores its daily amount of 40
    and the 625 repaid. *)
Definition scenario_daily_row : MetricsLoan := daily_row (Some 40%Q) 625.

(** * Properties *)

Local Open Scope Z_scope.

(** ** The business-day loop *)

Section BusinessDays.

(** Weekdays run from 0, Monday, to 6, Sunday, and follow one another day
    by day; the business days are the first five. *)
Lemma weekday_range (d : Date.t) : 0 <= Date.weekday d < 7.
Proof.
  unfold Date.weekday. apply Z.mod_pos_bound. lia.
Qed.

Lemma weekday_next (d : Date.t) :
  Date.weekday (d + 1) = (Date.weekday d + 1) mod 7.
Proof.
  unfold Date.weekday.
  replace (d + 1 + 6) with (d + 6 + 1) by lia.
  now rewrite Zplus_mod_idemp_l.
Qed.

Lemma is_business_day_iff (d : Date.t) :
  is_business_day d = true <-> 0 <= Date.weekday d <= 4.
Proof.
  unfold is_business_day. pose proof (weekday_range d).
  destruct (Z.ltb_spec (Date.weekday d) 5); split; intros; lia || congruence.
Qed.

Lemma days_of_interval_empty (s e : Date.t) :
  e < s -> days_of_interval s e = [].
Proof.
  intros H. unfold days_of_interval.
  replace (Z.to_nat (e - s + 1)) with O by lia. reflexivity.
Qed.

Lemma days_of_interval_step (s e : Date.t) :
  s <= e -> days_of_interval s e = s :: days_of_interval (s + 1) e.
Proof.
  intros H. unfold days_of_interval.
  replace (Z.to_nat (e - s + 1)) with (S (Z.to_nat (e - (s + 1) + 1))) by lia.
  cbn [seq map]. f_equal; [lia |].
  rewrite <- seq_shift, map_map.
  apply map_ext. intros k. lia.
Qed.

Lemma businessDaysBetween_empty (s e : Date.t) :
  e < s -> businessDaysBetween (Some s) (Some e) = 0.
Proof.
  intros H. unfold businessDaysBetween.
  rewrite days_of_interval_empty by assumption. reflexivity.
Qed.

Lemma businessDaysBetween_step (s e : Date.t) :
  s <= e ->
  businessDaysBetween (Some s) (Some e)
  = (if Date.weekday s <? 5 then 1 else 0)
    + businessDaysBetween (Some (s + 1)) (Some e).
Proof.
  intros H. unfold businessDaysBetween.
  rewrite days_of_interval_step by assumption.
  cbn [filter]. unfold is_business_day at 1.
  destruct (Date.weekday s <? 5); cbn [length]; lia.
Qed.

Lemma businessDaysBetween_nonneg (s e : option Date.t) :
  0 <= businessDaysBetween s e.
Proof.
  destruct s, e; cbn; lia.
Qed.

Lemma add_one_day (d : Date.t) :
  0 <= d < Date.MAXORDINAL -> Date.add_days d 1 = Ok (d + 1).
Proof.
  intros H. unfold Date.add_days. cbv zeta.
  destruct (Z.ltb_spec 0 (d + 1)); [| lia].
  destruct (Z.leb_spec (d + 1) Date.MAXORDINAL); [reflexivity | lia].
Qed.

Lemma add_one_day_overflow (d : Date.t) :
  Date.MAXORDINAL <= d -> Date.add_days d 1 = Raise OverflowError.
Proof.
  intros H. unfold Date.add_days. cbv zeta.
  destruct (Z.leb_spec (d + 1) Date.MAXORDINAL); [lia |].
  now rewrite andb_false_r.
Qed.

(** The loop started at [current] with [days] counted so far adds the
    business days of what is left of the interval. *)
Lemma count_business_days_loop_spec (n : nat) :
  forall (fuel : nat) (current end_date : Date.t) (days : Z),
    Z.to_nat (end_date - current + 1) = n ->
    (n < fuel)%nat ->
    0 <= current ->
    end_date < Date.MAXORDINAL ->
    count_business_days_loop fuel current end_date days
    = Ok (days + businessDaysBetween (Some current) (Some end_date)).
Proof.
  induction n as [| n IH]; intros fuel current end_date days Hn Hfuel Hc He;
    (destruct fuel as [| fuel]; [lia |]); cbn [count_business_days_loop].
  - destruct (Z.leb_spec current end_date); [lia |].
    rewrite businessDaysBetween_empty by lia. f_equal. lia.
  - destruct (Z.leb_spec current end_date); [| lia].
    rewrite add_one_day by lia. cbn [bind].
    rewrite (IH fuel) by lia.
    rewrite (businessDaysBetween_step current end_date) by lia.
    f_equal. destruct (Date.weekday current <? 5); lia.
Qed.

(** When the interval reaches [date.max] the increment after the last day
    leaves the range of dates. *)
Lemma count_business_days_loop_overflow (n : nat) :
  forall (fuel : nat) (current end_date : Date.t) (days : Z),
    Z.to_nat (end_date - current + 1) = n ->
    (n < fuel)%nat ->
    0 <= current <= end_date ->
    Date.MAXORDINAL <= end_date ->
    count_business_days_loop fuel current end_date days
    = Raise OverflowError.
Proof.
  induction n as [| n IH]; intros fuel current end_date days Hn Hfuel Hc He;
    [lia |].
  destruct fuel as [| fuel]; [lia |]. cbn [count_business_days_loop].
  destruct (Z.leb_spec current end_date); [| lia].
  destruct (Z_lt_le_dec current Date.MAXORDINAL) as [Hlt | Hge].
  - rewrite add_one_day by lia. cbn [bind]. apply IH; lia.
  - rewrite add_one_day_overflow by lia. reflexivity.
Qed.

Lemma count_business_days_loop_fuel (n : nat) :
  forall (fuel : nat) (current end_date : Date.t) (days : Z),
    Z.to_nat (end_date - current + 1) = n ->
    (n < fuel)%nat ->
    count_business_days_loop fuel current end_date days <> OutOfFuel.
Proof.
  induction n as [| n IH]; intros fuel current end_date days Hn Hfuel;
    (destruct fuel as [| fuel]; [lia |]); cbn [count_business_days_loop];
    destruct (Z.leb_spec current end_date); try lia; try discriminate.
  unfold Date.add_days. cbv zeta.
  destruct ((0 <? current + 1) && (current + 1 <=? Date.MAXORDINAL));
    cbn [bind]; [apply IH; lia | discriminate].
Qed.

(** The fuel [count_business_days] gives its loop is enough on every
    input. *)
Lemma count_business_days_terminates (start_date end_date : option Date.t) :
  count_business_days start_date end_date <> OutOfFuel.
Proof.
  destruct start_date as [s |], end_date as [e |];
    unfold count_business_days; try discriminate.
  apply (count_business_days_loop_fuel (Z.to_nat (e - s + 1))); lia.
Qed.

(** On two dates whose interval stops before [date.max], or is empty, the
    method returns the count of the contract. *)
Lemma count_business_days_correct (start_date end_date : Date.t) :
  Date.valid start_date -> Date.valid end_date ->
  end_date < Date.max \/ end_date < start_date ->
  count_business_days (Some start_date) (Some end_date)
  = Ok (businessDaysBetween (Some start_date) (Some end_date)).
Proof.
  unfold Date.valid. intros Hs He [Hlt | Hlt].
  - unfold count_business_days.
    rewrite (count_business_days_loop_spec
               (Z.to_nat (end_date - start_date + 1))); try lia.
    + reflexivity.
    + change Date.max with Date.MAXORDINAL in Hlt. lia.
  - unfold count_business_days.
    replace (Z.to_nat (end_date - start_date + 1)) with O by lia.
    cbn [count_business_days_loop].
    destruct (Z.leb_spec start_date end_date); [lia |].
    now rewrite businessDaysBetween_empty by lia.
Qed.

Lemma count_business_days_absent (start_date end_date : option Date.t) :
  start_date = None \/ end_date = None ->
  count_business_days start_date end_date = Ok 0.
Proof.
  intros [-> | ->]; [| destruct start_date]; reflexivity.
Qed.

(** Every non-empty interval that ends on [date.max] raises. *)
Lemma count_business_days_overflow (start_date : Date.t) :
  Date.valid start_date ->
  count_business_days (Some start_date) (Some Date.max)
  = Raise OverflowError.
Proof.
  unfold Date.valid. intros Hs. unfold count_business_days.
  change Date.max with Date.MAXORDINAL.
  apply (count_business_days_loop_overflow
           (Z.to_nat (Date.MAXORDINAL - start_date + 1))); lia.
Qed.

End BusinessDays.

(** ** Numbers *)

Section Numbers.

Lemma Qgt_bool_iff (a b : Q) : Qgt_bool a b = true <-> (b < a)%Q.
Proof.
  unfold Qgt_bool. rewrite negb_true_iff.
  split.
  - intros H. apply Qnot_le_lt. intros Hle.
    apply Qle_bool_iff in Hle. congruence.
  - intros H. destruct (Qle_bool a b) eqn:E; [| reflexivity].
    apply Qle_bool_iff in E. exfalso. exact (Qlt_not_le _ _ H E).
Qed.

Lemma Qeq_bool_false_iff (a b : Q) : Qeq_bool a b = false <-> ~ (a == b)%Q.
Proof.
  split.
  - apply Qeq_bool_neq.
  - intros H. destruct (Qeq_bool a b) eqn:E; [| reflexivity].
    exfalso. apply H. now apply Qeq_bool_iff.
Qed.

(** [x and x > 0] holds of the positive amounts only. *)
Lemma positive_Q_iff (x : option Q) :
  positive_Q x = true <-> exists a, x = Some a /\ (0 < a)%Q.
Proof.
  destruct x as [a |]; cbn.
  - rewrite andb_true_iff, negb_true_iff, Qgt_bool_iff, Qeq_bool_false_iff.
    split.
    + intros [_ H]. exists a. auto.
    + intros [b [[= <-] H]]. split; [| assumption].
      intros E. rewrite E in H. exact (Qlt_irrefl _ H).
  - split; [discriminate | intros [a [[=] _]]].
Qed.

Lemma positive_Q_false (x : option Q) :
  positive_Q x = false <-> x = None \/ exists a, x = Some a /\ (a <= 0)%Q.
Proof.
  destruct (positive_Q x) eqn:E.
  - apply positive_Q_iff in E as [a [-> Ha]].
    split; [discriminate |].
    intros [[=] | [b [[= <-] Hb]]]. exfalso. exact (Qlt_not_le _ _ Ha Hb).
  - split; [intros _ | reflexivity].
    destruct x as [a |]; [right | now left].
    exists a. split; [reflexivity |].
    apply Qnot_lt_le. intros Ha.
    enough (positive_Q (Some a) = true) by congruence.
    apply positive_Q_iff. eauto.
Qed.

Lemma inject_Z_nonzero (z : Z) : z <> 0 -> Qeq_bool (inject_Z z) 0 = false.
Proof.
  intros H. apply Qeq_bool_false_iff. intros E.
  apply H, inject_Z_injective. exact E.
Qed.

Lemma py_div_nonzero (a b : Q) : ~ (b == 0)%Q -> py_div a b = Ok (a / b)%Q.
Proof.
  intros H. unfold py_div. now rewrite (proj2 (Qeq_bool_false_iff b 0) H).
Qed.

(** [int] rounds toward zero: down on the non-negative decimals, up on the
    others. *)
Lemma py_int_floor (x : Q) : (0 <= x)%Q -> py_int x = Qfloor x.
Proof.
  destruct x as [n d]. unfold Qle, py_int, Qfloor. cbn. intros H.
  apply Z.quot_div_nonneg; lia.
Qed.

Lemma py_int_ceiling (x : Q) : (x <= 0)%Q -> py_int x = Qceiling x.
Proof.
  destruct x as [n d]. unfold Qle, py_int, Qceiling, Qfloor. cbn. intros H.
  rewrite <- (Z.opp_involutive n) at 1.
  rewrite Z.quot_opp_l by lia. f_equal.
  apply Z.quot_div_nonneg; lia.
Qed.

Lemma py_int_le_floor (x : Q) : Qfloor x <= py_int x.
Proof.
  destruct (Qlt_le_dec x 0) as [H | H].
  - rewrite py_int_ceiling by (apply Qlt_le_weak; assumption).
    rewrite Zle_Qle. apply Qle_floor_ceiling.
  - rewrite py_int_floor by assumption. lia.
Qed.

End Numbers.

(** ** Outstanding balances *)

(** C1. For every loan and every aggregate of repayments the expected
    principal outstanding is [principal - totalPrincipalPaid], not clamped
    (negative as soon as more principal was paid than lent), the interest
    outstanding is [max(0, principal * interestRate - totalInterestPaid)],
    the fees outstanding are [max(0, fee - totalFeesPaid)] with an absent fee
    counted as 0, and the total outstanding is the sum of the three. *)
Theorem outstanding_balances_formulas (django_data : DjangoLoan)
    (metrics_data : MetricsLoan) :
  let b := validate_outstanding_balances django_data metrics_data in
  let principal := loan_amount django_data in
  let fee := match fee_amount django_data with Some f => f | None => 0%Q end in
  expected_principal_outstanding b
  = (principal - total_principal_paid metrics_data)%Q
  /\ ((principal < total_principal_paid metrics_data)%Q ->
      (expected_principal_outstanding b < 0)%Q)
  /\ expected_interest_outstanding b
     = Qmax 0 (principal * interest_rate django_data
               - total_interest_paid metrics_data)
  /\ (expected_fees_outstanding b
      == Qmax 0 (fee - total_fees_paid metrics_data))%Q
  /\ expected_total_outstanding b
     = (expected_principal_outstanding b + expected_interest_outstanding b
        + expected_fees_outstanding b)%Q.
Proof.
  cbv zeta. cbn [validate_outstanding_balances expected_principal_outstanding
                 expected_interest_outstanding expected_fees_outstanding
                 expected_total_outstanding].
  repeat split.
  - intros H. rewrite (Qlt_minus_iff (_ - _) 0).
    rewrite Qlt_minus_iff in H.
    setoid_replace (0 + - (loan_amount django_data
                           - total_principal_paid metrics_data))%Q
      with (total_principal_paid metrics_data
            + - loan_amount django_data)%Q by ring.
    assumption.
  - apply Q.max_compat; [reflexivity |].
    apply Qplus_comp; [| reflexivity].
    unfold decimal_or_zero, truthy_Q.
    destruct (fee_amount django_data) as [f |]; [| reflexivity].
    destruct (Qeq_bool f 0) eqn:E; cbn; [| reflexivity].
    apply Qeq_bool_iff in E. now rewrite E.
Qed.

(** The scenario of the specification: 1000 lent at 0.15 with a fee of 50,
    and 500, 75 and 50 repaid. *)
Example outstanding_balances_scenario :
  let b :=
    validate_outstanding_balances
      {| loan_amount := 1000; interest_rate := 15 # 100;
         fee_amount := Some 50%Q; loan_term_days := 30;
         disbursement_date := None; maturity_date := None;
         first_payment_due_date := None |}
      {| m_first_payment_due_date := None;
         first_payment_received_date := None;
         total_principal_paid := 500; total_interest_paid := 75;
         total_fees_paid := 50; total_repayments := 625;
         actual_outstanding := None; current_dpd := 0; loan_age := None;
         days_since_last_repayment := None; daily_repayment_amount := None;
         repayment_days_paid := None; repayment_days_due_today := None |} in
  (expected_principal_outstanding b == 500
   /\ expected_interest_outstanding b == 75
   /\ expected_fees_outstanding b == 0
   /\ expected_total_outstanding b == 575)%Q.
Proof.
  vm_compute. repeat split.
Qed.

(** ** Days past due *)

Lemma expected_dpd_behind (metrics_data : MetricsLoan) (a : Q) (due : Z)
    (paid : Q) :
  actual_outstanding metrics_data = Some a -> (0 < a)%Q ->
  repayment_days_due_today metrics_data = Some due ->
  repayment_days_paid metrics_data = Some paid ->
  expected_dpd metrics_data = Ok (Z.max 0 (due - py_int paid)).
Proof.
  intros Ha Hpos Hdue Hpaid. unfold expected_dpd, expected_dpd_of.
  assert (Hp : positive_Q (actual_outstanding metrics_data) = true)
    by (apply positive_Q_iff; eauto).
  now rewrite Hp, Hdue, Hpaid.
Qed.

Lemma expected_dpd_on_schedule (metrics_data : MetricsLoan) :
  actual_outstanding metrics_data = None
  \/ (exists a, actual_outstanding metrics_data = Some a /\ (a <= 0)%Q) ->
  expected_dpd metrics_data = Ok 0.
Proof.
  intros H. unfold expected_dpd, expected_dpd_of.
  now rewrite (proj2 (positive_Q_false _) H).
Qed.

(** With an outstanding shortfall, 5 installments due and
    [repaymentDaysPaid = -1/2] the validator expects 5 days past due, where
    rounding down gives 6. *)
Lemma current_dpd_floor_counterexample :
  let m := dpd_row (Some 1%Q) 5 (- (1 # 2)) in
  positive_Q (actual_outstanding m) = true
  /\ expected_dpd m = Ok 5
  /\ Z.max 0 (5 - Qfloor (- (1 # 2))) = 6.
Proof.
  vm_compute. repeat split.
Qed.

(** C2, amended. With [actualOutstanding > 0] the expected [currentDPD] is
    [max(0, repaymentDaysDueToday - int(repaymentDaysPaid))], where [int]
    drops the fractional part: it is [floor] on every non-negative
    [repaymentDaysPaid], and the ceiling on the negative ones.  With
    [actualOutstanding] zero, negative or absent it is 0 whatever is due. *)
Theorem current_dpd_cases (metrics_data : MetricsLoan) :
  (forall (a : Q) (due : Z) (paid : Q),
      actual_outstanding metrics_data = Some a -> (0 < a)%Q ->
      repayment_days_due_today metrics_data = Some due ->
      repayment_days_paid metrics_data = Some paid ->
      expected_dpd metrics_data = Ok (Z.max 0 (due - py_int paid))
      /\ ((0 <= paid)%Q -> py_int paid = Qfloor paid)
      /\ ((paid <= 0)%Q -> py_int paid = Qceiling paid))
  /\ (forall a : Q,
         actual_outstanding metrics_data = Some a -> (a <= 0)%Q ->
         expected_dpd metrics_data = Ok 0)
  /\ (actual_outstanding metrics_data = None ->
      expected_dpd metrics_data = Ok 0).
Proof.
  split; [| split].
  - intros a due paid Ha Hpos Hdue Hpaid. split; [| split].
    + exact (expected_dpd_behind metrics_data a due paid Ha Hpos Hdue Hpaid).
    + apply py_int_floor.
    + apply py_int_ceiling.
  - intros a Ha Hle. apply expected_dpd_on_schedule. eauto.
  - intros Ha. apply expected_dpd_on_schedule. auto.
Qed.

Lemma current_dpd_cases_witness :
  expected_dpd (dpd_row (Some (3 # 2)) 7 (5 # 2)) = Ok (Z.max 0 (7 - 2))
  /\ expected_dpd (dpd_row (Some 0%Q) 7 (5 # 2)) = Ok 0
  /\ expected_dpd (dpd_row None 7 (5 # 2)) = Ok 0.
Proof.
  split; [| split].
  - destruct (current_dpd_cases (dpd_row (Some (3 # 2)) 7 (5 # 2)))
      as [H _].
    destruct (H (3 # 2)%Q 7 (5 # 2)%Q eq_refl eq_refl eq_refl eq_refl)
      as [H1 _].
    exact H1.
  - destruct (current_dpd_cases (dpd_row (Some 0%Q) 7 (5 # 2)))
      as [_ [H _]].
    apply (H 0%Q eq_refl). discriminate.
  - destruct (current_dpd_cases (dpd_row None 7 (5 # 2))) as [_ [_ H]].
    exact (H eq_refl).
Defined.

(** On the repayments a schedule can produce, which are not negative, the
    expected value is the one with [floor]. *)
Lemma current_dpd_floor (metrics_data : MetricsLoan) (a : Q) (due : Z)
    (paid : Q) :
  actual_outstanding metrics_data = Some a -> (0 < a)%Q ->
  repayment_days_due_today metrics_data = Some due ->
  repayment_days_paid metrics_data = Some paid ->
  (0 <= paid)%Q ->
  expected_dpd metrics_data = Ok (Z.max 0 (due - Qfloor paid)).
Proof.
  intros Ha Hpos Hdue Hpaid Hnn.
  rewrite (expected_dpd_behind metrics_data a due paid) by assumption.
  now rewrite py_int_floor.
Qed.

(** ** First-installment tags *)

(** C4. The expected [fimrTagged] follows this order of cases: true when the
    first-payment due date is absent, whatever the repayments; false when
    a first repayment is dated on or before the due date; false when there
    is no repayment and the due date is today or later; true in all the
    cases that remain. *)
Theorem fimr_tagged_cases (now : instant) (metrics_data : MetricsLoan) :
  let today := date_today now in
  let due_date := m_first_payment_due_date metrics_data in
  let received_date := first_payment_received_date metrics_data in
  (due_date = None -> expected_fimr now metrics_data = true)
  /\ (forall due received,
         due_date = Some due -> received_date = Some received ->
         received <= due -> expected_fimr now metrics_data = false)
  /\ (forall due,
         due_date = Some due -> received_date = None -> due >= today ->
         expected_fimr now metrics_data = false)
  /\ (forall due,
         due_date = Some due ->
         (forall received, received_date = Some received -> due < received) ->
         (received_date = None -> due < today) ->
         expected_fimr now metrics_data = true).
Proof.
  cbv zeta. unfold expected_fimr, expected_fimr_of.
  split; [| split; [| split]].
  - intros ->. reflexivity.
  - intros due received -> -> H.
    destruct (Z.leb_spec received due); [reflexivity | lia].
  - intros due -> -> H. cbn [present negb andb].
    destruct (Z.geb_spec due (date_today now)); [reflexivity | lia].
  - intros due -> Hlate Hpast.
    destruct (first_payment_received_date metrics_data) as [received |].
    + specialize (Hlate received eq_refl).
      destruct (Z.leb_spec received due); [lia | reflexivity].
    + specialize (Hpast eq_refl). cbn [present negb andb].
      destruct (Z.geb_spec due (date_today now)); [lia | reflexivity].
Qed.

Lemma fimr_tagged_cases_witness :
  let d := Date.ymd 2024 3 1 in
  expected_fimr (noon d) (fimr_row None (Some (d - 30))) = true
  /\ expected_fimr (noon (d + 9)) (fimr_row (Some d) (Some d)) = false
  /\ expected_fimr (noon d) (fimr_row (Some d) None) = false
  /\ expected_fimr (noon (d + 9)) (fimr_row (Some d) (Some (d + 1))) = true
  /\ expected_fimr (noon (d + 1)) (fimr_row (Some d) None) = true.
Proof.
  cbv zeta.
  pose (d := Date.ymd 2024 3 1).
  split; [| split; [| split; [| split]]].
  - apply (fimr_tagged_cases (noon d) (fimr_row None (Some (d - 30)))).
    reflexivity.
  - apply (proj1 (proj2 (fimr_tagged_cases (noon (d + 9))
                           (fimr_row (Some d) (Some d)))) d d);
      [reflexivity | reflexivity | vm_compute; discriminate].
  - apply (proj1 (proj2 (proj2 (fimr_tagged_cases (noon d)
                                  (fimr_row (Some d) None)))) d);
      [reflexivity | reflexivity | vm_compute; discriminate].
  - apply (proj2 (proj2 (proj2 (fimr_tagged_cases (noon (d + 9))
                                  (fimr_row (Some d) (Some (d + 1)))))) d);
      [reflexivity | intros r [= <-]; reflexivity | discriminate].
  - apply (proj2 (proj2 (proj2 (fimr_tagged_cases (noon (d + 1))
                                  (fimr_row (Some d) None)))) d);
      [reflexivity | discriminate | intros _; reflexivity].
Defined.

(** C10. When the first-payment due date is absent and a first repayment
    was received, the expected [firstPaymentMissed] is false, while the
    expected [fimrTagged] of the same row is true. *)
Theorem first_payment_missed_without_due_date (now : instant)
    (metrics_data : MetricsLoan) (received : Date.t) :
  m_first_payment_due_date metrics_data = None ->
  first_payment_received_date metrics_data = Some received ->
  expected_first_payment_missed metrics_data = false
  /\ expected_fimr now metrics_data = true.
Proof.
  intros Hdue Hreceived.
  unfold expected_first_payment_missed, expected_first_payment_missed_of,
    expected_fimr, expected_fimr_of.
  rewrite Hdue, Hreceived. split; reflexivity.
Qed.

Lemma first_payment_missed_without_due_date_witness :
  let m := fimr_row None (Some (Date.ymd 2024 2 1)) in
  expected_first_payment_missed m = false
  /\ expected_fimr (noon (Date.ymd 2024 3 1)) m = true.
Proof.
  exact (first_payment_missed_without_due_date (noon (Date.ymd 2024 3 1))
           (fimr_row None (Some (Date.ymd 2024 2 1))) (Date.ymd 2024 2 1)
           eq_refl eq_refl).
Defined.

(** The other cases of [firstPaymentMissed]: true without a repayment, and
    otherwise true exactly when the repayment is after the due date. *)
Lemma first_payment_missed_cases (due received : option Date.t) :
  expected_first_payment_missed_of due received
  = match received, due with
    | None, _ => true
    | Some r, Some d => d <? r
    | Some _, None => false
    end.
Proof.
  destruct due as [d |], received as [r |]; cbn; try reflexivity.
  now rewrite Z.gtb_ltb.
Qed.

(** ** Repayment delay rate *)

Section DelayRate.

Lemma loan_age_guard (loan_age : Z) :
  0 < loan_age ->
  truthy_Z (Some loan_age) && (loan_age >? 0) = true.
Proof.
  intros H. cbn.
  destruct (Z.eqb_spec loan_age 0); [lia |].
  destruct (Z.gtb_spec loan_age 0); [reflexivity | lia].
Qed.

Lemma expected_rate_with_repayment (loan_age current_dpd since_last : Z) :
  0 < loan_age ->
  expected_rate_of (Some loan_age) current_dpd (Some since_last)
  = Ok (Some ((1 - ((inject_Z (since_last + current_dpd) / 2)
                    / inject_Z loan_age) / (25 # 100)) * 100)%Q).
Proof.
  intros H. unfold expected_rate_of.
  rewrite loan_age_guard by assumption.
  unfold py_div. rewrite inject_Z_nonzero by lia. reflexivity.
Qed.

Lemma expected_rate_without_repayment (loan_age current_dpd : Z) :
  0 < loan_age ->
  expected_rate_of (Some loan_age) current_dpd None
  = Ok (Some ((1 - (inject_Z current_dpd / inject_Z loan_age)
                   / (25 # 100)) * 100)%Q).
Proof.
  intros H. unfold expected_rate_of.
  rewrite loan_age_guard by assumption.
  unfold py_div. rewrite inject_Z_nonzero by lia. reflexivity.
Qed.


End DelayRate.

(** C3. The expected [repaymentDelayRate] is, for a positive loan age and
    a last repayment,
    [(1 - (((daysSinceLastRepayment + currentDPD) / 2) / loanAge) / 0.25)
     * 100];
    for a positive loan age and no repayment,
    [(1 - (currentDPD / loanAge) / 0.25) * 100]; 0 for a loan age of 0; and
    no value at all, rather than 0, when the loan age is absent. *)
Theorem repayment_delay_rate_cases (current_dpd : Z) :
  (forall loan_age since_last : Z,
      0 < loan_age ->
      expected_rate_of (Some loan_age) current_dpd (Some since_last)
      = Ok (Some ((1 - ((inject_Z (since_last + current_dpd) / 2)
                        / inject_Z loan_age) / (25 # 100)) * 100)%Q))
  /\ (forall loan_age : Z,
         0 < loan_age ->
         expected_rate_of (Some loan_age) current_dpd None
         = Ok (Some ((1 - (inject_Z current_dpd / inject_Z loan_age)
                          / (25 # 100)) * 100)%Q))
  /\ (forall since_last : option Z,
         expected_rate_of (Some 0) current_dpd since_last = Ok (Some 0%Q))
  /\ (forall since_last : option Z,
         expected_rate_of None current_dpd since_last = Ok None).
Proof.
  split; [| split; [| split]].
  - intros loan_age since_last H. now apply expected_rate_with_repayment.
  - intros loan_age H. now apply expected_rate_without_repayment.
  - reflexivity.
  - reflexivity.
Qed.

Lemma repayment_delay_rate_cases_witness :
  expected_rate_of (Some 40) 2 (Some 4)
  = Ok (Some ((1 - ((inject_Z (4 + 2) / 2) / inject_Z 40) / (25 # 100))
              * 100)%Q)
  /\ expected_rate_of (Some 40) 2 None
     = Ok (Some ((1 - (inject_Z 2 / inject_Z 40) / (25 # 100)) * 100)%Q).
Proof.
  split.
  - apply (proj1 (repayment_delay_rate_cases 2) 40 4). reflexivity.
  - apply (proj1 (proj2 (repayment_delay_rate_cases 2)) 40). reflexivity.
Defined.

(** A loan of 40 days, 2 days past due, last repaid 4 days ago, scores 70;
    with no repayment at all it scores 80. *)
Example repayment_delay_rate_values :
  (exists r, expected_rate_of (Some 40) 2 (Some 4) = Ok (Some r)
             /\ (r == 70)%Q)
  /\ (exists r, expected_rate_of (Some 40) 2 None = Ok (Some r)
                /\ (r == 80)%Q).
Proof.
  split; eexists; (split; [vm_compute; reflexivity | reflexivity]).
Qed.

(** ** Range of the delay rate *)

Section DelayRateRange.

(** The formula is [100 - 400 * x] in the delay ratio [x]. *)
Lemma rate_affine (x : Q) : ((1 - x / (25 # 100)) * 100 == 100 - 400 * x)%Q.
Proof. field. Qed.

Lemma ratio_nonneg (a b : Z) :
  0 <= a -> 0 < b -> (0 <= inject_Z a / inject_Z b)%Q.
Proof.
  intros Ha Hb. apply Qle_shift_div_l.
  - change 0%Q with (inject_Z 0). rewrite <- Zlt_Qlt. assumption.
  - rewrite Qmult_0_l. change 0%Q with (inject_Z 0).
    rewrite <- Zle_Qle. assumption.
Qed.

Lemma half_ratio_nonneg (a b : Z) :
  0 <= a -> 0 < b -> (0 <= (inject_Z a / 2) / inject_Z b)%Q.
Proof.
  intros Ha Hb.
  setoid_replace ((inject_Z a / 2) / inject_Z b)%Q
    with ((inject_Z a / inject_Z b) * (1 # 2))%Q.
  - pose proof (ratio_nonneg a b Ha Hb). lra.
  - field. intros E. apply (inject_Z_injective b 0) in E. lia.
Qed.

(** One day of age and no repayment: the rate is [100 - 400 * currentDPD],
    below any given number once [currentDPD] is large enough. *)
Lemma rate_below (lo : Q) :
  exists (current_dpd : Z) (r : Q),
    0 <= current_dpd
    /\ expected_rate_of (Some 1) current_dpd None = Ok (Some r)
    /\ (r < lo)%Q.
Proof.
  exists (Z.max 1 (- Qfloor lo)). eexists. split; [lia |].
  split; [apply expected_rate_without_repayment; lia |].
  rewrite rate_affine. change (inject_Z 1) with 1%Q.
  set (n := Z.max 1 (- Qfloor lo)).
  setoid_replace (inject_Z n / 1)%Q with (inject_Z n) by field.
  assert (H1 : (1 <= inject_Z n)%Q).
  { change 1%Q with (inject_Z 1). rewrite <- Zle_Qle. subst n. lia. }
  assert (H2 : (- inject_Z n <= lo)%Q).
  { apply Qle_trans with (inject_Z (Qfloor lo)); [| apply Qfloor_le].
    rewrite <- inject_Z_opp, <- Zle_Qle. subst n. lia. }
  lra.
Qed.

Lemma ratio_range (a b k : Z) :
  0 <= a <= k * b -> 0 < b ->
  (0 <= inject_Z a / inject_Z b <= inject_Z k)%Q.
Proof.
  intros [Ha Hk] Hb.
  assert (Hb' : (0 < inject_Z b)%Q)
    by (change 0%Q with (inject_Z 0); rewrite <- Zlt_Qlt; assumption).
  split.
  - now apply ratio_nonneg.
  - apply Qle_shift_div_r; [assumption |].
    rewrite <- inject_Z_mult, <- Zle_Qle. assumption.
Qed.

(** What does bound the rate from below is a bound on the delays in terms
    of the loan age: with both delays at most [k] times the age, the rate is
    at least [100 - 400 * k]. *)
Lemma rate_within (k loan_age current_dpd : Z) (since_last : option Z) :
  0 < loan_age ->
  0 <= current_dpd <= k * loan_age ->
  (forall d, since_last = Some d -> 0 <= d <= k * loan_age) ->
  exists r : Q,
    expected_rate_of (Some loan_age) current_dpd since_last = Ok (Some r)
    /\ (100 - 400 * inject_Z k <= r <= 100)%Q.
Proof.
  intros Hage Hdpd Hsince. destruct since_last as [d |].
  - specialize (Hsince d eq_refl).
    eexists. split; [now apply expected_rate_with_repayment |].
    rewrite rate_affine.
    setoid_replace
      ((inject_Z (d + current_dpd) / 2) / inject_Z loan_age)%Q
      with ((inject_Z (d + current_dpd) / inject_Z loan_age) * (1 # 2))%Q
      by (field; intros E; apply (inject_Z_injective loan_age 0) in E; lia).
    assert (Hx := ratio_range (d + current_dpd) loan_age (2 * k)
                    ltac:(lia) Hage).
    rewrite inject_Z_mult in Hx. change (inject_Z 2) with 2%Q in Hx.
    set (x := (_ / _)%Q) in *. set (q := inject_Z k) in *. lra.
  - eexists. split; [now apply expected_rate_without_repayment |].
    rewrite rate_affine.
    assert (Hx := ratio_range current_dpd loan_age k Hdpd Hage).
    set (x := (_ / _)%Q) in *. set (q := inject_Z k) in *. lra.
Qed.

End DelayRateRange.

(** A loan one day old, 1000 days past due and never repaid scores
    -399900. *)
Example repayment_delay_rate_far_below_zero :
  exists r, expected_rate_of (Some 1) 1000 None = Ok (Some r)
            /\ (r == - 399900)%Q.
Proof.
  eexists. split; [vm_compute; reflexivity | reflexivity].
Qed.

(** Fixed bounds on the rate would bound it from below, and they do not. *)
Lemma repayment_delay_rate_not_bounded :
  ~ (exists lo hi : Q,
        forall (loan_age current_dpd : Z) (since_last : option Z) (r : Q),
          0 < loan_age -> 0 <= current_dpd ->
          (forall d, since_last = Some d -> 0 <= d) ->
          expected_rate_of (Some loan_age) current_dpd since_last
          = Ok (Some r) ->
          (lo <= r <= hi)%Q).
Proof.
  intros [lo [hi H]].
  destruct (rate_below lo) as [current_dpd [r [Hdpd [Hr Hlt]]]].
  destruct (H 1 current_dpd None r) as [Hlo _];
    [lia | assumption | discriminate | assumption |].
  exact (Qlt_not_le _ _ Hlt Hlo).
Qed.

(** C9, amended. With a positive loan age, [currentDPD >= 0] and, when
    there is one, [daysSinceLastRepayment >= 0], the expected rate is
    computed and is at most 100; it has no lower bound that holds for all
    such inputs. *)
Theorem repayment_delay_rate_at_most_100 :
  (forall (loan_age current_dpd : Z) (since_last : option Z),
      0 < loan_age -> 0 <= current_dpd ->
      (forall d, since_last = Some d -> 0 <= d) ->
      exists r : Q,
        expected_rate_of (Some loan_age) current_dpd since_last = Ok (Some r)
        /\ (r <= 100)%Q)
  /\ (forall lo : Q,
         exists (loan_age current_dpd : Z) (r : Q),
           0 < loan_age /\ 0 <= current_dpd
           /\ expected_rate_of (Some loan_age) current_dpd None = Ok (Some r)
           /\ (r < lo)%Q).
Proof.
  split.
  - intros loan_age current_dpd [d |] Hage Hdpd Hsince.
    + specialize (Hsince d eq_refl).
      eexists. split; [now apply expected_rate_with_repayment |].
      rewrite rate_affine.
      assert (Hx := half_ratio_nonneg (d + current_dpd) loan_age
                      ltac:(lia) Hage).
      set (x := (_ / _ / _)%Q) in *. lra.
    + eexists. split; [now apply expected_rate_without_repayment |].
      rewrite rate_affine.
      assert (Hx := ratio_nonneg current_dpd loan_age Hdpd Hage).
      set (x := (_ / _)%Q) in *. lra.
  - intros lo. destruct (rate_below lo) as [current_dpd [r [H1 [H2 H3]]]].
    exists 1, current_dpd, r. repeat split; assumption || lia.
Qed.

Lemma repayment_delay_rate_at_most_100_witness :
  exists r : Q,
    expected_rate_of (Some 40) 2 (Some 4) = Ok (Some r) /\ (r <= 100)%Q.
Proof.
  apply (proj1 repayment_delay_rate_at_most_100 40 2 (Some 4)).
  - reflexivity.
  - discriminate.
  - intros d [= <-]. discriminate.
Defined.

(** ** Daily repayment amount and repayment days paid *)

Section DailyRepayment.

Lemma expected_daily_repayment_no_term (django_data : DjangoLoan) :
  loan_term_days django_data <= 0 ->
  expected_daily_repayment django_data = Ok 0%Q.
Proof.
  intros H. unfold expected_daily_repayment.
  destruct (Z.gtb_spec (loan_term_days django_data) 0); [lia | reflexivity].
Qed.

Lemma expected_daily_repayment_term (django_data : DjangoLoan) :
  0 < loan_term_days django_data ->
  expected_daily_repayment django_data
  = Ok (repayment_amount django_data
        / inject_Z (loan_term_days django_data))%Q.
Proof.
  intros H. unfold expected_daily_repayment.
  destruct (Z.gtb_spec (loan_term_days django_data) 0); [| lia].
  unfold py_div. now rewrite inject_Z_nonzero by lia.
Qed.

Lemma expected_daily_repayment_returns (django_data : DjangoLoan) :
  returns (expected_daily_repayment django_data).
Proof.
  destruct (Z_lt_le_dec 0 (loan_term_days django_data)) as [H | H].
  - rewrite expected_daily_repayment_term by assumption. now eexists.
  - rewrite expected_daily_repayment_no_term by assumption. now eexists.
Qed.

Lemma repayment_amount_formula (django_data : DjangoLoan) :
  (repayment_amount django_data
   == loan_amount django_data * (1 + interest_rate django_data)
      + match fee_amount django_data with Some f => f | None => 0 end)%Q.
Proof.
  unfold repayment_amount, decimal_or_zero, truthy_Q.
  destruct (fee_amount django_data) as [f |]; [| reflexivity].
  destruct (Qeq_bool f 0) eqn:E; cbn; [| reflexivity].
  apply Qeq_bool_iff in E. now rewrite E.
Qed.

(** The division by the stored daily amount is behind [daily and daily > 0];
    it is the quotient when the guard holds and is skipped otherwise. *)
Lemma expected_repayment_days_paid_guarded (daily : option Q) (total : Q) :
  expected_repayment_days_paid_of daily total
  = match daily with
    | Some q => if Qgt_bool q 0 then Ok (Some (total / q)%Q) else Ok None
    | None => Ok None
    end.
Proof.
  unfold expected_repayment_days_paid_of.
  destruct daily as [q |]; [| reflexivity]. cbn [positive_Q].
  destruct (Qgt_bool q 0) eqn:Hgt.
  - apply Qgt_bool_iff in Hgt.
    assert (Hne : ~ (q == 0)%Q)
      by (intros E; rewrite E in Hgt; exact (Qlt_irrefl _ Hgt)).
    rewrite (proj2 (Qeq_bool_false_iff q 0) Hne). cbn [negb andb].
    now rewrite py_div_nonzero by assumption.
  - now rewrite andb_false_r.
Qed.

Lemma expected_repayment_days_paid_returns (daily : option Q) (total : Q) :
  returns (expected_repayment_days_paid_of daily total).
Proof.
  rewrite expected_repayment_days_paid_guarded.
  destruct daily as [q |]; [destruct (Qgt_bool q 0) |]; now eexists.
Qed.

(** The business-day loop returns or runs off the end of the calendar. *)
Lemma count_business_days_loop_outcome (n : nat) :
  forall (fuel : nat) (current end_date : Date.t) (days : Z),
    Z.to_nat (end_date - current + 1) = n ->
    (n < fuel)%nat ->
    returns (count_business_days_loop fuel current end_date days)
    \/ count_business_days_loop fuel current end_date days
       = Raise OverflowError.
Proof.
  induction n as [| n IH]; intros fuel current end_date days Hn Hfuel;
    (destruct fuel as [| fuel]; [lia |]); cbn [count_business_days_loop];
    destruct (Z.leb_spec current end_date); try lia;
    try (left; now eexists).
  unfold Date.add_days. cbv zeta.
  destruct ((0 <? current + 1) && (current + 1 <=? Date.MAXORDINAL));
    cbn [bind]; [apply IH; lia | now right].
Qed.

Lemma count_business_days_outcome (start_date end_date : option Date.t) :
  returns (count_business_days start_date end_date)
  \/ count_business_days start_date end_date = Raise OverflowError.
Proof.
  destruct start_date as [s |], end_date as [e |];
    unfold count_business_days; try (left; now eexists).
  apply (count_business_days_loop_outcome (Z.to_nat (e - s + 1))); lia.
Qed.

(** The only way [validate_business_days_calculations] fails is the
    overflow of the business-day loop. *)
Lemma validate_business_days_calculations_outcome (clock : Clock)
    (django_data : DjangoLoan) (metrics_data : MetricsLoan) :
  returns (validate_business_days_calculations clock django_data metrics_data)
  \/ validate_business_days_calculations clock django_data metrics_data
     = Raise OverflowError.
Proof.
  unfold validate_business_days_calculations, expected_repayment_days_paid.
  destruct (expected_daily_repayment_returns django_data) as [daily ->].
  destruct (expected_repayment_days_paid_returns
              (daily_repayment_amount metrics_data)
              (total_repayments metrics_data)) as [paid ->].
  destruct (disbursement_date django_data) as [d |]; cbn [bind].
  - destruct (count_business_days_outcome (Some d)
                (Some (date_today (business_days_today clock))))
      as [[n ->] | ->]; cbn [bind]; [left; now eexists | now right].
  - left. now eexists.
Qed.

(** The check of the repayment days paid is skipped exactly when the stored
    daily amount is NULL, zero or negative. *)
Lemma expected_repayment_days_paid_skipped (daily : option Q) (total : Q) :
  expected_repayment_days_paid_of daily total = Ok None
  <-> match daily with
      | Some q => (q <= 0)%Q
      | None => True
      end.
Proof.
  rewrite expected_repayment_days_paid_guarded.
  destruct daily as [q |]; [| tauto].
  destruct (Qgt_bool q 0) eqn:E.
  - apply Qgt_bool_iff in E. split; [discriminate |].
    intros H. exfalso. exact (Qlt_not_le _ _ E H).
  - split; [intros _ | reflexivity].
    apply Qnot_lt_le. intros H. apply Qgt_bool_iff in H. congruence.
Qed.

End DailyRepayment.

(** A loan with a term of 0 days whose snapshot stores a daily amount of 40
    and 625 repaid: the expected daily amount is 0, and the repayment days
    paid are expected to be 625 / 40, neither undefined nor zero. *)
Lemma repayment_days_paid_without_term :
  loan_term_days (term_loan 0) <= 0
  /\ expected_daily_repayment (term_loan 0) = Ok 0%Q
  /\ exists paid : Q,
       expected_repayment_days_paid (daily_row (Some 40%Q) 625)
       = Ok (Some paid)
       /\ (paid == 625 / 40)%Q
       /\ ~ (paid == 0)%Q.
Proof.
  split; [discriminate |]. split; [reflexivity |].
  eexists. split; [reflexivity |]. split; [reflexivity | discriminate].
Qed.

(** C6, amended. With [termDays <= 0] the expected daily repayment amount
    is 0, and with [termDays > 0] it is
    [(principal * (1 + interestRate) + fee) / termDays].  The repayment
    days paid do not follow the term: their check is skipped exactly when
    the daily amount stored in the snapshot is NULL, zero or negative, as
    it is on a snapshot that stores the amount expected for
    [termDays <= 0], and they are the total repaid over the stored daily
    amount otherwise.  Both divisions are guarded: on no input does the
    computation end in a division by zero, also when the total repaid is
    NULL on the row as fetched. *)
Theorem daily_repayment_guarded (clock : Clock) (django_data : DjangoLoan)
    (metrics_data : MetricsLoan) :
  (loan_term_days django_data <= 0 ->
   expected_daily_repayment django_data = Ok 0%Q)
  /\ (0 < loan_term_days django_data ->
      exists q,
        expected_daily_repayment django_data = Ok q
        /\ (q == (loan_amount django_data * (1 + interest_rate django_data)
                  + match fee_amount django_data with
                    | Some f => f
                    | None => 0
                    end)
                 / inject_Z (loan_term_days django_data))%Q)
  /\ (expected_repayment_days_paid metrics_data = Ok None
      <-> match daily_repayment_amount metrics_data with
          | Some daily => (daily <= 0)%Q
          | None => True
          end)
  /\ (forall daily,
         daily_repayment_amount metrics_data = Some daily -> (0 < daily)%Q ->
         expected_repayment_days_paid metrics_data
         = Ok (Some (total_repayments metrics_data / daily)%Q))
  /\ (loan_term_days django_data <= 0 ->
      forall daily expected,
        daily_repayment_amount metrics_data = Some daily ->
        expected_daily_repayment django_data = Ok expected ->
        (daily == expected)%Q ->
        expected_repayment_days_paid metrics_data = Ok None)
  /\ expected_daily_repayment django_data <> Raise ZeroDivisionError
  /\ expected_repayment_days_paid metrics_data <> Raise ZeroDivisionError
  /\ validate_business_days_calculations clock django_data metrics_data
     <> Raise ZeroDivisionError
  /\ (forall row : Raw.MetricsLoan,
         raw_expected_repayment_days_paid row <> Raise ZeroDivisionError).
Proof.
  split; [| split; [| split; [| split; [| split; [| split; [| split;
    [| split]]]]]]].
  - now apply expected_daily_repayment_no_term.
  - intros H. eexists. split; [now apply expected_daily_repayment_term |].
    now rewrite repayment_amount_formula.
  - apply expected_repayment_days_paid_skipped.
  - intros daily Hdaily Hpos. unfold expected_repayment_days_paid.
    rewrite expected_repayment_days_paid_guarded, Hdaily.
    now rewrite (proj2 (Qgt_bool_iff daily 0) Hpos).
  - intros Hterm daily expected Hdaily Hexpected Heq.
    rewrite expected_daily_repayment_no_term in Hexpected by assumption.
    injection Hexpected as <-.
    apply expected_repayment_days_paid_skipped. rewrite Hdaily.
    rewrite Heq. apply Qle_refl.
  - destruct (expected_daily_repayment_returns django_data) as [q ->].
    discriminate.
  - unfold expected_repayment_days_paid.
    destruct (expected_repayment_days_paid_returns
                (daily_repayment_amount metrics_data)
                (total_repayments metrics_data)) as [q ->].
    discriminate.
  - destruct (validate_business_days_calculations_outcome
                clock django_data metrics_data) as [[r ->] | ->];
      discriminate.
  - intros row. unfold raw_expected_repayment_days_paid. cbv zeta.
    destruct (positive_Q (Raw.daily_repayment_amount row));
      [| discriminate].
    destruct (Raw.total_repayments row) as [total |]; [| discriminate].
    cbn [operand bind].
    destruct (expected_repayment_days_paid_returns
                (Raw.daily_repayment_amount row) total) as [q ->].
    discriminate.
Qed.

(** The scenario of the specification: 1200 over 30 days is 40 a day, and
    625 repaid are 15.625 days paid. *)
Example daily_repayment_scenario :
  (exists q, expected_daily_repayment (term_loan 30) = Ok q /\ (q == 40)%Q)
  /\ exists paid,
       expected_repayment_days_paid (daily_row (Some 40%Q) 625)
       = Ok (Some paid)
       /\ (paid == 15625 # 1000)%Q.
Proof.
  split; eexists; (split; [reflexivity | reflexivity]).
Qed.

(** ** Days past due over time *)

Section Monotonicity.

(** A later end date keeps every day of the interval and adds days. *)
Lemma days_of_interval_extend (s e1 e2 : Date.t) :
  e1 <= e2 ->
  exists later, days_of_interval s e2 = days_of_interval s e1 ++ later.
Proof.
  intros H. unfold days_of_interval.
  set (n1 := Z.to_nat (e1 - s + 1)). set (n2 := Z.to_nat (e2 - s + 1)).
  replace n2 with (n1 + (n2 - n1))%nat by (subst n1 n2; lia).
  rewrite seq_app, map_app. eexists. reflexivity.
Qed.

Lemma businessDaysBetween_mono (start_date : option Date.t) (e1 e2 : Date.t) :
  e1 <= e2 ->
  businessDaysBetween start_date (Some e1)
  <= businessDaysBetween start_date (Some e2).
Proof.
  intros H. destruct start_date as [s |]; cbn; [| lia].
  destruct (days_of_interval_extend s e1 e2 H) as [later ->].
  rewrite filter_app, length_app. lia.
Qed.

Lemma repaymentDaysDueToday_mono (loanTerms : DjangoLoan) (d1 d2 : Date.t) :
  d1 <= d2 ->
  Engine.repaymentDaysDueToday loanTerms d1
  <= Engine.repaymentDaysDueToday loanTerms d2.
Proof.
  intros H. unfold Engine.repaymentDaysDueToday.
  pose proof (businessDaysBetween_mono (disbursement_date loanTerms) d1 d2 H).
  lia.
Qed.

(** The expected days past due of a snapshot with every column present. *)
Lemma expected_dpd_of_present (actual : Q) (due : Z) (paid : Q) :
  expected_dpd_of (Some actual) (Some due) (Some paid)
  = Ok (if positive_Q (Some actual) then Z.max 0 (due - py_int paid) else 0).
Proof.
  unfold expected_dpd_of. now destruct (positive_Q (Some actual)).
Qed.

(** [computeSnapshot] returns on every loan, history and date.  The
    installments repaid do not depend on the date; the days past due are
    the installments due at the date less the whole installments repaid,
    or 0. *)
Lemma computeSnapshot_returns (loanTerms : DjangoLoan)
    (repayments : list Repayment) :
  exists paid : Q,
    forall evaluationDate : Date.t,
    exists m : MetricsLoan,
      Engine.computeSnapshot loanTerms repayments evaluationDate = Ok m
      /\ current_dpd m
         = if positive_Q (actual_outstanding m)
           then Z.max 0 (Engine.repaymentDaysDueToday loanTerms evaluationDate
                         - py_int paid)
           else 0.
Proof.
  unfold Engine.computeSnapshot.
  destruct (expected_daily_repayment_returns loanTerms) as [daily ->].
  cbn [bind].
  destruct (expected_repayment_days_paid_returns (Some daily)
              (expected_total (validate_repayment_totals repayments)))
    as [days_paid ->].
  cbn [bind].
  exists (match days_paid with Some q => q | None => 0%Q end).
  intros evaluationDate.
  rewrite expected_dpd_of_present. cbn [bind].
  eexists. split; [reflexivity |]. reflexivity.
Qed.

(** On the stored rows themselves: with the same installments repaid and
    a shortfall in both, more installments due means at least as many days
    past due. *)
Lemma expected_dpd_of_mono (a1 a2 : option Q) (due1 due2 : Z) (paid : Q) :
  positive_Q a1 = true -> positive_Q a2 = true -> due1 <= due2 ->
  exists dpd1 dpd2,
    expected_dpd_of a1 (Some due1) (Some paid) = Ok dpd1
    /\ expected_dpd_of a2 (Some due2) (Some paid) = Ok dpd2
    /\ dpd1 <= dpd2.
Proof.
  intros H1 H2 Hle. unfold expected_dpd_of. rewrite H1, H2.
  do 2 eexists. split; [reflexivity |]. split; [reflexivity |]. lia.
Qed.

(** The snapshot of the engine passes the validator's checks on the
    delinquency columns: the expected values are the stored ones. *)
Lemma computeSnapshot_validates (loanTerms : DjangoLoan)
    (repayments : list Repayment) (evaluationDate : Date.t) :
  exists m : MetricsLoan,
    Engine.computeSnapshot loanTerms repayments evaluationDate = Ok m
    /\ expected_daily_repayment loanTerms
       = match daily_repayment_amount m with
         | Some daily => Ok daily
         | None => Raise TypeError
         end
    /\ actual_outstanding m = Some (validate_actual_outstanding m)
    /\ expected_dpd m = Ok (current_dpd m).
Proof.
  unfold Engine.computeSnapshot.
  destruct (expected_daily_repayment_returns loanTerms) as [daily ->].
  cbn [bind].
  destruct (expected_repayment_days_paid_returns (Some daily)
              (expected_total (validate_repayment_totals repayments)))
    as [days_paid ->].
  cbn [bind]. rewrite expected_dpd_of_present. cbn [bind].
  eexists. split; [reflexivity |].
  unfold validate_actual_outstanding, expected_dpd.
  cbn [daily_repayment_amount actual_outstanding repayment_days_due_today
       repayment_days_paid total_repayments current_dpd].
  rewrite expected_dpd_of_present. repeat split.
Qed.

End Monotonicity.

(** C7. For fixed loan terms and repayments and two evaluation dates
    [d1 <= d2], both snapshots are computed and, when the actual
    outstanding is positive in both, the days past due of the later one are
    not below those of the earlier one. *)
Theorem current_dpd_monotone (loanTerms : DjangoLoan)
    (repayments : list Repayment) (d1 d2 : Date.t) :
  d1 <= d2 ->
  exists m1 m2 : MetricsLoan,
    Engine.computeSnapshot loanTerms repayments d1 = Ok m1
    /\ Engine.computeSnapshot loanTerms repayments d2 = Ok m2
    /\ (positive_Q (actual_outstanding m1) = true ->
        positive_Q (actual_outstanding m2) = true ->
        current_dpd m1 <= current_dpd m2).
Proof.
  intros Hle.
  destruct (computeSnapshot_returns loanTerms repayments) as [paid H].
  destruct (H d1) as [m1 [Hm1 Hdpd1]].
  destruct (H d2) as [m2 [Hm2 Hdpd2]].
  exists m1, m2. split; [assumption |]. split; [assumption |].
  intros Hpos1 Hpos2. rewrite Hdpd1, Hdpd2, Hpos1, Hpos2.
  pose proof (repaymentDaysDueToday_mono loanTerms d1 d2 Hle). lia.
Qed.

Lemma current_dpd_monotone_witness :
  exists m1 m2 : MetricsLoan,
    Engine.computeSnapshot february_loan [] (Date.ymd 2024 2 9) = Ok m1
    /\ Engine.computeSnapshot february_loan [] (Date.ymd 2024 2 19) = Ok m2
    /\ (positive_Q (actual_outstanding m1) = true ->
        positive_Q (actual_outstanding m2) = true ->
        current_dpd m1 <= current_dpd m2).
Proof.
  apply (current_dpd_monotone february_loan [] (Date.ymd 2024 2 9)
           (Date.ymd 2024 2 19)).
  discriminate.
Defined.

(** Without a repayment the loan is 7 days past due on 2024-02-09 and 13 on
    2024-02-19, a Friday and the Monday ten days later. *)
Example february_loan_dpd :
  (exists m, Engine.computeSnapshot february_loan [] (Date.ymd 2024 2 9) = Ok m
             /\ positive_Q (actual_outstanding m) = true
             /\ current_dpd m = 7)
  /\ (exists m,
         Engine.computeSnapshot february_loan [] (Date.ymd 2024 2 19) = Ok m
         /\ positive_Q (actual_outstanding m) = true
         /\ current_dpd m = 13).
Proof.
  split; eexists; (split; [vm_compute; reflexivity | split; reflexivity]).
Qed.

(** ** Dependence on the clock *)

Lemma date_today_noon (d : Date.t) : date_today (noon d) = d.
Proof.
  unfold date_today, noon.
  rewrite Z.div_add_l by lia. change (43200 / 86400) with 0. lia.
Qed.

(** The same rows validated at noon of 2024-03-01 and at noon of the next
    day give two different sets of expected values: the first-installment
    tag is expected false on the first day and true on the second. *)
Lemma validate_loan_reads_the_clock :
  validate_loan (at_instant (noon (Date.ymd 2024 3 1)))
                (Some (term_loan 30)) (Some march_row) []
  <> validate_loan (at_instant (noon (Date.ymd 2024 3 2)))
                   (Some (term_loan 30)) (Some march_row) [].
Proof.
  vm_compute. intros H. discriminate H.
Qed.

(** The expected loan age is the reading of the clock less the
    disbursement date. *)
Lemma validate_loan_loan_age (clock : Clock) (django_data : DjangoLoan)
    (metrics_data : MetricsLoan) (django_repayments : list Repayment)
    (e : Expectations) :
  validate_loan clock (Some django_data) (Some metrics_data)
                django_repayments = Ok (Some e) ->
  expected_loan_age (exp_business_days e)
  = option_map (Date.days_between (date_today (loan_age_today clock)))
               (disbursement_date django_data).
Proof.
  unfold validate_loan, validate_business_days_calculations.
  destruct (disbursement_date django_data) as [d |];
    [destruct (count_business_days (Some d)
                 (Some (date_today (business_days_today clock))))
       as [n | |]; try discriminate |];
    cbn [bind];
    (destruct (expected_daily_repayment django_data) as [daily | |];
     try discriminate);
    cbn [bind];
    (destruct (expected_repayment_days_paid metrics_data) as [paid | |];
     try discriminate);
    cbn [bind];
    (destruct (validate_dpd_calculations metrics_data) as [dpd | |];
     try discriminate);
    cbn [bind];
    (destruct (validate_repayment_delay_rate metrics_data) as [rate | |];
     try discriminate);
    cbn [bind]; intros [= <-]; reflexivity.
Qed.

(** C8, amended. The evaluation date is not a parameter of the validator,
    which reads the current date from the clock, up to three times for a
    loan.  Two runs over the same loan row, snapshot row and repayments
    whose readings all fall on the same calendar day expect the same
    values; for a loan with a disbursement date two runs on different days
    never do: their expected loan ages differ by the number of days
    between the runs. *)
Theorem validate_loan_same_day (clock1 clock2 : Clock) (day1 day2 : Date.t)
    (django_data : option DjangoLoan) (metrics_data : option MetricsLoan)
    (django_repayments : list Repayment) :
  on_day clock1 day1 -> on_day clock2 day2 ->
  (day1 = day2 ->
   validate_loan clock1 django_data metrics_data django_repayments
   = validate_loan clock2 django_data metrics_data django_repayments)
  /\ (forall loan disbursed e1 e2,
         django_data = Some loan ->
         disbursement_date loan = Some disbursed ->
         validate_loan clock1 django_data metrics_data django_repayments
         = Ok (Some e1) ->
         validate_loan clock2 django_data metrics_data django_repayments
         = Ok (Some e2) ->
         expected_loan_age (exp_business_days e1) = Some (day1 - disbursed)
         /\ expected_loan_age (exp_business_days e2)
            = Some (day2 - disbursed)
         /\ (e1 = e2 -> day1 = day2)).
Proof.
  intros [Hb1 [Ha1 Hf1]] [Hb2 [Ha2 Hf2]]. split.
  - intros <-.
    unfold validate_loan, validate_business_days_calculations,
      validate_fimr_tagging, expected_fimr.
    now rewrite Hb1, Ha1, Hf1, Hb2, Ha2, Hf2.
  - intros loan disbursed e1 e2 -> Hdisbursed H1 H2.
    destruct metrics_data as [metrics_data |]; [| discriminate H1].
    apply validate_loan_loan_age in H1, H2.
    rewrite Hdisbursed in H1, H2. cbn [option_map] in H1, H2.
    rewrite Ha1 in H1. rewrite Ha2 in H2. unfold Date.days_between in *.
    split; [assumption |]. split; [assumption |].
    intros <-. rewrite H1 in H2. injection H2 as H2. lia.
Qed.

Lemma validate_loan_same_day_witness :
  let midnight := (Date.ymd 2024 3 1 - 1) * 86400 in
  validate_loan (at_instant midnight) (Some february_loan) (Some march_row) []
  = validate_loan {| business_days_today := midnight + 1;
                     loan_age_today := midnight + 43200;
                     fimr_today := midnight + 86399 |}
                  (Some february_loan) (Some march_row) [].
Proof.
  apply (proj1 (validate_loan_same_day
                  (at_instant ((Date.ymd 2024 3 1 - 1) * 86400))
                  {| business_days_today :=
                       (Date.ymd 2024 3 1 - 1) * 86400 + 1;
                     loan_age_today :=
                       (Date.ymd 2024 3 1 - 1) * 86400 + 43200;
                     fimr_today := (Date.ymd 2024 3 1 - 1) * 86400 + 86399 |}
                  (Date.ymd 2024 3 1) (Date.ymd 2024 3 1)
                  (Some february_loan) (Some march_row) []
                  (conj eq_refl (conj eq_refl eq_refl))
                  (conj eq_refl (conj eq_refl eq_refl)))).
  reflexivity.
Defined.

(** A run across a midnight mixes two dates.  With the business days read
    in the last second of Thursday 2024-02-29 and the loan age in the first
    second of the Friday, the February loan is expected to have 21 business
    days and an age of 29 days; a run that is over within any one day
    expects 21 and 28, or 22 and 29, or something else again. *)
Example validate_loan_across_midnight :
  let friday := (Date.ymd 2024 3 1 - 1) * 86400 in
  let clock := {| business_days_today := friday - 1;
                  loan_age_today := friday;
                  fimr_today := friday |} in
  exists e,
    validate_loan clock (Some february_loan) (Some march_row) [] = Ok (Some e)
    /\ expected_business_days (exp_business_days e) = Some 21
    /\ expected_loan_age (exp_business_days e) = Some 29
    /\ forall (one_day : Clock) (d : Date.t),
         on_day one_day d ->
         validate_loan one_day (Some february_loan) (Some march_row) []
         <> Ok (Some e).
Proof.
  cbv zeta. eexists. split; [vm_compute; reflexivity |].
  split; [reflexivity |]. split; [reflexivity |].
  intros one_day d [Hb [Ha Hf]] H.
  pose proof (validate_loan_loan_age _ _ _ _ _ H) as Hage.
  change (Some 29 = Some (Date.days_between
                            (date_today (loan_age_today one_day)) 738917))
    in Hage.
  rewrite Ha in Hage. injection Hage as Hage.
  unfold Date.days_between in Hage.
  assert (Hd : d = Date.ymd 2024 3 1)
    by (change (Date.ymd 2024 3 1) with 738946; lia).
  rewrite Hd in Hb, Ha. revert H.
  unfold validate_loan, validate_business_days_calculations.
  rewrite Hb, Ha. vm_compute. intros H. discriminate H.
Qed.

(** ** The end of the calendar *)

(** The days of an interval are its dates, each once. *)
Lemma days_of_interval_dates (s e d : Date.t) :
  In d (days_of_interval s e) <-> s <= d <= e.
Proof.
  unfold days_of_interval. rewrite in_map_iff. split.
  - intros [k [<- Hk]]. apply in_seq in Hk. lia.
  - intros H. exists (Z.to_nat (d - s)). split; [lia |].
    apply in_seq. lia.
Qed.

Lemma days_of_interval_NoDup (s e : Date.t) : NoDup (days_of_interval s e).
Proof.
  unfold days_of_interval. apply Finite.Injective_map_NoDup.
  - intros j k H. lia.
  - apply seq_NoDup.
Qed.

(** On the last date of the calendar, 9999-12-31, a Friday, the number of
    Monday-to-Friday days from that date to itself is 1, and the call
    raises [OverflowError] when the loop steps past it. *)
Theorem count_business_days_date_max :
  Date.valid Date.max
  /\ Date.weekday Date.max = 4
  /\ businessDaysBetween (Some Date.max) (Some Date.max) = 1
  /\ count_business_days (Some Date.max) (Some Date.max)
     = Raise OverflowError.
Proof.
  repeat split; vm_compute; congruence.
Qed.

(** C5, amended. For every two dates other than those with
    [start <= end = date.max], [count_business_days] returns the number of
    calendar days from the first to the second inclusive that fall on
    Monday to Friday, and it returns 0, not an error, when a date is
    absent.  The validator calls it with today's date as the end. *)
Theorem count_business_days_before_date_max
    (start_date end_date : option Date.t) :
  (forall s, start_date = Some s -> Date.valid s) ->
  (forall e, end_date = Some e -> Date.valid e) ->
  (forall s e,
      start_date = Some s -> end_date = Some e -> e < Date.max \/ e < s) ->
  match start_date, end_date with
  | Some s, Some e =>
      count_business_days start_date end_date
      = Ok (Z.of_nat
              (length (filter (fun d => Date.weekday d <? 5)
                              (days_of_interval s e))))
      /\ (forall d, In d (days_of_interval s e) <-> s <= d <= e)
      /\ NoDup (days_of_interval s e)
  | _, _ => count_business_days start_date end_date = Ok 0
  end.
Proof.
  intros Hs He Hend.
  destruct start_date as [s |], end_date as [e |];
    try (apply count_business_days_absent; auto).
  split; [| split].
  - rewrite count_business_days_correct by auto. reflexivity.
  - intros d. apply days_of_interval_dates.
  - apply days_of_interval_NoDup.
Qed.

Lemma count_business_days_before_date_max_witness :
  count_business_days (Some (Date.ymd 2024 2 1)) (Some (Date.ymd 2024 3 1))
  = Ok 22
  /\ count_business_days None (Some (Date.ymd 2024 3 1)) = Ok 0.
Proof.
  split.
  - apply (count_business_days_before_date_max
             (Some (Date.ymd 2024 2 1)) (Some (Date.ymd 2024 3 1))).
    + intros s [= <-]. vm_compute. split; discriminate.
    + intros e [= <-]. vm_compute. split; discriminate.
    + intros s e [= <-] [= <-]. left. reflexivity.
  - apply (count_business_days_before_date_max
             None (Some (Date.ymd 2024 3 1))).
    + intros s [=].
    + intros e [= <-]. vm_compute. split; discriminate.
    + intros s e [=].
Defined.

(** Two weeks from Monday 2024-01-01 hold ten business days. *)
Example count_business_days_two_weeks :
  count_business_days (Some (Date.ymd 2024 1 1)) (Some (Date.ymd 2024 1 14))
  = Ok 10.
Proof. reflexivity. Qed.

(** * The rows as fetched

    On a row whose operands are present the computations on the row as
    fetched are those of the functions above. *)

Section Rows.

Lemma decimals_present (xs : list Q) : decimals (map Some xs) = Ok xs.
Proof.
  induction xs as [| x xs IH]; [reflexivity |].
  cbn [map decimals decimal_of_str bind]. now rewrite IH.
Qed.

Lemma outstanding_balances_of_rows (django_data : DjangoLoan)
    (metrics_data : MetricsLoan) :
  outstanding_balances_of (loan_amount django_data)
    (interest_rate django_data)
    (decimal_or_zero (fee_amount django_data))
    (total_principal_paid metrics_data) (total_interest_paid metrics_data)
    (total_fees_paid metrics_data)
  = validate_outstanding_balances django_data metrics_data.
Proof. reflexivity. Qed.

Lemma expected_daily_repayment_of_row (django_data : DjangoLoan) :
  expected_daily_repayment_of (repayment_amount django_data)
    (loan_term_days django_data)
  = expected_daily_repayment django_data.
Proof. reflexivity. Qed.

Lemma expected_early_indicator_of_row (metrics_data : MetricsLoan) :
  expected_early_indicator_of (current_dpd metrics_data)
  = expected_early_indicator metrics_data.
Proof. reflexivity. Qed.

Lemma raw_expected_repayment_days_paid_present (metrics_data : MetricsLoan) :
  raw_expected_repayment_days_paid (raw_metrics_loan metrics_data)
  = expected_repayment_days_paid metrics_data.
Proof.
  unfold raw_expected_repayment_days_paid, expected_repayment_days_paid,
    expected_repayment_days_paid_of.
  cbn [raw_metrics_loan Raw.daily_repayment_amount Raw.total_repayments
       operand bind].
  now destruct (positive_Q (daily_repayment_amount metrics_data)).
Qed.

Lemma raw_validate_actual_outstanding_present (metrics_data : MetricsLoan) :
  raw_validate_actual_outstanding (raw_metrics_loan metrics_data)
  = Ok (validate_actual_outstanding metrics_data).
Proof.
  unfold raw_validate_actual_outstanding, validate_actual_outstanding,
    expected_actual_outstanding_of.
  cbn [raw_metrics_loan Raw.daily_repayment_amount Raw.total_repayments
       Raw.repayment_days_due_today operand bind].
  now destruct (truthy_Q (daily_repayment_amount metrics_data)
                && truthy_Z (repayment_days_due_today metrics_data)).
Qed.

Lemma raw_expected_dpd_present (metrics_data : MetricsLoan) :
  raw_expected_dpd (raw_metrics_loan metrics_data)
  = expected_dpd metrics_data.
Proof. reflexivity. Qed.

Lemma raw_validate_repayment_delay_rate_present
    (metrics_data : MetricsLoan) :
  raw_validate_repayment_delay_rate (raw_metrics_loan metrics_data)
  = validate_repayment_delay_rate metrics_data.
Proof.
  unfold raw_validate_repayment_delay_rate, validate_repayment_delay_rate,
    expected_rate_of.
  cbn [raw_metrics_loan Raw.loan_age Raw.current_dpd
       Raw.days_since_last_repayment operand bind].
  now destruct (truthy_Z (loan_age metrics_data)
                && match loan_age metrics_data with
                   | Some a => a >? 0
                   | None => false
                   end).
Qed.

End Rows.

(** * The validator and its counters *)

Section Records.

Import Validator.

Lemma record_tests_nil (self : MetricsValidator) :
  record_tests self [] 0 = self.
Proof.
  destruct self as [results total passed failed]. unfold record_tests. cbn.
  now rewrite app_nil_r, !Z.add_0_r.
Qed.

Lemma count_passed_app (a b : list TestResult) :
  count_passed (a ++ b) = count_passed a + count_passed b.
Proof.
  unfold count_passed. rewrite filter_app, length_app. lia.
Qed.

Lemma count_failed_app (a b : list TestResult) :
  count_failed (a ++ b) = count_failed a + count_failed b.
Proof.
  unfold count_failed. rewrite filter_app, length_app. lia.
Qed.

Lemma count_passed_failed (results : list TestResult) :
  count_passed results + count_failed results = Z.of_nat (length results).
Proof.
  unfold count_passed, count_failed.
  induction results as [| r results IH]; [reflexivity |].
  cbn [filter]. destruct (passed r); cbn [negb length]; lia.
Qed.

Lemma count_failed_nonneg (results : list TestResult) :
  0 <= count_failed results.
Proof. unfold count_failed. lia. Qed.

Lemma count_failed_zero (results : list TestResult) :
  count_failed results = 0 <-> forallb passed results = true.
Proof.
  unfold count_failed.
  induction results as [| r results IH]; [cbn; tauto |].
  cbn [filter forallb]. destruct (passed r); cbn [negb andb length].
  - exact IH.
  - split; [lia | discriminate].
Qed.

Lemma record_tests_app (self : MetricsValidator) (a b : list TestResult)
    (r1 r2 : nat) :
  record_tests (record_tests self a r1) b r2
  = record_tests self (a ++ b) (r1 + r2).
Proof.
  unfold record_tests. cbn.
  rewrite count_passed_app, count_failed_app, length_app, app_assoc.
  f_equal; lia.
Qed.

Lemma consistent_record_tests (self : MetricsValidator)
    (new : list TestResult) (r1 r2 : nat) :
  consistent self r1 -> consistent (record_tests self new r2) (r1 + r2).
Proof.
  unfold consistent. intros [Ht [Hp Hf]]. cbn.
  rewrite count_passed_app, count_failed_app, length_app. lia.
Qed.

(** The comparison returns a verdict or raises [InvalidOperation]. *)
Lemma within_outcome (x y : decimal) (tolerance : Q) :
  returns (within x y tolerance)
  \/ within x y tolerance = Raise InvalidOperation.
Proof.
  destruct x as [x | | s1], y as [y | | s2]; cbn;
    try (now right); try (left; now eexists).
  destruct (Bool.eqb s1 s2); [now right | left; now eexists].
Qed.

Lemma compare_outcome (expected actual : value) (tolerance : option Q) :
  returns (compare expected actual tolerance)
  \/ compare expected actual tolerance = Raise InvalidOperation.
Proof.
  unfold compare.
  destruct (truthy_Q tolerance && is_decimal_or_float expected
            && is_decimal_or_float actual); [| left; now eexists].
  destruct tolerance as [t |], (to_decimal expected) as [x |],
    (to_decimal actual) as [y |]; try (left; now eexists).
  apply within_outcome.
Qed.

(** One call of [assert_equal]: the test is counted, and recorded with its
    verdict unless the comparison raises. *)
Lemma assert_equal_records (test_name : string) (expected actual : value)
    (tolerance : option Q) (self : MetricsValidator) :
  assert_equal test_name expected actual tolerance self
  = match compare expected actual tolerance with
    | Ok passed =>
        (Ok passed,
         record_tests self
           [{| test := test_name; passed := passed; expected := expected;
               actual := actual |}] 0)
    | Raise e => (Raise e, record_tests self [] 1)
    | OutOfFuel => (OutOfFuel, record_tests self [] 1)
    end.
Proof.
  unfold assert_equal. cbv zeta.
  destruct (compare expected actual tolerance) as [p | e |];
    unfold record_tests, record_result, count_test, count_passed,
      count_failed; cbn.
  - destruct p; cbn; now rewrite ?Z.add_0_r.
  - now rewrite app_nil_r, !Z.add_0_r.
  - now rewrite app_nil_r, !Z.add_0_r.
Qed.

Lemma verdict_compare (expected actual : value) (tolerance : option Q) :
  verdict expected actual tolerance = compare expected actual tolerance.
Proof.
  unfold verdict. rewrite assert_equal_records.
  now destruct (compare expected actual tolerance).
Qed.

Lemma records_ret {A : Type} (a : A) : records 0 (ret a).
Proof.
  intros self. exists [], O. cbn. rewrite record_tests_nil. auto.
Qed.

Lemma records_lift {A : Type} (c : result A) : records 0 (lift c).
Proof.
  intros self. exists [], O. cbn. rewrite record_tests_nil. auto.
Qed.

Lemma records_assert_equal (test_name : string) (expected actual : value)
    (tolerance : option Q) :
  records 1 (assert_equal test_name expected actual tolerance).
Proof.
  intros self. rewrite assert_equal_records.
  destruct (compare expected actual tolerance) as [p | e |].
  - eexists. exists O. cbn. auto.
  - exists [], 1%nat. cbn.
    split; [reflexivity |]. split; [lia |]. split; [lia |].
    intros [b [=]].
  - exists [], 1%nat. cbn.
    split; [reflexivity |]. split; [lia |]. split; [lia |].
    intros [b [=]].
Qed.

Lemma records_bind {A B : Type} (n1 n2 : nat) (c : method A)
    (k : A -> method B) :
  records n1 c -> (forall a, records n2 (k a)) ->
  records (n1 + n2) (mbind c k).
Proof.
  intros Hc Hk self. unfold mbind.
  destruct (Hc self) as [new1 [r1 [H1 [Hle1 [Hr1 Hn1]]]]].
  destruct (c self) as [[a | e |] self1]; cbn [fst snd] in *; subst self1.
  - destruct Hn1 as [Hlen1 ->]; [now eexists |].
    destruct (Hk a (record_tests self new1 0))
      as [new2 [r2 [H2 [Hle2 [Hr2 Hn2]]]]].
    exists (new1 ++ new2), r2. rewrite H2, record_tests_app, length_app.
    split; [reflexivity |]. split; [lia |]. split; [assumption |].
    intros Hr. destruct (Hn2 Hr) as [Hlen2 ->]. split; [lia | reflexivity].
  - exists new1, r1. split; [reflexivity |]. split; [lia |].
    split; [assumption |]. intros [b [=]].
  - exists new1, r1. split; [reflexivity |]. split; [lia |].
    split; [assumption |]. intros [b [=]].
Qed.

Lemma records_eq {A : Type} (n m : nat) (c : method A) :
  records n c -> n = m -> records m c.
Proof. now intros H <-. Qed.

Lemma mbind_lift_ok {A B : Type} (a : A) (k : A -> method B) :
  mbind (lift (Ok a)) k = k a.
Proof. reflexivity. Qed.

Lemma mbind_ret {A B : Type} (a : A) (k : A -> method B) :
  mbind (ret a) k = k a.
Proof. reflexivity. Qed.

(** A pure step in front of a method: what follows runs on the value it
    returned, if it returned. *)
Lemma records_bind_lift {A B : Type} (n : nat) (c : result A)
    (k : A -> method B) :
  (forall a, c = Ok a -> records n (k a)) -> records n (mbind (lift c) k).
Proof.
  intros H. destruct c as [a | e |].
  - rewrite mbind_lift_ok. now apply H.
  - intros self. exists [], O. cbn. rewrite record_tests_nil.
    split; [reflexivity |]. split; [lia |]. split; [lia |].
    intros [b [=]].
  - intros self. exists [], O. cbn. rewrite record_tests_nil.
    split; [reflexivity |]. split; [lia |]. split; [lia |].
    intros [b [=]].
Qed.

End Records.

Ltac step_records :=
  repeat first
    [ apply records_ret
    | apply records_lift
    | apply records_assert_equal
    | apply records_bind_lift;
      let a := fresh "a" in
      let H := fresh "H" in
      intros a H; cbv beta iota
    | eapply records_bind; [| intros ? ] ].

Section ValidatorMethods.

Import Validator.

Lemma records_validate_basic_fields (django_data : Raw.DjangoLoan)
    (metrics_data : Raw.MetricsLoan) (stored : StoredColumns) :
  records 6 (Validator.validate_basic_fields django_data metrics_data stored).
Proof.
  eapply records_eq; [unfold Validator.validate_basic_fields; step_records |].
  reflexivity.
Qed.

Lemma records_validate_repayment_totals
    (django_repayments : list Raw.Repayment)
    (metrics_data : Raw.MetricsLoan) :
  records 4 (Validator.validate_repayment_totals django_repayments
                                                 metrics_data).
Proof.
  eapply records_eq;
    [unfold Validator.validate_repayment_totals; step_records |].
  reflexivity.
Qed.

Lemma records_validate_outstanding_balances (django_data : Raw.DjangoLoan)
    (metrics_data : Raw.MetricsLoan) (stored : StoredColumns) :
  records 4 (Validator.validate_outstanding_balances django_data metrics_data
                                                     stored).
Proof.
  eapply records_eq;
    [unfold Validator.validate_outstanding_balances; cbv zeta; step_records |].
  reflexivity.
Qed.

(** The repayment days paid have a value exactly behind their guard. *)
Lemma raw_expected_repayment_days_paid_value
    (metrics_data : Raw.MetricsLoan) (paid : option Q) :
  raw_expected_repayment_days_paid metrics_data = Ok paid ->
  present paid = positive_Q (Raw.daily_repayment_amount metrics_data).
Proof.
  unfold raw_expected_repayment_days_paid. cbv zeta.
  destruct (positive_Q (Raw.daily_repayment_amount metrics_data)) eqn:Hpos.
  - destruct (Raw.total_repayments metrics_data) as [total |];
      [| discriminate].
    cbn [operand bind]. rewrite expected_repayment_days_paid_guarded.
    destruct (Raw.daily_repayment_amount metrics_data) as [q |];
      [| discriminate].
    apply positive_Q_iff in Hpos. destruct Hpos as [q' [[= <-] Hq]].
    rewrite (proj2 (Qgt_bool_iff q 0) Hq). now intros [= <-].
  - now intros [= <-].
Qed.

Lemma records_validate_business_days_calculations (clock : Clock)
    (django_data : Raw.DjangoLoan) (metrics_data : Raw.MetricsLoan)
    (stored : StoredColumns) :
  records (business_days_tests django_data metrics_data)
    (Validator.validate_business_days_calculations clock django_data
       metrics_data stored).
Proof.
  unfold Validator.validate_business_days_calculations, business_days_tests.
  cbv zeta.
  set (a := if present (Raw.disbursement_date django_data)
            then 1%nat else 0%nat).
  set (p := if positive_Q (Raw.daily_repayment_amount metrics_data)
            then 1%nat else 0%nat).
  apply (records_eq (a + (a + (1 + p)))%nat);
    [| subst a; destruct (present (Raw.disbursement_date django_data));
       lia].
  apply records_bind.
  { subst a. destruct (Raw.disbursement_date django_data); cbn [present];
      (eapply records_eq; [step_records | reflexivity]). }
  intros _. apply records_bind.
  { subst a. destruct (Raw.disbursement_date django_data); cbn [present];
      (eapply records_eq; [step_records | reflexivity]). }
  intros _.
  apply records_bind_lift. intros loan_amount _.
  apply records_bind_lift. intros interest_rate _.
  apply records_bind_lift. intros loan_term_days _.
  apply records_bind_lift. intros expected_daily_repayment _.
  apply (records_bind 1); [apply records_assert_equal |]. intros _.
  apply records_bind_lift. intros paid Hpaid.
  apply raw_expected_repayment_days_paid_value in Hpaid.
  subst p. rewrite <- Hpaid.
  destruct paid; cbn [present];
    (eapply records_eq; [step_records | reflexivity]).
Qed.

Lemma records_validate_actual_outstanding (metrics_data : Raw.MetricsLoan) :
  records 1 (Validator.validate_actual_outstanding metrics_data).
Proof.
  eapply records_eq;
    [unfold Validator.validate_actual_outstanding; step_records |].
  reflexivity.
Qed.

Lemma records_validate_dpd_calculations (metrics_data : Raw.MetricsLoan)
    (stored : StoredColumns) :
  records 2 (Validator.validate_dpd_calculations metrics_data stored).
Proof.
  eapply records_eq;
    [unfold Validator.validate_dpd_calculations; step_records |].
  reflexivity.
Qed.

Lemma records_validate_fimr_tagging (now : instant)
    (metrics_data : Raw.MetricsLoan) (stored : StoredColumns) :
  records 2 (Validator.validate_fimr_tagging now metrics_data stored).
Proof.
  eapply records_eq;
    [unfold Validator.validate_fimr_tagging; cbv zeta; step_records |].
  reflexivity.
Qed.

End ValidatorMethods.

(** The delay rate has a value exactly for a loan age that is present and
    not negative. *)
Lemma raw_validate_repayment_delay_rate_value
    (metrics_data : Raw.MetricsLoan) (rate : option Q) :
  raw_validate_repayment_delay_rate metrics_data = Ok rate ->
  delay_rate_tests metrics_data = if present rate then 1%nat else 0%nat.
Proof.
  unfold raw_validate_repayment_delay_rate, delay_rate_tests. cbv zeta.
  destruct (Raw.loan_age metrics_data) as [a |];
    [| cbn; now intros [= <-]].
  cbn [truthy_Z].
  destruct (Z.gtb_spec a 0) as [Hpos | Hle].
  - assert (Hne : (a =? 0) = false) by (apply Z.eqb_neq; lia).
    rewrite Hne. cbn [negb andb].
    destruct (Raw.current_dpd metrics_data) as [dpd |]; [| discriminate].
    cbn [operand bind].
    destruct (Z.leb_spec 0 a); [| lia].
    destruct (Raw.days_since_last_repayment metrics_data) as [d |].
    + rewrite expected_rate_with_repayment by lia. now intros [= <-].
    + rewrite expected_rate_without_repayment by lia. now intros [= <-].
  - rewrite andb_false_r.
    destruct (Z.eqb_spec a 0) as [-> | Hne]; [now intros [= <-] |].
    destruct (Z.leb_spec 0 a); [lia |]. now intros [= <-].
Qed.

Section ValidateLoan.

Import Validator.

Variable round2 : Q -> Q.

Lemma records_validate_repayment_delay_rate (metrics_data : Raw.MetricsLoan)
    (stored : StoredColumns) :
  records (delay_rate_tests metrics_data)
    (Validator.validate_repayment_delay_rate round2 metrics_data stored).
Proof.
  unfold Validator.validate_repayment_delay_rate.
  apply records_bind_lift. intros rate Hrate.
  rewrite (raw_validate_repayment_delay_rate_value _ _ Hrate).
  destruct rate as [r |]; cbn [present];
    (eapply records_eq; [step_records | reflexivity]).
Qed.

Lemma records_validate_loan (clock : Clock) (db : Database)
    (loan_id : string) (django_data : Raw.DjangoLoan)
    (metrics_data : Raw.MetricsLoan) (stored : StoredColumns) :
  get_django_loan_data db loan_id = Some django_data ->
  get_metrics_loan_data db loan_id = Some (metrics_data, stored) ->
  records (loan_tests django_data metrics_data)
    (Validator.validate_loan round2 clock db loan_id).
Proof.
  intros Hd Hm. unfold Validator.validate_loan, loan_tests. rewrite Hd, Hm.
  cbv zeta.
  eapply records_eq.
  - apply (records_bind 6); [apply records_validate_basic_fields |].
    intros _.
    apply (records_bind 4); [apply records_validate_repayment_totals |].
    intros _.
    apply (records_bind 4); [apply records_validate_outstanding_balances |].
    intros _.
    apply (records_bind (business_days_tests django_data metrics_data));
      [apply records_validate_business_days_calculations |].
    intros _.
    apply (records_bind 1); [apply records_validate_actual_outstanding |].
    intros _.
    apply (records_bind 2); [apply records_validate_dpd_calculations |].
    intros _.
    apply (records_bind (delay_rate_tests metrics_data));
      [apply records_validate_repayment_delay_rate |].
    intros _. apply records_validate_fimr_tagging.
  - lia.
Qed.

Lemma loan_tests_range (django_data : Raw.DjangoLoan)
    (metrics_data : Raw.MetricsLoan) :
  (20 <= loan_tests django_data metrics_data <= 24)%nat.
Proof.
  unfold loan_tests, business_days_tests, delay_rate_tests.
  destruct (present (Raw.disbursement_date django_data)),
    (positive_Q (Raw.daily_repayment_amount metrics_data)),
    (Raw.loan_age metrics_data) as [a |];
    try destruct (0 <=? a)%Z; lia.
Qed.

(** Whatever the rows, one loan runs at most 24 tests, of which only the
    last may raise, and does nothing else to the object. *)
Lemma validate_loan_appends (clock : Clock) (db : Database)
    (loan_id : string) (self : MetricsValidator) :
  exists new raised,
    snd (Validator.validate_loan round2 clock db loan_id self)
    = record_tests self new raised
    /\ (length new + raised <= 24)%nat
    /\ (raised <= 1)%nat.
Proof.
  destruct (get_django_loan_data db loan_id) as [d |] eqn:Hd;
    [destruct (get_metrics_loan_data db loan_id) as [[m s] |] eqn:Hm |].
  - destruct (records_validate_loan clock db loan_id d m s Hd Hm self)
      as [new [raised [H [Hle [Hr _]]]]].
    exists new, raised. split; [assumption |].
    pose proof (loan_tests_range d m). lia.
  - exists [], O. unfold Validator.validate_loan. rewrite Hd, Hm. cbn.
    rewrite record_tests_nil. split; [reflexivity | lia].
  - exists [], O. unfold Validator.validate_loan. rewrite Hd. cbn.
    rewrite record_tests_nil. split; [reflexivity | lia].
Qed.

Lemma validate_loans_appends (clock : string -> Clock) (db : Database)
    (loan_ids : list string) :
  forall self : MetricsValidator,
  exists new raised,
    validate_loans round2 clock db loan_ids self
    = record_tests self new raised
    /\ (length new + raised <= 24 * length loan_ids)%nat
    /\ (raised <= length loan_ids)%nat.
Proof.
  induction loan_ids as [| loan_id loan_ids IH]; intros self.
  - exists [], O. cbn. rewrite record_tests_nil. split; [reflexivity | lia].
  - cbn [validate_loans].
    destruct (validate_loan_appends (clock loan_id) db loan_id self)
      as [new1 [r1 [-> [Hle1 Hr1]]]].
    destruct (IH (record_tests self new1 r1))
      as [new2 [r2 [-> [Hle2 Hr2]]]].
    exists (new1 ++ new2), (r1 + r2)%nat.
    rewrite record_tests_app, length_app.
    split; [reflexivity |]. cbn [length]. lia.
Qed.

End ValidateLoan.

(** ** A whole run *)

(** From the start of a run the counters of passed and failed tests agree
    with the results, and the tests counted without a result are at most
    one for each loan. *)
Lemma validate_loans_consistent (round2 : Q -> Q) (clock : string -> Clock)
    (db : Database) (loan_ids : list string) :
  let validator :=
    Validator.validate_loans round2 clock db loan_ids Validator.init in
  exists raised : nat,
    Validator.consistent validator raised
    /\ (raised <= length loan_ids)%nat
    /\ Validator.total_tests validator <= 24 * Z.of_nat (length loan_ids).
Proof.
  cbv zeta.
  destruct (validate_loans_appends round2 clock db loan_ids Validator.init)
    as [new [raised [-> [Hle Hr]]]].
  exists raised. split; [| split; [assumption |]].
  - apply (consistent_record_tests Validator.init new 0 raised).
    repeat split.
  - cbn [Validator.record_tests Validator.init Validator.total_tests]. lia.
Qed.


(** A stored loan amount that is a NaN: the first comparison of every loan
    is counted and raises, so that ten tests are counted and none is
    recorded, as passed or as failed. *)
Example validator_counters_nan :
  Validator.validate_loans (fun q => q) march_clock nan_database
    TEST_LOAN_IDS Validator.init
  = {| Validator.test_results := []; Validator.total_tests := 10;
       Validator.passed_tests := 0; Validator.failed_tests := 0 |}.
Proof. reflexivity. Qed.

(** X2. Validating further loans only appends: the results recorded so far
    stay as they are at the head of the list, and no counter
    decreases. *)
Theorem validate_loans_append_only (round2 : Q -> Q)
    (clock : string -> Clock) (db : Database) (loan_ids : list string)
    (self : Validator.MetricsValidator) :
  let validator := Validator.validate_loans round2 clock db loan_ids self in
  (exists new,
      Validator.test_results validator = Validator.test_results self ++ new)
  /\ Validator.total_tests self <= Validator.total_tests validator
  /\ Validator.passed_tests self <= Validator.passed_tests validator
  /\ Validator.failed_tests self <= Validator.failed_tests validator.
Proof.
  cbv zeta.
  destruct (validate_loans_appends round2 clock db loan_ids self)
    as [new [raised [-> _]]].
  cbn [Validator.record_tests Validator.test_results Validator.total_tests
       Validator.passed_tests Validator.failed_tests].
  unfold Validator.count_passed, Validator.count_failed.
  split; [now exists new |]. lia.
Qed.

(** X3. [main] exits with status 1 without a summary when a connection
    cannot be opened.  Once both are open, the status is 0 exactly when no
    recorded result is a failure, and then the banner says that all tests
    passed and no failed test is listed.  A loan that raised contributes
    only the results it recorded before raising, so an exception in the
    loop never makes the status 1 by itself. *)
Theorem main_exit_status (round2 : Q -> Q) (clock : string -> Clock)
    (connection : option Database) :
  let status := snd (Validator.main round2 clock connection) in
  (status = 0 \/ status = 1)
  /\ (connection = None ->
      Validator.main round2 clock connection = (None, 1))
  /\ (forall db,
         connection = Some db ->
         let validator :=
           Validator.validate_loans round2 clock db TEST_LOAN_IDS
             Validator.init in
         exists summary,
           fst (Validator.main round2 clock connection) = Some summary
           /\ (status = 0
               <-> forallb Validator.passed (Validator.test_results validator)
                   = true)
           /\ (status = 0 <-> Validator.all_tests_passed summary = true)
           /\ (status = 0 -> Validator.failed_test_names summary = [])).
Proof.
  cbv zeta. destruct connection as [db |].
  - unfold Validator.main. cbn [fst snd].
    set (validator :=
           Validator.validate_loans round2 clock db TEST_LOAN_IDS
             Validator.init).
    destruct (validate_loans_consistent round2 clock db TEST_LOAN_IDS)
      as [raised [[_ [_ Hfailed]] _]].
    fold validator in Hfailed.
    pose proof (count_failed_zero (Validator.test_results validator))
      as Hzero.
    rewrite <- Hfailed in Hzero.
    split; [destruct (Validator.failed_tests validator =? 0); auto |].
    split; [discriminate |].
    intros db' [= <-]. fold validator. eexists. split; [reflexivity |].
    unfold Validator.print_summary.
    cbn [Validator.all_tests_passed Validator.failed_test_names].
    destruct (Z.eqb_spec (Validator.failed_tests validator) 0) as [E | E].
    + split; [| split; [tauto | reflexivity]].
      split; [intros _; now apply Hzero | reflexivity].
    + split; [| split; [split |]]; try discriminate.
      split; [discriminate |]. intros H. apply Hzero in H. contradiction.
  - cbn. split; [now right |]. split; [reflexivity |]. discriminate.
Qed.

(** X4. A loan missing from either database is skipped: [validate_loan]
    returns without touching the object.  When none of the loans of a
    run is found, no test is run, and [main] still prints the banner of
    success, with a pass rate of 0, and exits with status 0. *)
Theorem nothing_found_passes (round2 : Q -> Q) (clock : string -> Clock)
    (db : Database) :
  (forall loan_id,
      get_django_loan_data db loan_id = None
      \/ get_metrics_loan_data db loan_id = None) ->
  (forall now loan_id self,
      Validator.validate_loan round2 now db loan_id self = (Ok tt, self))
  /\ Validator.validate_loans round2 clock db TEST_LOAN_IDS Validator.init
     = Validator.init
  /\ Validator.main round2 clock (Some db)
     = (Some {| Validator.all_tests_passed := true;
                Validator.failed_test_names := [];
                Validator.pass_rate := 0 |}, 0).
Proof.
  intros Hmissing.
  assert (Hskip : forall now loan_id self,
             Validator.validate_loan round2 now db loan_id self
             = (Ok tt, self)).
  { intros now loan_id self. unfold Validator.validate_loan.
    destruct (Hmissing loan_id) as [-> | H]; [reflexivity |].
    rewrite H. now destruct (get_django_loan_data db loan_id). }
  assert (Hall : forall loan_ids self,
             Validator.validate_loans round2 clock db loan_ids self = self).
  { induction loan_ids as [| loan_id loan_ids IH]; intros self;
      [reflexivity |].
    cbn [Validator.validate_loans]. now rewrite Hskip, IH. }
  split; [exact Hskip |]. split; [apply Hall |].
  unfold Validator.main. now rewrite Hall.
Qed.

Lemma nothing_found_passes_witness :
  Validator.main (fun q => q) march_clock (Some empty_database)
  = (Some {| Validator.all_tests_passed := true;
             Validator.failed_test_names := [];
             Validator.pass_rate := 0 |}, 0).
Proof.
  apply (nothing_found_passes (fun q => q) march_clock empty_database).
  intros loan_id. left. reflexivity.
Defined.

(** X5. The pass rate that [main] prints lies between 0 and 100.  It is
    100 exactly when at least one test was counted and every counted test
    passed: the exit status is 0 and no comparison raised.  A status of 0
    alone does not make it 100. *)
Theorem main_pass_rate (round2 : Q -> Q) (clock : string -> Clock)
    (db : Database) :
  let validator :=
    Validator.validate_loans round2 clock db TEST_LOAN_IDS Validator.init in
  exists summary,
    fst (Validator.main round2 clock (Some db)) = Some summary
    /\ (0 <= Validator.pass_rate summary <= 100)%Q
    /\ ((Validator.pass_rate summary == 100)%Q
        <-> 0 < Validator.total_tests validator
            /\ Validator.passed_tests validator
               = Validator.total_tests validator)
    /\ (Validator.passed_tests validator = Validator.total_tests validator
        <-> snd (Validator.main round2 clock (Some db)) = 0
            /\ Validator.total_tests validator
               = Z.of_nat (length (Validator.test_results validator))).
Proof.
  cbv zeta. unfold Validator.main. cbn [fst snd].
  set (validator :=
         Validator.validate_loans round2 clock db TEST_LOAN_IDS
           Validator.init).
  destruct (validate_loans_consistent round2 clock db TEST_LOAN_IDS)
    as [raised [[Htotal [Hpassed Hfailed]] _]].
  fold validator in Htotal, Hpassed, Hfailed.
  pose proof (count_passed_failed (Validator.test_results validator))
    as Hsum.
  unfold Validator.count_passed, Validator.count_failed in *.
  eexists. split; [reflexivity |].
  unfold Validator.print_summary. cbn [Validator.pass_rate].
  set (total := Validator.total_tests validator) in *.
  set (passed := Validator.passed_tests validator) in *.
  set (failed := Validator.failed_tests validator) in *.
  assert (Hp : 0 <= passed) by lia.
  assert (Hf : 0 <= failed) by lia.
  assert (Hstatus : passed = total
                    <-> (if failed =? 0 then 0 else 1) = 0
                        /\ total
                           = Z.of_nat
                               (length (Validator.test_results validator))).
  { destruct (Z.eqb_spec failed 0); split; lia. }
  destruct (Z.gtb_spec total 0) as [Hpos | Hzero].
  - assert (Ht : (0 < inject_Z total)%Q)
      by (change 0%Q with (inject_Z 0); now rewrite <- Zlt_Qlt).
    assert (Hratio : (0 <= inject_Z passed / inject_Z total <= 1)%Q).
    { split.
      - apply Qle_shift_div_l; [assumption |]. rewrite Qmult_0_l.
        change 0%Q with (inject_Z 0). now rewrite <- Zle_Qle.
      - apply Qle_shift_div_r; [assumption |]. rewrite Qmult_1_l.
        rewrite <- Zle_Qle. lia. }
    split; [set (x := (_ / _)%Q) in *; lra |].
    split; [| exact Hstatus].
    split.
    + intros E. split; [lia |].
      assert (Hone : (inject_Z passed / inject_Z total == 1)%Q)
        by (set (x := (_ / _)%Q) in *; lra).
      assert (Heq : (inject_Z passed == inject_Z total)%Q).
      { rewrite <- (Qmult_div_r (inject_Z passed) (inject_Z total))
          by (intros Z0; rewrite Z0 in Ht; exact (Qlt_irrefl _ Ht)).
        rewrite Hone. ring. }
      apply inject_Z_injective. exact Heq.
    + intros [_ Hall]. rewrite Hall.
      field. intros Z0. rewrite Z0 in Ht. exact (Qlt_irrefl _ Ht).
  - split; [split; discriminate |].
    split; [| exact Hstatus].
    split; [intros E; discriminate E | intros [H _]; lia].
Qed.

(** With a stored loan amount that is a NaN the run ends with ten tests
    counted, the banner of success, status 0 and a pass rate of 0. *)
Example main_pass_rate_nan :
  Validator.main (fun q => q) march_clock (Some nan_database)
  = (Some {| Validator.all_tests_passed := true;
             Validator.failed_test_names := [];
             Validator.pass_rate := 0 / 10 * 100 |}, 0).
Proof. reflexivity. Qed.

(** ** One loan *)

(** X6. For a loan found in both databases, [validate_loan] that returns
    has run 20 tests plus 2 when there is a disbursement date, 1 when the
    stored daily amount is positive and 1 when the loan age is present and
    not negative: between 20 and 24.  When it raises it has run fewer, and
    what it ran stays counted. *)
Theorem validate_loan_test_count (round2 : Q -> Q) (clock : Clock)
    (db : Database) (loan_id : string) (django_data : Raw.DjangoLoan)
    (metrics_data : Raw.MetricsLoan) (stored : StoredColumns)
    (self : Validator.MetricsValidator) :
  get_django_loan_data db loan_id = Some django_data ->
  get_metrics_loan_data db loan_id = Some (metrics_data, stored) ->
  let run := Validator.validate_loan round2 clock db loan_id self in
  let tests :=
    20
    + (if present (Raw.disbursement_date django_data) then 2 else 0)
    + (if positive_Q (Raw.daily_repayment_amount metrics_data)
       then 1 else 0)
    + match Raw.loan_age metrics_data with
      | Some a => if 0 <=? a then 1 else 0
      | None => 0
      end in
  Validator.total_tests self <= Validator.total_tests (snd run)
                             <= Validator.total_tests self + tests
  /\ tests <= 24
  /\ (returns (fst run) ->
      Validator.total_tests (snd run) = Validator.total_tests self + tests).
Proof.
  intros Hd Hm. cbv zeta.
  destruct (records_validate_loan round2 clock db loan_id django_data
              metrics_data stored Hd Hm self)
    as [new [raised [-> [Hle [Hr Hn]]]]].
  cbn [Validator.record_tests Validator.total_tests].
  assert (Htests :
            Z.of_nat (loan_tests django_data metrics_data)
            = 20
              + (if present (Raw.disbursement_date django_data)
                 then 2 else 0)
              + (if positive_Q (Raw.daily_repayment_amount metrics_data)
                 then 1 else 0)
              + match Raw.loan_age metrics_data with
                | Some a => if 0 <=? a then 1 else 0
                | None => 0
                end).
  { unfold loan_tests, business_days_tests, delay_rate_tests.
    destruct (present (Raw.disbursement_date django_data)),
      (positive_Q (Raw.daily_repayment_amount metrics_data)),
      (Raw.loan_age metrics_data) as [a |];
      try destruct (0 <=? a); reflexivity. }
  rewrite <- Htests. pose proof (loan_tests_range django_data metrics_data).
  split; [lia |]. split; [lia |].
  intros Hret. destruct (Hn Hret) as [Hlen ->]. lia.
Qed.

Lemma validate_loan_test_count_witness :
  let run :=
    Validator.validate_loan (fun q => q) (at_instant (noon (Date.ymd 2024 3 1)))
      february_database "8" Validator.init in
  0 <= Validator.total_tests (snd run) <= 0 + (20 + 2 + 0 + 0)
  /\ 20 + 2 + 0 + 0 <= 24
  /\ (returns (fst run) -> Validator.total_tests (snd run) = 0 + 22).
Proof.
  exact (validate_loan_test_count (fun q => q)
           (at_instant (noon (Date.ymd 2024 3 1)))
           february_database "8" (raw_django_loan february_loan)
           (raw_metrics_loan march_row) null_columns
           Validator.init eq_refl eq_refl).
Defined.

(** ** What a loan never raises *)

Section Outcomes.

Import Validator.















End Outcomes.



(** ** Verdicts *)

Section Verdicts.

Import Validator.

(** A decimal expected value passes against a stored number within the
    tolerance, and against nothing else. *)
Lemma compare_within (e : Q) (actual : value) (tolerance : Q) :
  (0 <= tolerance)%Q ->
  compare (VDecimal e) actual (Some tolerance) = Ok true ->
  exists a, numeric actual = Some a /\ (Qabs (e - a) <= tolerance)%Q.
Proof.
  intros Htol. unfold compare.
  cbn [truthy_Q is_decimal_or_float andb to_decimal].
  assert (Hexact : forall a, Qeq_bool e a = true ->
                             (Qabs (e - a) <= tolerance)%Q).
  { intros a H. apply Qeq_bool_iff in H.
    setoid_replace (e - a)%Q with 0%Q by (rewrite H; ring).
    exact Htol. }
  destruct actual as [| b | z | a | a | d | | s];
    cbn [numeric py_eq is_decimal_or_float to_decimal within];
    rewrite ?andb_false_r, ?andb_true_r;
    try (intros [= H]; try discriminate H;
         eexists; split; [reflexivity | now apply Hexact]);
    try (destruct (Qeq_bool tolerance 0); cbn [negb];
         intros [= H]; try discriminate H;
         eexists; (split; [reflexivity |]);
         first [now apply Hexact | now apply Qle_bool_iff]);
    try (destruct (Qeq_bool tolerance 0); cbn [negb]; discriminate).
Qed.

Lemma compare_decimal (e a tolerance : Q) :
  ~ (tolerance == 0)%Q ->
  compare (VDecimal e) (VDecimal a) (Some tolerance)
  = Ok (Qle_bool (Qabs (e - a)) tolerance).
Proof.
  intros H. unfold compare.
  cbn [truthy_Q is_decimal_or_float to_decimal within].
  now rewrite (proj2 (Qeq_bool_false_iff tolerance 0) H).
Qed.

(** What the sum of a column is compared with is a decimal or NULL: the
    comparison returns, and passes as [total_passes] says. *)
Lemma compare_total (column : list Q) (total : option Q) :
  exists verdict : bool,
    compare (sum_value column) (of_decimal total) (Some (1 # 100)%Q)
    = Ok verdict
    /\ (verdict = true <-> total_passes column total).
Proof.
  unfold total_passes.
  destruct total as [q |]; cbn [of_decimal].
  - destruct column as [| x xs]; cbn [sum_value].
    + exists (Qeq_bool (inject_Z 0) q). split; [reflexivity |].
      rewrite Qeq_bool_iff. change (inject_Z 0) with 0%Q. split.
      * intros H. exists q. split; [reflexivity | now symmetry].
      * intros [q' [[= <-] H]]. now symmetry.
    + rewrite compare_decimal by discriminate. eexists.
      split; [reflexivity |]. rewrite Qle_bool_iff. split.
      * intros H. now exists q.
      * now intros [q' [[= <-] H]].
  - exists false. split.
    + now destruct column.
    + split; [discriminate | intros [q [[=] _]]].
Qed.

Lemma failed_tests_unchanged (self : MetricsValidator)
    (new : list TestResult) (raised : nat) :
  failed_tests (record_tests self new raised) = failed_tests self
  <-> forallb passed new = true.
Proof.
  cbn [record_tests failed_tests]. rewrite <- count_failed_zero. lia.
Qed.

Lemma mbind_assert_equal {B : Type} (test_name : string)
    (expected actual : value) (tolerance : option Q)
    (k : bool -> method B) (self : MetricsValidator) (verdict : bool) :
  compare expected actual tolerance = Ok verdict ->
  mbind (assert_equal test_name expected actual tolerance) k self
  = k verdict
      (record_tests self
         [{| test := test_name; passed := verdict; expected := expected;
             actual := actual |}] 0).
Proof.
  intros H. unfold mbind. now rewrite assert_equal_records, H.
Qed.

Lemma mbind_assert_equal_raise {B : Type} (test_name : string)
    (expected actual : value) (tolerance : option Q)
    (k : bool -> method B) (self : MetricsValidator) :
  compare expected actual tolerance = Raise InvalidOperation ->
  fst (mbind (assert_equal test_name expected actual tolerance) k self)
  = Raise InvalidOperation.
Proof.
  intros H. unfold mbind. now rewrite assert_equal_records, H.
Qed.

End Verdicts.

(** A run of [validate_outstanding_balances] that returns had its operands
    and recorded four verdicts. *)
Lemma validate_outstanding_balances_log (django_data : Raw.DjangoLoan)
    (metrics_data : Raw.MetricsLoan) (stored : StoredColumns)
    (self : Validator.MetricsValidator) :
  returns (fst (Validator.validate_outstanding_balances django_data
                  metrics_data stored self)) ->
  exists (loan_amount interest_rate principal_paid interest_paid fees_paid : Q)
         (v1 v2 v3 v4 : bool),
    Raw.loan_amount django_data = Some loan_amount
    /\ Raw.interest_rate django_data = Some interest_rate
    /\ Raw.total_principal_paid metrics_data = Some principal_paid
    /\ Raw.total_interest_paid metrics_data = Some interest_paid
    /\ Raw.total_fees_paid metrics_data = Some fees_paid
    /\ let b :=
         outstanding_balances_of loan_amount interest_rate
           (decimal_or_zero (Raw.fee_amount django_data))
           principal_paid interest_paid fees_paid in
       compare (VDecimal (expected_principal_outstanding b))
         (stored_principal_outstanding stored) (Some (1 # 100)%Q) = Ok v1
       /\ compare (VDecimal (expected_interest_outstanding b))
            (stored_interest_outstanding stored) (Some (1 # 100)%Q) = Ok v2
       /\ compare (VDecimal (expected_fees_outstanding b))
            (stored_fees_outstanding stored) (Some (1 # 100)%Q) = Ok v3
       /\ compare (VDecimal (expected_total_outstanding b))
            (stored_total_outstanding stored) (Some (1 # 100)%Q) = Ok v4
       /\ Validator.failed_tests
            (snd (Validator.validate_outstanding_balances django_data
                    metrics_data stored self))
          = Validator.failed_tests self
            + Validator.count_failed
                [{| Validator.test := "Principal Outstanding";
                    Validator.passed := v1;
                    Validator.expected :=
                      VDecimal (expected_principal_outstanding b);
                    Validator.actual := stored_principal_outstanding stored |};
                 {| Validator.test := "Interest Outstanding";
                    Validator.passed := v2;
                    Validator.expected :=
                      VDecimal (expected_interest_outstanding b);
                    Validator.actual := stored_interest_outstanding stored |};
                 {| Validator.test := "Fees Outstanding";
                    Validator.passed := v3;
                    Validator.expected :=
                      VDecimal (expected_fees_outstanding b);
                    Validator.actual := stored_fees_outstanding stored |};
                 {| Validator.test := "Total Outstanding";
                    Validator.passed := v4;
                    Validator.expected :=
                      VDecimal (expected_total_outstanding b);
                    Validator.actual := stored_total_outstanding stored |}].
Proof.
  unfold Validator.validate_outstanding_balances.
  destruct (Raw.loan_amount django_data) as [loan_amount |];
    [| intros [u [=]]].
  destruct (Raw.interest_rate django_data) as [interest_rate |];
    [| intros [u [=]]].
  destruct (Raw.total_principal_paid metrics_data) as [principal_paid |];
    [| intros [u [=]]].
  destruct (Raw.total_interest_paid metrics_data) as [interest_paid |];
    [| intros [u [=]]].
  destruct (Raw.total_fees_paid metrics_data) as [fees_paid |];
    [| intros [u [=]]].
  cbn [decimal_of_str operand]. rewrite !mbind_lift_ok. cbv zeta.
  set (b := outstanding_balances_of loan_amount interest_rate
              (decimal_or_zero (Raw.fee_amount django_data))
              principal_paid interest_paid fees_paid).
  destruct (compare_outcome (VDecimal (expected_principal_outstanding b))
              (stored_principal_outstanding stored) (Some (1 # 100)%Q))
    as [[v1 H1] | H1];
    [| rewrite (mbind_assert_equal_raise _ _ _ _ _ _ H1); intros [u [=]]].
  rewrite (mbind_assert_equal _ _ _ _ _ _ _ H1).
  destruct (compare_outcome (VDecimal (expected_interest_outstanding b))
              (stored_interest_outstanding stored) (Some (1 # 100)%Q))
    as [[v2 H2] | H2];
    [| rewrite (mbind_assert_equal_raise _ _ _ _ _ _ H2); intros [u [=]]].
  rewrite (mbind_assert_equal _ _ _ _ _ _ _ H2).
  destruct (compare_outcome (VDecimal (expected_fees_outstanding b))
              (stored_fees_outstanding stored) (Some (1 # 100)%Q))
    as [[v3 H3] | H3];
    [| rewrite (mbind_assert_equal_raise _ _ _ _ _ _ H3); intros [u [=]]].
  rewrite (mbind_assert_equal _ _ _ _ _ _ _ H3).
  destruct (compare_outcome (VDecimal (expected_total_outstanding b))
              (stored_total_outstanding stored) (Some (1 # 100)%Q))
    as [[v4 H4] | H4];
    [| rewrite (mbind_assert_equal_raise _ _ _ _ _ _ H4); intros [u [=]]].
  rewrite (mbind_assert_equal _ _ _ _ _ _ _ H4).
  intros _. exists loan_amount, interest_rate, principal_paid, interest_paid,
    fees_paid, v1, v2, v3, v4.
  repeat (split; [reflexivity |]). fold b.
  repeat (split; [assumption |]).
  cbn [Validator.ret snd]. rewrite !record_tests_app. reflexivity.
Qed.

(** X8. A run of the four balance tests that returns without recording a
    failure had its operands, and the snapshot stores numbers, each within
    0.01 of its formula; its total outstanding is then within 0.04 of the
    sum of its three parts, and its interest and fees outstanding are not
    below -0.01. *)
Theorem balances_pass_sum_identity (django_data : Raw.DjangoLoan)
    (metrics_data : Raw.MetricsLoan) (stored : StoredColumns)
    (self : Validator.MetricsValidator) :
  let run :=
    Validator.validate_outstanding_balances django_data metrics_data stored
      self in
  returns (fst run) ->
  Validator.failed_tests (snd run) = Validator.failed_tests self ->
  exists loan_amount principal_paid p i f t : Q,
    Raw.loan_amount django_data = Some loan_amount
    /\ Raw.total_principal_paid metrics_data = Some principal_paid
    /\ numeric (stored_principal_outstanding stored) = Some p
    /\ numeric (stored_interest_outstanding stored) = Some i
    /\ numeric (stored_fees_outstanding stored) = Some f
    /\ numeric (stored_total_outstanding stored) = Some t
    /\ (Qabs (loan_amount - principal_paid - p) <= 1 # 100)%Q
    /\ (Qabs (t - (p + i + f)) <= 4 # 100)%Q
    /\ (- (1 # 100) <= i)%Q
    /\ (- (1 # 100) <= f)%Q.
Proof.
  cbv zeta. intros Hreturns Hfailed.
  destruct (validate_outstanding_balances_log _ _ _ _ Hreturns)
    as [loan_amount [interest_rate [principal_paid [interest_paid
         [fees_paid [v1 [v2 [v3 [v4 [Hloan [_ [Hpaid [_ [_ Hlog]]]]]]]]]]]]]].
  cbv zeta in Hlog. destruct Hlog as [H1 [H2 [H3 [H4 Hcount]]]].
  rewrite Hcount in Hfailed.
  match type of Hfailed with
  | (_ + ?c = _)%Z => assert (Hzero : c = 0) by lia
  end.
  apply count_failed_zero in Hzero.
  cbn [forallb Validator.passed] in Hzero.
  rewrite !andb_true_iff in Hzero.
  destruct Hzero as [-> [-> [-> [-> _]]]].
  assert (Htol : (0 <= 1 # 100)%Q) by discriminate.
  apply (compare_within _ _ _ Htol) in H1 as [p [Ep Hp]].
  apply (compare_within _ _ _ Htol) in H2 as [i [Ei Hi]].
  apply (compare_within _ _ _ Htol) in H3 as [f [Ef Hf]].
  apply (compare_within _ _ _ Htol) in H4 as [t [Et Ht]].
  exists loan_amount, principal_paid, p, i, f, t.
  repeat (split; [assumption |]).
  cbn [outstanding_balances_of expected_principal_outstanding
       expected_interest_outstanding expected_fees_outstanding
       expected_total_outstanding] in *.
  set (P := (loan_amount - principal_paid)%Q) in *.
  set (x := (loan_amount * interest_rate - interest_paid)%Q) in *.
  set (y := (decimal_or_zero (Raw.fee_amount django_data) - fees_paid)%Q)
    in *.
  pose proof (Q.le_max_l 0 x) as HI. pose proof (Q.le_max_l 0 y) as HF.
  set (I := Qmax 0 x) in *. set (F := Qmax 0 y) in *.
  apply Qabs_Qle_condition in Hp, Hi, Hf, Ht.
  split; [apply Qabs_Qle_condition; lra | split; lra].
Qed.

Lemma balances_pass_sum_identity_witness :
  exists loan_amount principal_paid p i f t : Q,
    Raw.loan_amount (raw_django_loan scenario_loan) = Some loan_amount
    /\ Raw.total_principal_paid (raw_metrics_loan scenario_row)
       = Some principal_paid
    /\ numeric (stored_principal_outstanding scenario_columns) = Some p
    /\ numeric (stored_interest_outstanding scenario_columns) = Some i
    /\ numeric (stored_fees_outstanding scenario_columns) = Some f
    /\ numeric (stored_total_outstanding scenario_columns) = Some t
    /\ (Qabs (loan_amount - principal_paid - p) <= 1 # 100)%Q
    /\ (Qabs (t - (p + i + f)) <= 4 # 100)%Q
    /\ (- (1 # 100) <= i)%Q
    /\ (- (1 # 100) <= f)%Q.
Proof.
  apply (balances_pass_sum_identity (raw_django_loan scenario_loan)
           (raw_metrics_loan scenario_row) scenario_columns Validator.init).
  - now eexists.
  - reflexivity.
Defined.

(** The columns of the repayments are read before the first test; the
    four tests then return. *)
Lemma validate_repayment_totals_log (django_repayments : list Raw.Repayment)
    (metrics_data : Raw.MetricsLoan) (self : Validator.MetricsValidator)
    (principal interest fees total : list Q) (v1 v2 v3 v4 : bool) :
  decimals (map Raw.principal_paid django_repayments) = Ok principal ->
  decimals (map Raw.interest_paid django_repayments) = Ok interest ->
  decimals (map Raw.fees_paid django_repayments) = Ok fees ->
  decimals (map Raw.payment_amount django_repayments) = Ok total ->
  compare (sum_value principal)
    (of_decimal (Raw.total_principal_paid metrics_data)) (Some (1 # 100)%Q)
  = Ok v1 ->
  compare (sum_value interest)
    (of_decimal (Raw.total_interest_paid metrics_data)) (Some (1 # 100)%Q)
  = Ok v2 ->
  compare (sum_value fees)
    (of_decimal (Raw.total_fees_paid metrics_data)) (Some (1 # 100)%Q)
  = Ok v3 ->
  compare (sum_value total)
    (of_decimal (Raw.total_repayments metrics_data)) (Some (1 # 100)%Q)
  = Ok v4 ->
  let run :=
    Validator.validate_repayment_totals django_repayments metrics_data self in
  fst run = Ok tt
  /\ (Validator.failed_tests (snd run) = Validator.failed_tests self
      <-> v1 = true /\ v2 = true /\ v3 = true /\ v4 = true).
Proof.
  intros Hp Hi Hf Ht H1 H2 H3 H4. cbv zeta.
  unfold Validator.validate_repayment_totals.
  rewrite Hp, Hi, Hf, Ht, !mbind_lift_ok.
  rewrite (mbind_assert_equal _ _ _ _ _ _ _ H1).
  rewrite (mbind_assert_equal _ _ _ _ _ _ _ H2).
  rewrite (mbind_assert_equal _ _ _ _ _ _ _ H3).
  rewrite (mbind_assert_equal _ _ _ _ _ _ _ H4).
  cbn [Validator.ret fst snd]. split; [reflexivity |].
  rewrite !record_tests_app, failed_tests_unchanged.
  cbn [app forallb Validator.passed]. rewrite !andb_true_iff. tauto.
Qed.

Lemma decimals_outcome (vs : list (option Q)) :
  returns (decimals vs) \/ decimals vs = Raise InvalidOperation.
Proof.
  induction vs as [| [q |] vs IH]; cbn;
    [left; now eexists | | now right].
  destruct IH as [[qs ->] | ->]; cbn; [left; now eexists | now right].
Qed.

(** X9. [validate_repayment_totals] returns without recording a failure
    exactly when no column of the repayments holds a NULL and each stored
    total passes against the sum of its column: within 0.01 of it for a
    loan with repayments; for a loan without repayments the expected
    totals are the integer 0, the tolerance is not applied, and a stored
    total passes when it is exactly 0 only. *)
Theorem repayment_totals_pass (django_repayments : list Raw.Repayment)
    (metrics_data : Raw.MetricsLoan) (self : Validator.MetricsValidator) :
  let run :=
    Validator.validate_repayment_totals django_repayments metrics_data self in
  returns (fst run)
  /\ Validator.failed_tests (snd run) = Validator.failed_tests self
  <-> exists principal interest fees total : list Q,
        decimals (map Raw.principal_paid django_repayments) = Ok principal
        /\ decimals (map Raw.interest_paid django_repayments) = Ok interest
        /\ decimals (map Raw.fees_paid django_repayments) = Ok fees
        /\ decimals (map Raw.payment_amount django_repayments) = Ok total
        /\ total_passes principal (Raw.total_principal_paid metrics_data)
        /\ total_passes interest (Raw.total_interest_paid metrics_data)
        /\ total_passes fees (Raw.total_fees_paid metrics_data)
        /\ total_passes total (Raw.total_repayments metrics_data).
Proof.
  cbv zeta.
  destruct (decimals_outcome (map Raw.principal_paid django_repayments))
    as [[principal Hp] | Hp];
    [| split;
       [ intros [[u Hu] _]; revert Hu;
         unfold Validator.validate_repayment_totals; rewrite Hp; discriminate
       | intros [x [_ [_ [_ [H _]]]]]; congruence ]].
  destruct (decimals_outcome (map Raw.interest_paid django_repayments))
    as [[interest Hi] | Hi];
    [| split;
       [ intros [[u Hu] _]; revert Hu;
         unfold Validator.validate_repayment_totals; rewrite Hp, Hi;
         discriminate
       | intros [_ [x [_ [_ [_ [H _]]]]]]; congruence ]].
  destruct (decimals_outcome (map Raw.fees_paid django_repayments))
    as [[fees Hf] | Hf];
    [| split;
       [ intros [[u Hu] _]; revert Hu;
         unfold Validator.validate_repayment_totals; rewrite Hp, Hi, Hf;
         discriminate
       | intros [_ [_ [x [_ [_ [_ [H _]]]]]]]; congruence ]].
  destruct (decimals_outcome (map Raw.payment_amount django_repayments))
    as [[total Ht] | Ht];
    [| split;
       [ intros [[u Hu] _]; revert Hu;
         unfold Validator.validate_repayment_totals; rewrite Hp, Hi, Hf, Ht;
         discriminate
       | intros [_ [_ [_ [x [_ [_ [_ [H _]]]]]]]]; congruence ]].
  destruct (compare_total principal (Raw.total_principal_paid metrics_data))
    as [v1 [H1 E1]].
  destruct (compare_total interest (Raw.total_interest_paid metrics_data))
    as [v2 [H2 E2]].
  destruct (compare_total fees (Raw.total_fees_paid metrics_data))
    as [v3 [H3 E3]].
  destruct (compare_total total (Raw.total_repayments metrics_data))
    as [v4 [H4 E4]].
  destruct (validate_repayment_totals_log django_repayments metrics_data self
              principal interest fees total v1 v2 v3 v4
              Hp Hi Hf Ht H1 H2 H3 H4) as [Hrun Hfailed].
  rewrite Hfailed, E1, E2, E3, E4. split.
  - intros [_ H]. exists principal, interest, fees, total. tauto.
  - intros [p' [i' [f' [t' [Hp' [Hi' [Hf' [Ht' H]]]]]]]].
    rewrite Hp in Hp'. rewrite Hi in Hi'. rewrite Hf in Hf'.
    rewrite Ht in Ht'.
    injection Hp' as <-. injection Hi' as <-. injection Hf' as <-.
    injection Ht' as <-.
    split; [rewrite Hrun; now eexists | exact H].
Qed.

(** Without repayments a stored total of 0.005 fails, although it is
    within the tolerance of 0.01; and a repayment with a NULL amount makes
    the method raise before its first test. *)
Example repayment_totals_half_cent :
  let stored := raw_metrics_loan (daily_row None (5 # 1000)) in
  Validator.validate_repayment_totals [] stored Validator.init
  = (Ok tt,
     {| Validator.test_results :=
          [{| Validator.test := "Total Principal Paid";
              Validator.passed := true;
              Validator.expected := VInt 0;
              Validator.actual := VDecimal 0 |};
           {| Validator.test := "Total Interest Paid";
              Validator.passed := true;
              Validator.expected := VInt 0;
              Validator.actual := VDecimal 0 |};
           {| Validator.test := "Total Fees Paid";
              Validator.passed := true;
              Validator.expected := VInt 0;
              Validator.actual := VDecimal 0 |};
           {| Validator.test := "Total Repayments";
              Validator.passed := false;
              Validator.expected := VInt 0;
              Validator.actual := VDecimal (5 # 1000) |}];
        Validator.total_tests := 4; Validator.passed_tests := 3;
        Validator.failed_tests := 1 |})
  /\ Validator.validate_repayment_totals
       [{| Raw.payment_date := None; Raw.principal_paid := Some 0%Q;
           Raw.interest_paid := Some 0%Q; Raw.fees_paid := None;
           Raw.payment_amount := Some 0%Q |}] stored Validator.init
     = (Raise InvalidOperation, Validator.init).
Proof.
  split; reflexivity.
Qed.

Lemma Qeq_bool_sym (x y : Q) : Qeq_bool x y = Qeq_bool y x.
Proof.
  destruct (Qeq_bool x y) eqn:E; symmetry.
  - apply Qeq_bool_iff. symmetry. now apply Qeq_bool_iff.
  - apply Qeq_bool_false_iff. intros H. symmetry in H.
    now apply (Qeq_bool_neq x y).
Qed.

Lemma bool_eqb_sym (a b : bool) : Bool.eqb a b = Bool.eqb b a.
Proof. now destruct a, b. Qed.

Lemma within_sym (x y : decimal) (tolerance : Q) :
  within x y tolerance = within y x tolerance.
Proof.
  destruct x as [x | | s1], y as [y | | s2]; cbn [within];
    try reflexivity.
  - now rewrite Qabs_Qminus.
  - rewrite (bool_eqb_sym s1 s2). reflexivity.
Qed.

(** X10. The verdict of [assert_equal] does not depend on which of the two
    values is given as the expected one. *)
Theorem verdict_symmetric (expected actual : value) (tolerance : option Q) :
  Validator.verdict expected actual tolerance
  = Validator.verdict actual expected tolerance.
Proof.
  rewrite !verdict_compare. unfold compare.
  assert (Hpy : py_eq expected actual = py_eq actual expected).
  { destruct expected, actual; cbn [py_eq numeric]; try reflexivity;
      try apply Qeq_bool_sym; try apply Z.eqb_sym; apply bool_eqb_sym. }
  rewrite Hpy.
  destruct (truthy_Q tolerance); cbn [andb]; [| reflexivity].
  destruct (is_decimal_or_float expected) eqn:He,
    (is_decimal_or_float actual) eqn:Ha; cbn [andb]; try reflexivity.
  destruct tolerance as [t |]; [| reflexivity].
  destruct (to_decimal expected) as [x |] eqn:Hx,
    (to_decimal actual) as [y |] eqn:Hy; try reflexivity.
  apply within_sym.
Qed.

(** * More on the expected values *)

(** ** Business days *)

(** X11. On any two dates [count_business_days] either returns the number
    of Monday-to-Friday days of the inclusive interval, which is at most
    the number of its days and 0 when the start is after the end, or
    raises [OverflowError]; it raises exactly when the interval is not
    empty and ends on [date.max]. *)
Theorem count_business_days_contract (start_date end_date : Date.t) :
  Date.valid start_date -> Date.valid end_date ->
  count_business_days (Some start_date) (Some end_date)
  = (if (end_date <? Date.max) || (end_date <? start_date)
     then Ok (businessDaysBetween (Some start_date) (Some end_date))
     else Raise OverflowError)
  /\ 0 <= businessDaysBetween (Some start_date) (Some end_date)
       <= Z.max 0 (end_date - start_date + 1).
Proof.
  intros Hs He. split.
  - destruct (Z.ltb_spec end_date Date.max) as [H1 | H1];
      [| destruct (Z.ltb_spec end_date start_date) as [H2 | H2]];
      cbn [orb].
    + apply count_business_days_correct; auto.
    + apply count_business_days_correct; auto.
    + assert (end_date = Date.max)
        by (unfold Date.valid in He; change Date.max with Date.MAXORDINAL in *;
            lia).
      subst end_date. now apply count_business_days_overflow.
  - split; [apply businessDaysBetween_nonneg |].
    unfold businessDaysBetween, days_of_interval.
    pose proof (filter_length_le is_business_day
                  (map (fun k => start_date + Z.of_nat k)
                       (seq 0 (Z.to_nat (end_date - start_date + 1))))) as H.
    rewrite length_map, length_seq in H. lia.
Qed.

Lemma count_business_days_contract_witness :
  count_business_days (Some (Date.ymd 2024 2 1)) (Some (Date.ymd 2024 2 9))
  = Ok (businessDaysBetween (Some (Date.ymd 2024 2 1))
                            (Some (Date.ymd 2024 2 9)))
  /\ 0 <= businessDaysBetween (Some (Date.ymd 2024 2 1))
                              (Some (Date.ymd 2024 2 9))
       <= 9.
Proof.
  apply (count_business_days_contract (Date.ymd 2024 2 1)
           (Date.ymd 2024 2 9)); vm_compute; split; discriminate.
Defined.

Section Weeks.

Lemma businessDaysBetween_split (m e : Date.t) (n : nat) :
  forall s : Date.t,
    Z.to_nat (m + 1 - s) = n -> s <= m + 1 -> m <= e ->
    businessDaysBetween (Some s) (Some e)
    = businessDaysBetween (Some s) (Some m)
      + businessDaysBetween (Some (m + 1)) (Some e).
Proof.
  induction n as [| n IH]; intros s Hn H1 H2.
  - replace s with (m + 1) by lia.
    rewrite (businessDaysBetween_empty (m + 1) m) by lia. lia.
  - rewrite (businessDaysBetween_step s e),
      (businessDaysBetween_step s m) by lia.
    rewrite (IH (s + 1)) by lia. lia.
Qed.

(** Seven days in a row hold five business days, whichever day they start
    on. *)
Lemma businessDaysBetween_week (s : Date.t) :
  businessDaysBetween (Some s) (Some (s + 6)) = 5.
Proof.
  do 7 (rewrite businessDaysBetween_step by lia;
        rewrite <- ?Z.add_assoc; cbn [Z.add Pos.add Pos.succ]).
  rewrite businessDaysBetween_empty by lia.
  unfold Date.weekday.
  assert (H : forall k, (s + k + 6) mod 7 = ((s + 6) mod 7 + k) mod 7).
  { intros k. rewrite Zplus_mod_idemp_l. f_equal. lia. }
  rewrite !H.
  pose proof (Z.mod_pos_bound (s + 6) 7 ltac:(lia)) as Hw.
  replace ((s + 6) mod 7) with ((s + 6) mod 7 + 0) at 1 by lia.
  set (w := (s + 6) mod 7) in *.
  assert (Hcases : w = 0 \/ w = 1 \/ w = 2 \/ w = 3 \/ w = 4 \/ w = 5
                   \/ w = 6) by lia.
  destruct Hcases as [-> | [-> | [-> | [-> | [-> | [-> | ->]]]]]];
    reflexivity.
Qed.

Lemma businessDaysBetween_weeks (n : nat) :
  forall s : Date.t,
    businessDaysBetween (Some s) (Some (s + 7 * Z.of_nat n - 1))
    = 5 * Z.of_nat n.
Proof.
  induction n as [| n IH]; intros s.
  - rewrite businessDaysBetween_empty by lia. lia.
  - rewrite (businessDaysBetween_split (s + 6) _ 7 s) by lia.
    rewrite businessDaysBetween_week.
    replace (s + 7 * Z.of_nat (S n) - 1)
      with (s + 6 + 1 + 7 * Z.of_nat n - 1) by lia.
    rewrite IH. lia.
Qed.

End Weeks.

(** X12. Any whole number of weeks holds five business days a week,
    whichever weekday it starts on, and that is what
    [count_business_days] returns for it when the weeks end before
    [date.max]. *)
Theorem count_business_days_weeks (start_date : Date.t) (weeks : nat) :
  Date.valid start_date ->
  start_date + 7 * Z.of_nat weeks - 1 < Date.max ->
  count_business_days (Some start_date)
                      (Some (start_date + 7 * Z.of_nat weeks - 1))
  = Ok (5 * Z.of_nat weeks).
Proof.
  intros Hs He. unfold count_business_days.
  rewrite (count_business_days_loop_spec
             (Z.to_nat (start_date + 7 * Z.of_nat weeks - 1
                        - start_date + 1)));
    try (unfold Date.valid in Hs; change Date.max with Date.MAXORDINAL in He;
         lia).
  now rewrite businessDaysBetween_weeks.
Qed.

Lemma count_business_days_weeks_witness :
  count_business_days (Some (Date.ymd 2024 2 7))
                      (Some (Date.ymd 2024 2 7 + 7 * Z.of_nat 3 - 1))
  = Ok (5 * Z.of_nat 3).
Proof.
  apply (count_business_days_weeks (Date.ymd 2024 2 7) 3);
    vm_compute; [split; discriminate | reflexivity].
Defined.

(** ** The two first-installment tags *)

(** X13. The tags [fimrTagged] and [firstPaymentMissed] are expected to be
    equal on every snapshot but two kinds: a repayment without a due date
    (tagged, not missed) and no repayment with a due date that is today or
    later (missed, not tagged).  With both dates present both are "the
    repayment came after the due date". *)
Theorem fimr_and_first_payment_missed (today : Date.t)
    (due received : option Date.t) :
  (expected_fimr_of today due received
   = expected_first_payment_missed_of due received
   <-> ~ ((due = None /\ received <> None)
          \/ (received = None /\ exists d, due = Some d /\ today <= d)))
  /\ (forall d r,
         due = Some d -> received = Some r ->
         expected_fimr_of today due received = (d <? r)
         /\ expected_first_payment_missed_of due received = (d <? r)).
Proof.
  unfold expected_fimr_of, expected_first_payment_missed_of.
  split.
  - destruct due as [d |], received as [r |]; cbn [present negb andb].
    + rewrite Z.gtb_ltb.
      destruct (Z.leb_spec r d), (Z.ltb_spec d r); try lia;
        (split; [intros _ [[[=] _] | [[=] _]] | reflexivity]).
    + destruct (Z.geb_spec d today) as [Hge | Hlt].
      * split; [discriminate |]. intros H. exfalso. apply H. right.
        split; [reflexivity |]. exists d. split; [reflexivity | lia].
      * split; [| reflexivity].
        intros _ [[[=] _] | [_ [d' [[= <-] Hd]]]]. lia.
    + split; [discriminate |]. intros H. exfalso. apply H. left.
      split; [reflexivity | discriminate].
    + split; [| reflexivity].
      intros _ [[_ H] | [_ [d [[=] _]]]]. now apply H.
  - intros d r -> ->. cbn [present negb andb]. rewrite Z.gtb_ltb.
    destruct (Z.leb_spec r d), (Z.ltb_spec d r); try lia; auto.
Qed.

(** ** Shortfall and days past due *)

Section Shortfall.

Lemma floor_below (x : Q) (n : Z) : (x < inject_Z n)%Q -> Qfloor x < n.
Proof.
  intros H. rewrite Zlt_Qlt.
  apply Qle_lt_trans with x; [apply Qfloor_le | assumption].
Qed.

Lemma actual_outstanding_of_value (daily : Q) (due : Z) (total : Q) :
  expected_actual_outstanding_of (Some daily) (Some due) total
  = if negb (Qeq_bool daily 0) && negb (due =? 0)
    then Qmax 0 (daily * inject_Z due - total)
    else 0%Q.
Proof. reflexivity. Qed.

(** A shortfall means that the installments due exceed what was repaid. *)
Lemma actual_outstanding_shortfall (daily : Q) (due : Z) (total : Q) :
  (0 < expected_actual_outstanding_of (Some daily) (Some due) total)%Q ->
  (total < daily * inject_Z due)%Q.
Proof.
  rewrite actual_outstanding_of_value.
  destruct (negb (Qeq_bool daily 0) && negb (due =? 0)).
  - rewrite Q.max_lt_iff. intros [H | H]; [discriminate H | lra].
  - discriminate.
Qed.

End Shortfall.

(** X14. The expected actual outstanding is never negative.  It is
    positive exactly when the stored daily amount and installments due are
    present and not zero and their product exceeds the total repaid. *)
Theorem actual_outstanding_positive (metrics_data : MetricsLoan) :
  (0 <= validate_actual_outstanding metrics_data)%Q
  /\ ((0 < validate_actual_outstanding metrics_data)%Q
      <-> exists daily due,
            daily_repayment_amount metrics_data = Some daily
            /\ repayment_days_due_today metrics_data = Some due
            /\ ~ (daily == 0)%Q /\ due <> 0
            /\ (total_repayments metrics_data < daily * inject_Z due)%Q).
Proof.
  unfold validate_actual_outstanding, expected_actual_outstanding_of.
  destruct (daily_repayment_amount metrics_data) as [daily |];
    [destruct (repayment_days_due_today metrics_data) as [due |] |];
    cbn [truthy_Q truthy_Z andb].
  - destruct (Qeq_bool daily 0) eqn:Hd; cbn [negb andb].
    + split; [discriminate |]. split; [discriminate |].
      intros [x [y [[= <-] [_ [H _]]]]]. exfalso. apply H.
      now apply Qeq_bool_iff.
    + destruct (Z.eqb_spec due 0) as [Hz | Hz]; cbn [negb].
      * split; [discriminate |]. split; [discriminate |].
        intros [x [y [_ [[= <-] [_ [H _]]]]]]. contradiction.
      * split; [apply Q.le_max_l |]. rewrite Q.max_lt_iff.
        split.
        -- intros [H | H]; [discriminate H |].
           exists daily, due. repeat split; auto.
           ++ now apply Qeq_bool_neq.
           ++ lra.
        -- intros [x [y [[= <-] [[= <-] [_ [_ H]]]]]]. right. lra.
  - rewrite andb_false_r. split; [discriminate |]. split; [discriminate |].
    intros [x [y [_ [[=] _]]]].
  - split; [discriminate |]. split; [discriminate |].
    intros [x [y [[=] _]]].
Qed.

(** X15. On a snapshot whose schedule columns hold their expected values
    (a positive daily amount, the repayment days paid that it gives for a
    total repaid that is not negative, and the actual outstanding), the
    loan is expected to be at least one day past due exactly when it has a
    shortfall; the early indicator is then never expected on a loan that
    is on schedule. *)
Theorem shortfall_iff_past_due (metrics_data : MetricsLoan)
    (daily paid actual : Q) (due : Z) :
  daily_repayment_amount metrics_data = Some daily -> (0 < daily)%Q ->
  repayment_days_due_today metrics_data = Some due ->
  (0 <= total_repayments metrics_data)%Q ->
  repayment_days_paid metrics_data = Some paid ->
  (paid == total_repayments metrics_data / daily)%Q ->
  actual_outstanding metrics_data = Some actual ->
  (actual == validate_actual_outstanding metrics_data)%Q ->
  exists dpd,
    expected_dpd metrics_data = Ok dpd
    /\ 0 <= dpd
    /\ ((0 < actual)%Q <-> 1 <= dpd)
    /\ (current_dpd metrics_data = dpd ->
        expected_early_indicator metrics_data = true -> (0 < actual)%Q).
Proof.
  intros Hdaily Hpos Hdue Htotal Hpaid Epaid Hactual Eactual.
  assert (Hpaid0 : (0 <= paid)%Q).
  { rewrite Epaid. apply Qle_shift_div_l; [assumption |].
    now rewrite Qmult_0_l. }
  destruct (Qlt_le_dec 0 actual) as [Hshort | Hnone].
  - assert (Hshort' : (0 < validate_actual_outstanding metrics_data)%Q)
      by now rewrite <- Eactual.
    unfold validate_actual_outstanding in Hshort'.
    rewrite Hdaily, Hdue in Hshort'.
    apply actual_outstanding_shortfall in Hshort' as Hlt.
    assert (Hfloor : Qfloor paid < due).
    { apply floor_below. rewrite Epaid.
      apply Qlt_shift_div_r; [assumption |]. now rewrite Qmult_comm. }
    exists (Z.max 0 (due - py_int paid)).
    split.
    + now apply (expected_dpd_behind metrics_data actual due paid).
    + rewrite py_int_floor by assumption.
      split; [lia |]. split; [split; [lia | auto] | auto].
  - exists 0. split.
    + apply expected_dpd_on_schedule. right. eauto.
    + split; [lia |]. split.
      * split; [intros H; exfalso; exact (Qlt_not_le _ _ H Hnone) | lia].
      * intros Hdpd. unfold expected_early_indicator. rewrite Hdpd.
        discriminate.
Qed.

Lemma shortfall_iff_past_due_witness :
  exists dpd,
    expected_dpd behind_row = Ok dpd
    /\ 0 <= dpd
    /\ ((0 < 180)%Q <-> 1 <= dpd)
    /\ (current_dpd behind_row = dpd ->
        expected_early_indicator behind_row = true -> (0 < 180)%Q).
Proof.
  apply (shortfall_iff_past_due behind_row 40 (5 # 2) 180 7);
    reflexivity || discriminate.
Defined.

(** ** The delay rate *)

(** X16. The expected delay rate on the row as fetched has no value exactly
    when the loan age is NULL or negative, and is 0 at a loan age of 0,
    whatever the delays hold, NULL included.  It raises [TypeError]
    exactly when the loan age is positive and [current_dpd] is NULL, and
    it never divides by zero: the division by the loan age runs for
    positive ages only. *)
Theorem delay_rate_defined (metrics_data : Raw.MetricsLoan) :
  let rate := raw_validate_repayment_delay_rate metrics_data in
  (rate = Ok None
   <-> match Raw.loan_age metrics_data with
       | Some a => a < 0
       | None => True
       end)
  /\ (Raw.loan_age metrics_data = Some 0 -> rate = Ok (Some 0%Q))
  /\ (rate = Raise TypeError
      <-> (exists a, Raw.loan_age metrics_data = Some a /\ 0 < a)
          /\ Raw.current_dpd metrics_data = None)
  /\ rate <> Raise ZeroDivisionError.
Proof.
  cbv zeta. unfold raw_validate_repayment_delay_rate. cbv zeta.
  destruct (Raw.loan_age metrics_data) as [a |]; cbn [truthy_Z andb].
  - destruct (Z.gtb_spec a 0) as [Hpos | Hle].
    + assert (Hne : (a =? 0) = false) by (apply Z.eqb_neq; lia).
      rewrite Hne. cbn [negb andb].
      destruct (Raw.current_dpd metrics_data) as [dpd |];
        cbn [operand bind].
      * assert (Hrate : exists r,
                   expected_rate_of (Some a) dpd
                     (Raw.days_since_last_repayment metrics_data)
                   = Ok (Some r)).
        { destruct (Raw.days_since_last_repayment metrics_data) as [d |].
          - rewrite expected_rate_with_repayment by lia. now eexists.
          - rewrite expected_rate_without_repayment by lia. now eexists. }
        destruct Hrate as [r ->].
        split; [split; [discriminate | lia] |].
        split; [intros [= ->]; lia |].
        split; [| discriminate].
        split; [discriminate | intros [_ [=]]].
      * split; [split; [discriminate | lia] |].
        split; [intros [= ->]; lia |].
        split; [| discriminate].
        split; [intros _; split; [now exists a | reflexivity] | reflexivity].
    + rewrite andb_false_r.
      destruct (Z.eqb_spec a 0) as [-> | Hne].
      * split; [split; [discriminate | lia] |].
        split; [reflexivity |]. split; [| discriminate].
        split; [discriminate | intros [[a [[= <-] H]] _]; lia].
      * split; [split; [lia | reflexivity] |].
        split; [intros [= ->]; lia |]. split; [| discriminate].
        split; [discriminate | intros [[a' [[= <-] H]] _]; lia].
  - split; [tauto |]. split; [discriminate |]. split; [| discriminate].
    split; [discriminate | intros [[a [[=] _]] _]].
Qed.

(** X17. At a positive loan age the expected delay rate falls when a delay
    grows: it is 400 points per unit of [currentDPD / loanAge] without a
    repayment, and 200 points per unit of each delay over the loan age
    with one. *)
Theorem delay_rate_slope (loan_age current_dpd extra : Z)
    (since_last : option Z) :
  0 < loan_age -> 0 <= extra ->
  exists r1 r2 : Q,
    expected_rate_of (Some loan_age) current_dpd since_last = Ok (Some r1)
    /\ expected_rate_of (Some loan_age) (current_dpd + extra) since_last
       = Ok (Some r2)
    /\ (r2 <= r1)%Q
    /\ (r1 - r2
        == (if present since_last then 200 else 400)
           * (inject_Z extra / inject_Z loan_age))%Q.
Proof.
  intros Hage Hextra.
  assert (Hne : ~ (inject_Z loan_age == 0)%Q)
    by (intros E; apply (inject_Z_injective loan_age 0) in E; lia).
  pose proof (ratio_nonneg extra loan_age Hextra Hage) as Hratio.
  destruct since_last as [d |]; cbn [present].
  - rewrite !expected_rate_with_repayment by assumption.
    do 2 eexists. split; [reflexivity |]. split; [reflexivity |].
    rewrite !rate_affine.
    assert (E : (100 - 400 * (inject_Z (d + current_dpd) / 2
                              / inject_Z loan_age)
                 - (100 - 400 * (inject_Z (d + (current_dpd + extra)) / 2
                                 / inject_Z loan_age))
                 == 200 * (inject_Z extra / inject_Z loan_age))%Q).
    { rewrite !inject_Z_plus. now field. }
    split; [| exact E].
    set (x := (inject_Z extra / inject_Z loan_age)%Q) in *.
    set (a := (100 - _)%Q) in *. set (b := (100 - _)%Q) in *. lra.
  - rewrite !expected_rate_without_repayment by assumption.
    do 2 eexists. split; [reflexivity |]. split; [reflexivity |].
    rewrite !rate_affine.
    assert (E : (100 - 400 * (inject_Z current_dpd / inject_Z loan_age)
                 - (100 - 400 * (inject_Z (current_dpd + extra)
                                 / inject_Z loan_age))
                 == 400 * (inject_Z extra / inject_Z loan_age))%Q).
    { rewrite !inject_Z_plus. now field. }
    split; [| exact E].
    set (x := (inject_Z extra / inject_Z loan_age)%Q) in *.
    set (a := (100 - _)%Q) in *. set (b := (100 - _)%Q) in *. lra.
Qed.

Lemma delay_rate_slope_witness :
  exists r1 r2 : Q,
    expected_rate_of (Some 40) 2 (Some 4) = Ok (Some r1)
    /\ expected_rate_of (Some 40) (2 + 4) (Some 4) = Ok (Some r2)
    /\ (r2 <= r1)%Q
    /\ (r1 - r2 == 200 * (inject_Z 4 / inject_Z 40))%Q.
Proof.
  apply (delay_rate_slope 40 2 4 (Some 4)); [reflexivity | discriminate].
Defined.

(** ** Repayment totals *)

Section Totals.

Lemma fold_left_Qplus (xs : list Q) :
  forall a : Q, (fold_left Qplus xs a == a + fold_left Qplus xs 0)%Q.
Proof.
  induction xs as [| x xs IH]; intros a; cbn [fold_left].
  - ring.
  - rewrite (IH (a + x)%Q), (IH (0 + x)%Q). ring.
Qed.

Lemma py_sum_cons (x : Q) (xs : list Q) :
  (py_sum (x :: xs) == x + py_sum xs)%Q.
Proof.
  unfold py_sum. cbn [fold_left]. rewrite fold_left_Qplus. ring.
Qed.

Lemma py_sum_app (xs ys : list Q) :
  (py_sum (xs ++ ys) == py_sum xs + py_sum ys)%Q.
Proof.
  induction xs as [| x xs IH]; cbn [app].
  - unfold py_sum at 2. cbn. ring.
  - rewrite !py_sum_cons, IH. ring.
Qed.

Lemma py_sum_permutation (xs ys : list Q) :
  Permutation xs ys -> (py_sum xs == py_sum ys)%Q.
Proof.
  induction 1 as [| x xs ys _ IH | x y xs | xs ys zs _ IH1 _ IH2].
  - reflexivity.
  - now rewrite !py_sum_cons, IH.
  - rewrite !py_sum_cons. ring.
  - now rewrite IH1.
Qed.

End Totals.

(** X18. The expected totals do not depend on the order of the repayments,
    and the totals of two lists of repayments put end to end are the sums
    of their totals; an empty list gives 0 four times. *)
Theorem repayment_totals_additive (rs1 rs2 : list Repayment) :
  let t1 := validate_repayment_totals rs1 in
  let t2 := validate_repayment_totals rs2 in
  let t := validate_repayment_totals (rs1 ++ rs2) in
  (expected_principal t == expected_principal t1 + expected_principal t2
   /\ expected_interest t == expected_interest t1 + expected_interest t2
   /\ expected_fees t == expected_fees t1 + expected_fees t2
   /\ expected_total t == expected_total t1 + expected_total t2)%Q
  /\ (Permutation rs1 rs2 ->
      (expected_principal t1 == expected_principal t2
       /\ expected_interest t1 == expected_interest t2
       /\ expected_fees t1 == expected_fees t2
       /\ expected_total t1 == expected_total t2)%Q)
  /\ (rs1 = [] ->
      (expected_principal t1 == 0 /\ expected_interest t1 == 0
       /\ expected_fees t1 == 0 /\ expected_total t1 == 0)%Q).
Proof.
  cbv zeta. unfold validate_repayment_totals.
  cbn [expected_principal expected_interest expected_fees expected_total].
  split; [| split].
  - rewrite !map_app. repeat split; apply py_sum_app.
  - intros H. repeat split; apply py_sum_permutation;
      now apply Permutation_map.
  - intros ->. repeat split; reflexivity.
Qed.

(** ** Balances and the obligation *)

(** X19. When neither the interest nor the fees are overpaid, the expected
    total outstanding is the repayment amount, the obligation the daily
    amount is computed from, less what was paid of principal, interest
    and fees. *)
Theorem outstanding_is_obligation_less_paid (django_data : DjangoLoan)
    (metrics_data : MetricsLoan) :
  (total_interest_paid metrics_data
   <= loan_amount django_data * interest_rate django_data)%Q ->
  (total_fees_paid metrics_data
   <= decimal_or_zero (fee_amount django_data))%Q ->
  (expected_total_outstanding
     (validate_outstanding_balances django_data metrics_data)
   == repayment_amount django_data
      - (total_principal_paid metrics_data
         + total_interest_paid metrics_data
         + total_fees_paid metrics_data))%Q.
Proof.
  intros Hi Hf. unfold repayment_amount.
  cbn [validate_outstanding_balances expected_total_outstanding].
  rewrite (Q.max_r 0 (loan_amount django_data * interest_rate django_data
                      - total_interest_paid metrics_data)) by lra.
  rewrite (Q.max_r 0 (decimal_or_zero (fee_amount django_data)
                      - total_fees_paid metrics_data)) by lra.
  ring.
Qed.

Lemma outstanding_is_obligation_less_paid_witness :
  (expected_total_outstanding
     (validate_outstanding_balances scenario_loan scenario_row)
   == repayment_amount scenario_loan
      - (total_principal_paid scenario_row + total_interest_paid scenario_row
         + total_fees_paid scenario_row))%Q.
Proof.
  apply (outstanding_is_obligation_less_paid scenario_loan scenario_row);
    discriminate.
Defined.

(** ** The daily amount *)

(** X20. In exact arithmetic, with a positive term the expected daily
    amount times the term gives back the repayment amount.  On a snapshot
    that stores a daily amount equal to the expected one, when it is
    positive, the repayment days paid are expected in proportion: a loan
    repaid in full has paid the whole term, and one that repaid nothing
    has paid 0 days. *)
Theorem daily_amount_round_trip (django_data : DjangoLoan)
    (metrics_data : MetricsLoan) (daily expected : Q) :
  0 < loan_term_days django_data ->
  (0 < repayment_amount django_data)%Q ->
  daily_repayment_amount metrics_data = Some daily ->
  expected_daily_repayment django_data = Ok expected ->
  (daily == expected)%Q ->
  (expected * inject_Z (loan_term_days django_data)
   == repayment_amount django_data)%Q
  /\ exists paid : Q,
       expected_repayment_days_paid metrics_data = Ok (Some paid)
       /\ (paid * repayment_amount django_data
           == total_repayments metrics_data
              * inject_Z (loan_term_days django_data))%Q
       /\ ((total_repayments metrics_data == repayment_amount django_data)%Q
           -> (paid == inject_Z (loan_term_days django_data))%Q)
       /\ ((total_repayments metrics_data == 0)%Q -> (paid == 0)%Q).
Proof.
  intros Hterm Hamount Hstored Hexpected Hdaily.
  rewrite expected_daily_repayment_term in Hexpected by assumption.
  injection Hexpected as <-.
  set (R := repayment_amount django_data) in *.
  set (T := inject_Z (loan_term_days django_data)) in *.
  set (total := total_repayments metrics_data).
  assert (HT : (0 < T)%Q)
    by (subst T; change 0%Q with (inject_Z 0); now rewrite <- Zlt_Qlt).
  assert (HTne : ~ (T == 0)%Q)
    by (intros E; rewrite E in HT; exact (Qlt_irrefl _ HT)).
  assert (HRne : ~ (R == 0)%Q)
    by (intros E; rewrite E in Hamount; exact (Qlt_irrefl _ Hamount)).
  assert (Hpos : (0 < daily)%Q).
  { rewrite Hdaily. apply Qlt_shift_div_l; [assumption |].
    now rewrite Qmult_0_l. }
  split; [field; assumption |].
  exists (total / daily)%Q.
  assert (Hpaid : (total / daily == total * T / R)%Q)
    by (rewrite Hdaily; field; split; assumption).
  split.
  - unfold expected_repayment_days_paid.
    rewrite expected_repayment_days_paid_guarded, Hstored.
    now rewrite (proj2 (Qgt_bool_iff daily 0) Hpos).
  - split; [rewrite Hpaid; field; assumption |].
    split; intros E; rewrite Hpaid, E; field; assumption.
Qed.

Lemma daily_amount_round_trip_witness :
  (repayment_amount scenario_loan / inject_Z 30
   * inject_Z (loan_term_days scenario_loan)
   == repayment_amount scenario_loan)%Q
  /\ exists paid : Q,
       expected_repayment_days_paid scenario_daily_row = Ok (Some paid)
       /\ (paid * repayment_amount scenario_loan
           == total_repayments scenario_daily_row
              * inject_Z (loan_term_days scenario_loan))%Q
       /\ ((total_repayments scenario_daily_row
            == repayment_amount scenario_loan)%Q
           -> (paid == inject_Z (loan_term_days scenario_loan))%Q)
       /\ ((total_repayments scenario_daily_row == 0)%Q -> (paid == 0)%Q).
Proof.
  apply (daily_amount_round_trip scenario_loan scenario_daily_row 40
           (repayment_amount scenario_loan / inject_Z 30)%Q);
    reflexivity.
Defined.
